(** * Gemini native relay handlers and channel health policy

    A shallow embedding of

    - [relay/channel/gemini/relay-gemini-native.go]: the whole-response
      handler [GeminiTextGenerationHandler] and the stream handler
      [GeminiTextGenerationStreamHandler] with its one-chunk lookahead;
    - the channel health policy of package [service]:
      [ShouldDisableChannel] and [ShouldEnableChannel].

    Go's [int] is modelled as [Z] with the 64-bit wrap-around written out,
    byte slices and strings as [string], the closure variables of the stream
    callback as a record passed from step to step, and every
    effect on the outside world (forward writes, log lines) as an entry of
    a trace. *)

From stdpp Require Import base strings list gmap.
From stdpp Require Import pretty.
From Stdlib Require Import ZArith Lia Ascii String.

#[local] Set Warnings "-register-all".
#[local] Open Scope string_scope.
#[local] Open Scope list_scope.
#[local] Open Scope Z_scope.

(** ** Go integers *)

Module GoInt.

Definition min_int : Z := - 2 ^ 63.
Definition max_int : Z := 2 ^ 63 - 1.

(** Two's complement wrap-around of a 64-bit signed [int]. *)
Definition wrap (z : Z) : Z := (z + 2 ^ 63) mod 2 ^ 64 - 2 ^ 63.

Definition add (a b : Z) : Z := wrap (a + b).
Definition mul (a b : Z) : Z := wrap (a * b).
Definition incr (a : Z) : Z := add a 1.

Definition in_range (z : Z) : Prop := min_int <= z <= max_int.

End GoInt.

(** ** Go strings: [strings.TrimSpace]

    [strings.TrimSpace] removes leading and trailing white space as defined
    by Unicode ([unicode.IsSpace]), decoding UTF-8.  The white space runes
    and their encodings:
    U+0009..U+000D, U+0020 (one byte), U+0085 = C2 85, U+00A0 = C2 A0,
    U+1680 = E1 9A 80, U+2000..U+200A = E2 80 80..8A, U+2028 = E2 80 A8,
    U+2029 = E2 80 A9, U+202F = E2 80 AF, U+205F = E2 81 9F,
    U+3000 = E3 80 80.  An invalid sequence decodes to U+FFFD, which is
    not white space. *)

Module GoStrings.

Definition bytes (s : string) : list N :=
  N_of_ascii <$> list_ascii_of_string s.

Definition of_bytes (l : list N) : string :=
  string_of_list_ascii (ascii_of_N <$> l).

Definition asciiSpace (c : N) : bool :=
  ((9 <=? c) && (c <=? 13) || (c =? 32))%N.

Definition space2 (c1 c2 : N) : bool :=
  ((c1 =? 194) && ((c2 =? 133) || (c2 =? 160)))%N.

Definition space3 (c1 c2 c3 : N) : bool :=
  ((c1 =? 225) && (c2 =? 154) && (c3 =? 128)
   || (c1 =? 226) && (c2 =? 128)
      && ((128 <=? c3) && (c3 <=? 138) || (c3 =? 168) || (c3 =? 169)
          || (c3 =? 175))
   || (c1 =? 226) && (c2 =? 129) && (c3 =? 159)
   || (c1 =? 227) && (c2 =? 128) && (c3 =? 128))%N.

(** [strings.TrimLeftFunc s unicode.IsSpace] on the bytes of [s]. *)
Fixpoint trimLeft (l : list N) : list N :=
  match l with
  | [] => []
  | c1 :: l1 =>
      if asciiSpace c1 then trimLeft l1 else
      match l1 with
      | [] => l
      | c2 :: l2 =>
          if space2 c1 c2 then trimLeft l2 else
          match l2 with
          | [] => l
          | c3 :: l3 => if space3 c1 c2 c3 then trimLeft l3 else l
          end
      end
  end.

(** [strings.TrimRightFunc s unicode.IsSpace], on the reversed bytes: the
    last rune is found by walking back to its start byte, so a trailing
    white space rune is one of the encodings above read backwards. *)
Fixpoint trimRightRev (l : list N) : list N :=
  match l with
  | [] => []
  | c1 :: l1 =>
      if asciiSpace c1 then trimRightRev l1 else
      match l1 with
      | [] => l
      | c2 :: l2 =>
          if space2 c2 c1 then trimRightRev l2 else
          match l2 with
          | [] => l
          | c3 :: l3 => if space3 c3 c2 c1 then trimRightRev l3 else l
          end
      end
  end.

Definition TrimSpace (s : string) : string :=
  of_bytes (rev (trimRightRev (rev (trimLeft (bytes s))))).

(** An ASCII byte that is not white space. *)
Definition visible (c : N) : bool := ((c <? 128) && negb (asciiSpace c))%N.

End GoStrings.

(** ** Results of fallible calls *)

Inductive Result (A : Type) : Type :=
  | Ok (a : A)
  | Err (e : string).
Arguments Ok {A} a.
Arguments Err {A} e.

(** ** Package [types]: the gateway's error value *)

Module types.

(** Modelled from the spec: the error codes of package [types], which is
    not under src/; section 7 of the spec names the three the handlers
    use.  [ErrorCodeOther] stands for every other code of the package. *)
Inductive ErrorCode : Type :=
  | ErrorCodeBadResponseBody
  | ErrorCodeContentFiltered
  | ErrorCodeEmptyResponse
  | ErrorCodeOther (code : string).

(** Modelled from the spec: [types.NewAPIError], not under src/.  The
    fields are the ones the handlers set through its constructors and the
    policy reads: the wrapped error's message ([Error()]), the error
    code, the HTTP status and the skip-retry mark. *)
Record NewAPIError : Type := mkNewAPIError {
  Err_ : string;
  errorCode : ErrorCode;
  StatusCode : Z;
  skipRetry : bool
}.

Definition NewAPIErrorOptions : Type := NewAPIError -> NewAPIError.

(** Modelled from the spec: [types.ErrOptionWithSkipRetry] marks the
    error non-retryable. *)
Definition ErrOptionWithSkipRetry : NewAPIErrorOptions :=
  fun e => {| Err_ := Err_ e; errorCode := errorCode e;
              StatusCode := StatusCode e; skipRetry := true |}.

(** Modelled from the spec: [types.NewErrorWithStatusCode] builds the
    error from a message, a code and a status, then applies the
    options. *)
Definition NewErrorWithStatusCode (err : string) (code : ErrorCode)
    (statusCode : Z) (ops : list NewAPIErrorOptions) : NewAPIError :=
  foldl (fun e op => op e)
    {| Err_ := err; errorCode := code; StatusCode := statusCode;
       skipRetry := false |} ops.

(** Modelled from the spec: [types.NewOpenAIError], same arguments. *)
Definition NewOpenAIError (err : string) (code : ErrorCode)
    (statusCode : Z) (ops : list NewAPIErrorOptions) : NewAPIError :=
  foldl (fun e op => op e)
    {| Err_ := err; errorCode := code; StatusCode := statusCode;
       skipRetry := false |} ops.

(** The method [Error()] of the error value. *)
Definition Error (e : NewAPIError) : string := Err_ e.

(** Modelled from the spec: [types.IsSkipRetryError] reads the skip-retry
    mark. *)
Definition IsSkipRetryError (e : NewAPIError) : bool := skipRetry e.

(** What [ToOpenAIError] returns, as far as the policy reads it. *)
Record OpenAIError : Type := mkOpenAIError {
  Message : string;
  Type_ : string;
  Code : string
}.

(** Modelled from the spec: the fault classes of section 7.  A 4xx
    status is a client fault, a 5xx status a server fault. *)
Inductive FaultClass : Type := ClientFault | ServerFault | NoFault.

Definition fault_class (e : NewAPIError) : FaultClass :=
  if (400 <=? StatusCode e) && (StatusCode e <? 500) then ClientFault
  else if (500 <=? StatusCode e) && (StatusCode e <? 600) then ServerFault
  else NoFault.

(** An error is retryable by the outer gateway unless marked
    skip-retry. *)
Definition retryable (e : NewAPIError) : bool := negb (IsSkipRetryError e).

End types.

(** [net/http] status codes. *)
Module http.
Definition StatusBadRequest : Z := 400.
Definition StatusUnauthorized : Z := 401.
Definition StatusForbidden : Z := 403.
Definition StatusInternalServerError : Z := 500.
End http.

(** ** Package [dto]: the provider envelope and the usage record *)

Module dto.

(** Modelled from the spec: the declarations of package [dto] are not
    under src/; the records below carry the fields of the upstream
    envelope (section 6) that the handlers read, under the names the
    handlers use. *)
Record GeminiInlineData : Type := { MimeType : string }.

Record GeminiPart : Type := {
  InlineData : option GeminiInlineData;
  Text : string
}.

Record GeminiChatContent : Type := { Parts : list GeminiPart }.

Record GeminiChatCandidate : Type := { Content : GeminiChatContent }.

Record GeminiChatPromptFeedback : Type := { BlockReason : string }.

Record GeminiPromptTokensDetails : Type := {
  Modality : string;
  TokenCount : Z
}.

Record GeminiUsageMetadata : Type := {
  PromptTokenCount : Z;
  CandidatesTokenCount : Z;
  ThoughtsTokenCount : Z;
  TotalTokenCount : Z;
  UsageMetadata_PromptTokensDetails : list GeminiPromptTokensDetails
}.

Record GeminiChatResponse : Type := {
  Candidates : list GeminiChatCandidate;
  PromptFeedback : GeminiChatPromptFeedback;
  UsageMetadata : GeminiUsageMetadata
}.

(** Modelled from the spec: the normalized usage record of section 6. *)
Record InputTokenDetails : Type := {
  AudioTokens : Z;
  TextTokens : Z
}.

Record OutputTokenDetails : Type := { ReasoningTokens : Z }.

Record Usage : Type := {
  PromptTokens : Z;
  CompletionTokens : Z;
  TotalTokens : Z;
  PromptTokensDetails : InputTokenDetails;
  CompletionTokenDetails : OutputTokenDetails
}.

(** The zero value [dto.Usage{}]. *)
Definition Usage_zero : Usage :=
  {| PromptTokens := 0; CompletionTokens := 0; TotalTokens := 0;
     PromptTokensDetails := {| AudioTokens := 0; TextTokens := 0 |};
     CompletionTokenDetails := {| ReasoningTokens := 0 |} |}.

(** The zero value of the usage block, what decoding leaves when the
    envelope carries none. *)
Definition GeminiUsageMetadata_zero : GeminiUsageMetadata :=
  {| PromptTokenCount := 0; CandidatesTokenCount := 0;
     ThoughtsTokenCount := 0; TotalTokenCount := 0;
     UsageMetadata_PromptTokensDetails := [] |}.

(** Field assignments [usage.F = v]. *)
Definition set_PromptTokens (v : Z) (u : Usage) : Usage :=
  {| PromptTokens := v; CompletionTokens := CompletionTokens u;
     TotalTokens := TotalTokens u;
     PromptTokensDetails := PromptTokensDetails u;
     CompletionTokenDetails := CompletionTokenDetails u |}.

Definition set_CompletionTokens (v : Z) (u : Usage) : Usage :=
  {| PromptTokens := PromptTokens u; CompletionTokens := v;
     TotalTokens := TotalTokens u;
     PromptTokensDetails := PromptTokensDetails u;
     CompletionTokenDetails := CompletionTokenDetails u |}.

Definition set_TotalTokens (v : Z) (u : Usage) : Usage :=
  {| PromptTokens := PromptTokens u;
     CompletionTokens := CompletionTokens u; TotalTokens := v;
     PromptTokensDetails := PromptTokensDetails u;
     CompletionTokenDetails := CompletionTokenDetails u |}.

Definition set_ReasoningTokens (v : Z) (u : Usage) : Usage :=
  {| PromptTokens := PromptTokens u;
     CompletionTokens := CompletionTokens u;
     TotalTokens := TotalTokens u;
     PromptTokensDetails := PromptTokensDetails u;
     CompletionTokenDetails := {| ReasoningTokens := v |} |}.

Definition set_AudioTokens (v : Z) (u : Usage) : Usage :=
  {| PromptTokens := PromptTokens u;
     CompletionTokens := CompletionTokens u;
     TotalTokens := TotalTokens u;
     PromptTokensDetails :=
       {| AudioTokens := v;
          TextTokens := TextTokens (PromptTokensDetails u) |};
     CompletionTokenDetails := CompletionTokenDetails u |}.

Definition set_TextTokens (v : Z) (u : Usage) : Usage :=
  {| PromptTokens := PromptTokens u;
     CompletionTokens := CompletionTokens u;
     TotalTokens := TotalTokens u;
     PromptTokensDetails :=
       {| AudioTokens := AudioTokens (PromptTokensDetails u);
          TextTokens := v |};
     CompletionTokenDetails := CompletionTokenDetails u |}.

End dto.

(** ** Generic JSON values

    What [encoding/json] decodes into [interface{}]: the handler only asks
    whether a key is present and whether its value is an object. *)

Inductive JSON : Type :=
  | JNull
  | JBool (b : bool)
  | JNumber (literal : string)
  | JString (s : string)
  | JArray (l : list JSON)
  | JObject (m : gmap string JSON).

(** ** Effects

    Each call that reaches the outside world leaves one entry in the
    trace, in program order. *)

Inductive Event : Type :=
  | SetEventStreamHeaders
  | StringData (data : string)
  | IOCopyBytes (body : string)
  | CloseResponseBody
  | Println (msg : string)
  | LogDebug (msg : string)
  | LogWarn (msg : string)
  | LogError (msg : string).

(** The chunks written to the client, in the order of the writes. *)
Definition forwarded (tr : list Event) : list string :=
  omap (fun ev => match ev with StringData d => Some d | _ => None end) tr.

(** The whole bodies copied to the client. *)
Definition copied (tr : list Event) : list string :=
  omap (fun ev => match ev with IOCopyBytes b => Some b | _ => None end) tr.

(** The error lines logged. *)
Definition logged_errors (tr : list Event) : list string :=
  omap (fun ev => match ev with LogError m => Some m | _ => None end) tr.

(** [http.Response] as seen through [io.ReadAll(resp.Body)]. *)
Record Response : Type := { ReadAll_Body : Result string }.

(** [relaycommon.RelayInfo], the fields the handlers use. *)
Record RelayInfo : Type := {
  SendResponseCount : Z;
  UpstreamModelName : string;
  RelayInfo_PromptTokens : Z
}.

(** What a handler returns: [( *dto.Usage, *types.NewAPIError )]. *)
Definition HandlerResult : Type :=
  (option dto.Usage * option types.NewAPIError)%type.

(** ** Collaborators of the relay handlers

    Functions of this repository and of its libraries that the handlers
    call and that are not under src/.  The handlers are verified for every
    behaviour of these. *)

Class RelayEnv : Type := {
  (** [common.DebugEnabled] *)
  DebugEnabled : bool;
  (** [common.Unmarshal] into a fresh [dto.GeminiChatResponse] *)
  Unmarshal : string -> Result dto.GeminiChatResponse;
  (** [common.UnmarshalJsonStr] into a fresh [dto.GeminiChatResponse] *)
  UnmarshalJsonStr : string -> Result dto.GeminiChatResponse;
  (** [json.Unmarshal] into a [map[string]interface{}] *)
  json_Unmarshal : string -> Result (gmap string JSON);
  (** the method [IsBlocked] of the safety-feedback block *)
  IsBlocked : dto.GeminiChatPromptFeedback -> bool;
  (** [dto.IsEmptyThoughtResponse] *)
  IsEmptyThoughtResponse : dto.GeminiChatResponse -> bool;
  (** the error [helper.StringData] returns, given the trace so far *)
  StringData_error : list Event -> string -> option string;
  (** [service.ResponseText2Usage] *)
  ResponseText2Usage : string -> string -> Z -> dto.Usage
}.

(** ** Package [gemini]: the native handlers *)

Module gemini.
Import dto types.

(** The variables of [GeminiTextGenerationStreamHandler] that its
    callback captures and mutates, with [info.SendResponseCount] and the
    trace of effects. *)
Record Session : Type := mkSession {
  usage : Usage;
  imageCount : Z;
  responseText : string;
  pendingData : string;
  isPendingEmptyThought : bool;
  contentBlocked : bool;
  blockReason : string;
  sendResponseCount : Z;
  trace : list Event
}.

Definition emit (ev : Event) (s : Session) : Session :=
  mkSession (usage s) (imageCount s) (responseText s) (pendingData s)
    (isPendingEmptyThought s) (contentBlocked s) (blockReason s)
    (sendResponseCount s) (trace s ++ [ev]).

Definition set_usage (u : Usage) (s : Session) : Session :=
  mkSession u (imageCount s) (responseText s) (pendingData s)
    (isPendingEmptyThought s) (contentBlocked s) (blockReason s)
    (sendResponseCount s) (trace s).

Definition set_imageCount (n : Z) (s : Session) : Session :=
  mkSession (usage s) n (responseText s) (pendingData s)
    (isPendingEmptyThought s) (contentBlocked s) (blockReason s)
    (sendResponseCount s) (trace s).

Definition set_responseText (t : string) (s : Session) : Session :=
  mkSession (usage s) (imageCount s) t (pendingData s)
    (isPendingEmptyThought s) (contentBlocked s) (blockReason s)
    (sendResponseCount s) (trace s).

Definition set_pending (data : string) (empty : bool) (s : Session)
    : Session :=
  mkSession (usage s) (imageCount s) (responseText s) data empty
    (contentBlocked s) (blockReason s) (sendResponseCount s) (trace s).

Definition set_blocked (blocked : bool) (reason : string) (s : Session)
    : Session :=
  mkSession (usage s) (imageCount s) (responseText s) (pendingData s)
    (isPendingEmptyThought s) blocked reason (sendResponseCount s)
    (trace s).

Definition set_sendResponseCount (n : Z) (s : Session) : Session :=
  mkSession (usage s) (imageCount s) (responseText s) (pendingData s)
    (isPendingEmptyThought s) (contentBlocked s) (blockReason s) n
    (trace s).

(** Two sessions with the same variables. *)
Definition same_variables (s s' : Session) : Prop :=
  usage s = usage s' /\ imageCount s = imageCount s'
  /\ responseText s = responseText s' /\ pendingData s = pendingData s'
  /\ isPendingEmptyThought s = isPendingEmptyThought s'
  /\ contentBlocked s = contentBlocked s' /\ blockReason s = blockReason s'
  /\ sendResponseCount s = sendResponseCount s'.

(** Two sessions that differ at most in what they logged: the same
    variables and the same chunks written to the client. *)
Definition same_but_log (s s' : Session) : Prop :=
  same_variables s s' /\ forwarded (trace s) = forwarded (trace s').

(** What the counting of parts and the usage update leave alone. *)
Definition same_flow (s s' : Session) : Prop :=
  pendingData s = pendingData s'
  /\ isPendingEmptyThought s = isPendingEmptyThought s'
  /\ contentBlocked s = contentBlocked s' /\ blockReason s = blockReason s'
  /\ sendResponseCount s = sendResponseCount s'
  /\ trace s = trace s'.

(** The bookkeeping of a session that started with a send count of zero,
    after at most [n] chunks: the send count is the number of chunks
    written (as a Go [int]), images are counted only on chunks that are
    written, and each chunk causes at most two writes. *)
Definition counted (n : nat) (s : Session) : Prop :=
  sendResponseCount s
  = GoInt.wrap (Z.of_nat (List.length (forwarded (trace s))))
  /\ (imageCount s <> 0 -> forwarded (trace s) <> [])
  /\ (List.length (forwarded (trace s)) <= 2 * n)%nat.

(** Modelled from the spec: [helper.StreamScannerHandler] is not under
    src/.  It hands the chunks of the upstream stream to the callback in
    arrival order and stops reading when the callback returns false (the
    callback's own comments: false stops the processing, true goes on to
    the next chunk). *)
Fixpoint StreamScannerHandler (chunks : list string)
    (dataHandler : string -> Session -> bool * Session) (s : Session)
    : Session :=
  match chunks with
  | [] => s
  | data :: rest =>
      let '(continue, s') := dataHandler data s in
      if continue then StreamScannerHandler rest dataHandler s' else s'
  end.

Section Handlers.
Context `{RelayEnv}.

(** The loop over [UsageMetadata.PromptTokensDetails]. *)
Definition promptTokensDetails (details : list GeminiPromptTokensDetails)
    (u : Usage) : Usage :=
  foldl (fun u detail =>
           if (Modality detail =? "AUDIO")%string
           then set_AudioTokens (TokenCount detail) u
           else if (Modality detail =? "TEXT")%string
           then set_TextTokens (TokenCount detail) u
           else u) u details.

(** The presence test on the raw body: [usageMetadata] is an object
    and has no [candidatesTokenCount]. *)
Definition missingCandidatesTokenCount (responseBody : string) : bool :=
  match json_Unmarshal responseBody with
  | Ok raw =>
      match raw !! "usageMetadata" with
      | Some (JObject um) =>
          match um !! "candidatesTokenCount" with
          | Some _ => false
          | None => true
          end
      | _ => false
      end
  | Err _ => false
  end.

Definition GeminiTextGenerationHandler (resp : Response)
    : list Event * HandlerResult :=
  let '(tr, result) :=
    match ReadAll_Body resp with
    | Err err =>
        ([], (None, Some (NewOpenAIError err ErrorCodeBadResponseBody
                            http.StatusInternalServerError [])))
    | Ok responseBody =>
        let tr := if DebugEnabled then [Println responseBody] else [] in
        match Unmarshal responseBody with
        | Err err =>
            (tr, (None, Some (NewOpenAIError err ErrorCodeBadResponseBody
                                http.StatusInternalServerError [])))
        | Ok geminiResponse =>
            if IsBlocked (PromptFeedback geminiResponse) then
              (tr ++ [LogWarn ("Gemini content blocked: "
                         +:+ BlockReason (PromptFeedback geminiResponse))],
               (None, Some (NewErrorWithStatusCode
                  ("content blocked by Gemini safety filter: "
                     +:+ BlockReason (PromptFeedback geminiResponse))
                  ErrorCodeContentFiltered http.StatusBadRequest
                  [ErrOptionWithSkipRetry])))
            else
              let um := UsageMetadata geminiResponse in
              let usage :=
                {| PromptTokens := PromptTokenCount um;
                   CompletionTokens :=
                     GoInt.add (CandidatesTokenCount um)
                               (ThoughtsTokenCount um);
                   TotalTokens := TotalTokenCount um;
                   PromptTokensDetails := PromptTokensDetails Usage_zero;
                   CompletionTokenDetails :=
                     CompletionTokenDetails Usage_zero |} in
              let usage :=
                set_ReasoningTokens (ThoughtsTokenCount um) usage in
              let usage :=
                promptTokensDetails
                  (UsageMetadata_PromptTokensDetails um) usage in
              if missingCandidatesTokenCount responseBody then
                (tr ++ [LogWarn "Gemini response missing candidatesTokenCount, treating as empty response"],
                 (None, Some (NewErrorWithStatusCode
                    "no response from Gemini API"
                    ErrorCodeEmptyResponse http.StatusBadRequest
                    [ErrOptionWithSkipRetry])))
              else
                (tr ++ [IOCopyBytes responseBody], (Some usage, None))
        end
    end in
  (tr ++ [CloseResponseBody], result).

(** [helper.StringData(c, data)] with the handling of its error and the
    increment of [info.SendResponseCount] that follow every call. *)
Definition send (data : string) (s : Session) : Session :=
  let err := StringData_error (trace s) data in
  let s := emit (StringData data) s in
  let s := match err with
           | Some e => emit (LogError e) s
           | None => s
           end in
  set_sendResponseCount (GoInt.incr (sendResponseCount s)) s.

(** The body of the loop over the parts of a candidate. *)
Definition countPart (s : Session) (part : GeminiPart) : Session :=
  let s :=
    match InlineData part with
    | Some d =>
        if negb (MimeType d =? "")%string
        then set_imageCount (GoInt.incr (imageCount s)) s
        else s
    | None => s
    end in
  if negb (Text part =? "")%string
  then set_responseText (responseText s +:+ Text part) s
  else s.

Definition countParts (candidates : list GeminiChatCandidate)
    (s : Session) : Session :=
  foldl (fun s candidate => foldl countPart s (Parts (Content candidate)))
        s candidates.

(** The overwrite of the running usage by a chunk's usage block. *)
Definition updateUsage (um : GeminiUsageMetadata) (s : Session)
    : Session :=
  if negb (TotalTokenCount um =? 0) then
    let u := usage s in
    let u := set_PromptTokens (PromptTokenCount um) u in
    let u := set_CompletionTokens
               (GoInt.add (CandidatesTokenCount um)
                          (ThoughtsTokenCount um)) u in
    let u := set_TotalTokens (TotalTokenCount um) u in
    let u := set_ReasoningTokens (ThoughtsTokenCount um) u in
    set_usage
      (promptTokensDetails (UsageMetadata_PromptTokensDetails um) u) s
  else s.

(** The log line for a block reported while no empty-thought chunk is
    held: the stream has started, nothing else happens. *)
Definition warnStarted (feedback : GeminiChatPromptFeedback) (s : Session)
    : Session :=
  if IsBlocked feedback
  then emit (LogWarn ("Gemini content blocked (stream already started): "
                        +:+ BlockReason feedback)) s
  else s.

(** The release of the held chunk before the current one is processed. *)
Definition releasePending (s : Session) : Session :=
  if negb (pendingData s =? "")%string
  then set_pending "" false (send (pendingData s) s)
  else s.

(** The callback given to [helper.StreamScannerHandler]. *)
Definition dataHandler (data : string) (s : Session) : bool * Session :=
  match UnmarshalJsonStr data with
  | Err err =>
      (false,
       emit (LogError ("error unmarshalling stream response: " +:+ err)) s)
  | Ok geminiResponse =>
      let feedback := PromptFeedback geminiResponse in
      if IsBlocked feedback && isPendingEmptyThought s then
        let s := set_blocked true (BlockReason feedback) s in
        (false,
         emit (LogWarn
                 ("Gemini content blocked (detected empty thought pattern): "
                    +:+ blockReason s)) s)
      else
        let s := warnStarted feedback s in
        if (sendResponseCount s =? 0) && (pendingData s =? "")%string
           && IsEmptyThoughtResponse geminiResponse
        then
          let s := set_pending data true s in
          (true,
           emit (LogDebug
             "Detected potential empty thought pattern, pending first chunk")
             s)
        else
          let s := releasePending s in
          let s := countParts (Candidates geminiResponse) s in
          let s := updateUsage (UsageMetadata geminiResponse) s in
          (true, send data s)
  end.

(** The variables at the start of a stream session. *)
Definition Session_init (info : RelayInfo) : Session :=
  mkSession Usage_zero 0 "" "" false false "" (SendResponseCount info)
            [SetEventStreamHeaders].

(** A chunk still held when the stream ends is sent. *)
Definition releaseAtEnd (s : Session) : Session :=
  if negb (pendingData s =? "")%string
  then send (pendingData s) s
  else s.

(** The completion tokens estimated from the images counted. *)
Definition imageEstimate (s : Session) : Session :=
  if negb (imageCount s =? 0) then
    if CompletionTokens (usage s) =? 0
    then set_usage
           (set_CompletionTokens (GoInt.mul (imageCount s) 258) (usage s)) s
    else s
  else s.

(** The usage estimated from the visible text, or the zero record. *)
Definition textEstimate (info : RelayInfo) (s : Session) : Session :=
  if CompletionTokens (usage s) =? 0 then
    if negb (responseText s =? "")%string
    then set_usage
           (ResponseText2Usage (responseText s) (UpstreamModelName info)
              (RelayInfo_PromptTokens info)) s
    else set_usage Usage_zero s
  else s.

(** What follows the scanner: the session as the stream left it is
    resolved into the handler's result. *)
Definition resolve (info : RelayInfo) (s : Session)
    : Session * HandlerResult :=
  if contentBlocked s then
    (s, (None, Some (NewErrorWithStatusCode
           ("content blocked by Gemini safety filter: " +:+ blockReason s)
           ErrorCodeContentFiltered http.StatusBadRequest
           [ErrOptionWithSkipRetry])))
  else
    let s := releaseAtEnd s in
    if sendResponseCount s =? 0 then
      (s, (None, Some (NewOpenAIError
             "no response received from Gemini API"
             ErrorCodeEmptyResponse http.StatusInternalServerError [])))
    else
      let s := imageEstimate s in
      let s := textEstimate info s in
      (s, (Some (usage s), None)).

Definition GeminiTextGenerationStreamHandler (info : RelayInfo)
    (chunks : list string) : Session * HandlerResult :=
  resolve info
    (StreamScannerHandler chunks dataHandler (Session_init info)).

End Handlers.

End gemini.

(** ** Package [service]: the channel health policy *)

(** Collaborators of the policy that are not under src/: the global
    switches of package [common], two constants, the accessors of the
    error value that package [types] computes, and the keyword search. *)
Class ServiceEnv : Type := {
  (** [common.AutomaticDisableChannelEnabled] *)
  AutomaticDisableChannelEnabled : bool;
  (** [common.AutomaticEnableChannelEnabled] *)
  AutomaticEnableChannelEnabled : bool;
  (** [constant.ChannelTypeGemini] *)
  ChannelTypeGemini : Z;
  (** [common.ChannelStatusAutoDisabled] *)
  ChannelStatusAutoDisabled : Z;
  (** [types.IsChannelError] *)
  IsChannelError : types.NewAPIError -> bool;
  (** the method [ToOpenAIError] of the error value *)
  ToOpenAIError : types.NewAPIError -> types.OpenAIError;
  (** [strings.ToLower] *)
  strings_ToLower : string -> string;
  (** [AcSearch(text, dict, stopImmediately)] *)
  AcSearch : string -> list string -> bool -> bool * list string;
  (** [operation_setting.AutomaticDisableKeywords] *)
  AutomaticDisableKeywords : list string
}.

Module service.
Import types.

(** The literal that the Gemini branch of [ShouldDisableChannel] compares
    the trimmed error message with. *)
Definition quotaExhaustedMessage : string :=
  "You exceeded your current quota, please check your plan and billing details. For more information on this error, head to: https://ai.google.dev/gemini-api/docs/rate-limits.".

Section Policy.
Context `{ServiceEnv}.

(** The first [switch], over [oaiErr.Code]. *)
Definition fatalCode (code : string) : bool :=
  (code =? "invalid_api_key")%string
  || (code =? "account_deactivated")%string
  || (code =? "billing_not_active")%string
  || (code =? "pre_consume_token_quota_failed")%string.

(** The second [switch], over [oaiErr.Type]. *)
Definition fatalType (type : string) : bool :=
  (type =? "insufficient_quota")%string
  || (type =? "insufficient_user_quota")%string
  || (type =? "authentication_error")%string
  || (type =? "permission_error")%string
  || (type =? "forbidden")%string.

(** The last two statements: the keyword search over the lower-cased
    message. *)
Definition keywordSearch (err : NewAPIError) : bool :=
  let lowerMessage := strings_ToLower (Error err) in
  fst (AcSearch lowerMessage AutomaticDisableKeywords true).

Definition ShouldDisableChannel (channelType : Z)
    (err : option NewAPIError) : bool :=
  if negb AutomaticDisableChannelEnabled then false else
  match err with
  | None => false
  | Some err =>
      if IsChannelError err then true else
      if IsSkipRetryError err then false else
      if StatusCode err =? http.StatusUnauthorized then true else
      if (StatusCode err =? http.StatusForbidden)
         && (channelType =? ChannelTypeGemini) then true else
      let oaiErr := ToOpenAIError err in
      if fatalCode (Code oaiErr) then true else
      if fatalType (Type_ oaiErr) then true else
      if (channelType =? ChannelTypeGemini)
         && (GoStrings.TrimSpace (Error err) =? quotaExhaustedMessage)%string
      then true else
      keywordSearch err
  end.

Definition ShouldEnableChannel (newAPIError : option NewAPIError)
    (status : Z) : bool :=
  if negb AutomaticEnableChannelEnabled then false else
  match newAPIError with
  | Some _ => false
  | None =>
      if negb (status =? ChannelStatusAutoDisabled) then false else true
  end.

End Policy.

End service.

(** ** A concrete environment

    One behaviour of the collaborators, used to run the handlers and the
    policy on concrete inputs. *)

Module Sample.
Import dto types.

(** Lower-casing of the ASCII letters. *)
Definition lower (s : string) : string :=
  GoStrings.of_bytes
    ((fun c => if (65 <=? c)%N && (c <=? 90)%N then (c + 32)%N else c)
       <$> GoStrings.bytes s).

Fixpoint contains (text pat : string) : bool :=
  String.prefix pat text
  || match text with
     | EmptyString => false
     | String _ rest => contains rest pat
     end.

Definition search (text : string) (dict : list string) (stop : bool)
    : bool * list string :=
  let found := filter (fun k => Is_true (contains text k)) dict in
  (bool_decide (found <> []), if stop then take 1 found else found).

(** A channel error is recognised by a code with the prefix
    [channel:]. *)
Definition channelCode (e : NewAPIError) : bool :=
  match errorCode e with
  | ErrorCodeOther code => String.prefix "channel:" code
  | _ => false
  end.

Definition openAIError (e : NewAPIError) : OpenAIError :=
  {| Message := Error e;
     Type_ := "upstream_error";
     Code := match errorCode e with
             | ErrorCodeOther code => code
             | ErrorCodeBadResponseBody => "bad_response_body"
             | ErrorCodeContentFiltered => "content_filtered"
             | ErrorCodeEmptyResponse => "empty_response"
             end |}.

Definition serviceEnv : ServiceEnv :=
  {| AutomaticDisableChannelEnabled := true;
     AutomaticEnableChannelEnabled := true;
     ChannelTypeGemini := 24;
     ChannelStatusAutoDisabled := 3;
     IsChannelError := channelCode;
     ToOpenAIError := openAIError;
     strings_ToLower := lower;
     AcSearch := search;
     AutomaticDisableKeywords := ["your credit balance is too low"] |}.

(** Errors handed to the policy. *)
Definition upstreamError (message : string) (status : Z) (skip : bool)
    : NewAPIError :=
  {| Err_ := message; errorCode := ErrorCodeOther "upstream_error";
     StatusCode := status; skipRetry := skip |}.

(** The transient rate-limit variant: the canonical text followed by a
    metric-specific line. *)
Definition transientMessage : string :=
  service.quotaExhaustedMessage
  +:+ String (ascii_of_N 10)
        "* Quota exceeded for metric: generativelanguage.googleapis.com/generate_content_free_tier_requests, limit: 10".

(** The canonical text followed by a line feed only. *)
Definition paddedMessage : string :=
  service.quotaExhaustedMessage +:+ String (ascii_of_N 10) "".

(** A credential error of the channel itself that is also marked
    skip-retry. *)
Definition channelKeyError : NewAPIError :=
  {| Err_ := "invalid channel key";
     errorCode := ErrorCodeOther "channel:invalid_key";
     StatusCode := 400; skipRetry := true |}.

(** JSON texts are written with an apostrophe where the text has a double
    quote. *)
Definition json (s : string) : string :=
  GoStrings.of_bytes
    ((fun c => if (c =? 39)%N then 34%N else c) <$> GoStrings.bytes s).

(** A first chunk with an empty reasoning part. *)
Definition chunkThought : string :=
  json "{'candidates':[{'content':{'parts':[{'text':'','thought':true}],'role':'model'}}]}".

Definition responseThought : GeminiChatResponse :=
  {| Candidates :=
       [ {| Content := {| Parts := [ {| InlineData := None; Text := "" |} ] |} |} ];
     PromptFeedback := {| BlockReason := "" |};
     UsageMetadata := GeminiUsageMetadata_zero |}.

(** An envelope that reports a block; its usage block has no
    [candidatesTokenCount]. *)
Definition chunkBlocked : string :=
  json "{'promptFeedback':{'blockReason':'PROHIBITED_CONTENT'},'usageMetadata':{'promptTokenCount':7,'totalTokenCount':7}}".

Definition responseBlocked : GeminiChatResponse :=
  {| Candidates := [];
     PromptFeedback := {| BlockReason := "PROHIBITED_CONTENT" |};
     UsageMetadata :=
       {| PromptTokenCount := 7; CandidatesTokenCount := 0;
          ThoughtsTokenCount := 0; TotalTokenCount := 7;
          UsageMetadata_PromptTokensDetails := [] |} |}.

Definition rawBlocked : gmap string JSON :=
  {[ "promptFeedback" :=
       JObject {[ "blockReason" := JString "PROHIBITED_CONTENT" ]};
     "usageMetadata" :=
       JObject {[ "promptTokenCount" := JNumber "7";
                  "totalTokenCount" := JNumber "7" ]} ]}.

(** An envelope with visible text and a full usage block. *)
Definition chunkText : string :=
  json "{'candidates':[{'content':{'parts':[{'text':'Hello'}]}}],'usageMetadata':{'promptTokenCount':7,'candidatesTokenCount':2,'totalTokenCount':9}}".

Definition responseText_ : GeminiChatResponse :=
  {| Candidates :=
       [ {| Content :=
              {| Parts := [ {| InlineData := None; Text := "Hello" |} ] |} |} ];
     PromptFeedback := {| BlockReason := "" |};
     UsageMetadata :=
       {| PromptTokenCount := 7; CandidatesTokenCount := 2;
          ThoughtsTokenCount := 0; TotalTokenCount := 9;
          UsageMetadata_PromptTokensDetails := [] |} |}.

Definition rawText : gmap string JSON :=
  {[ "candidates" :=
       JArray [ JObject {[ "content" :=
         JObject {[ "parts" :=
           JArray [ JObject {[ "text" := JString "Hello" ]} ] ]} ]} ];
     "usageMetadata" :=
       JObject {[ "promptTokenCount" := JNumber "7";
                  "candidatesTokenCount" := JNumber "2";
                  "totalTokenCount" := JNumber "9" ]} ]}.

(** An envelope with three inline images and no usage block. *)
Definition chunkImages : string :=
  json "{'candidates':[{'content':{'parts':[{'inlineData':{'mimeType':'image/png','data':'AA=='}},{'inlineData':{'mimeType':'image/png','data':'AQ=='}},{'inlineData':{'mimeType':'image/jpeg','data':'Ag=='}}]}}]}".

Definition responseImages : GeminiChatResponse :=
  {| Candidates :=
       [ {| Content :=
              {| Parts :=
                   [ {| InlineData := Some {| MimeType := "image/png" |};
                        Text := "" |};
                     {| InlineData := Some {| MimeType := "image/png" |};
                        Text := "" |};
                     {| InlineData := Some {| MimeType := "image/jpeg" |};
                        Text := "" |} ] |} |} ];
     PromptFeedback := {| BlockReason := "" |};
     UsageMetadata := GeminiUsageMetadata_zero |}.

(** An envelope with visible text and no usage block at all. *)
Definition bodyNoUsage : string :=
  json "{'candidates':[{'content':{'parts':[{'text':'Hi'}]}}]}".

Definition responseNoUsage : GeminiChatResponse :=
  {| Candidates :=
       [ {| Content :=
              {| Parts := [ {| InlineData := None; Text := "Hi" |} ] |} |} ];
     PromptFeedback := {| BlockReason := "" |};
     UsageMetadata := GeminiUsageMetadata_zero |}.

Definition rawNoUsage : gmap string JSON :=
  {[ "candidates" :=
       JArray [ JObject {[ "content" :=
         JObject {[ "parts" :=
           JArray [ JObject {[ "text" := JString "Hi" ]} ] ]} ]} ] ]}.

(** An envelope that is not blocked and whose usage block has no
    [candidatesTokenCount]. *)
Definition bodyNoCandidates : string :=
  json "{'usageMetadata':{'promptTokenCount':7,'totalTokenCount':7}}".

Definition responseNoCandidates : GeminiChatResponse :=
  {| Candidates := [];
     PromptFeedback := {| BlockReason := "" |};
     UsageMetadata :=
       {| PromptTokenCount := 7; CandidatesTokenCount := 0;
          ThoughtsTokenCount := 0; TotalTokenCount := 7;
          UsageMetadata_PromptTokensDetails := [] |} |}.

Definition rawNoCandidates : gmap string JSON :=
  {[ "usageMetadata" :=
       JObject {[ "promptTokenCount" := JNumber "7";
                  "totalTokenCount" := JNumber "7" ]} ]}.

(** A payload that is not JSON. *)
Definition chunkMalformed : string := "{not json".

(** The decoders, as a table over the texts above; every other text is
    refused. *)
Definition decode (data : string) : Result GeminiChatResponse :=
  if (data =? chunkThought)%string then Ok responseThought
  else if (data =? chunkBlocked)%string then Ok responseBlocked
  else if (data =? chunkText)%string then Ok responseText_
  else if (data =? chunkImages)%string then Ok responseImages
  else if (data =? bodyNoUsage)%string then Ok responseNoUsage
  else if (data =? bodyNoCandidates)%string then Ok responseNoCandidates
  else Err "invalid character in JSON text".

Definition decodeRaw (data : string) : Result (gmap string JSON) :=
  if (data =? chunkBlocked)%string then Ok rawBlocked
  else if (data =? chunkText)%string then Ok rawText
  else if (data =? bodyNoUsage)%string then Ok rawNoUsage
  else if (data =? bodyNoCandidates)%string then Ok rawNoCandidates
  else Err "invalid character in JSON text".

(** A block is signalled by a block reason. *)
Definition blocked (f : GeminiChatPromptFeedback) : bool :=
  negb (BlockReason f =? "")%string.

(** An empty reasoning step: candidates without visible text or inline
    data, and no usage yet. *)
Definition emptyThought (r : GeminiChatResponse) : bool :=
  negb (bool_decide (Candidates r = []))
  && forallb (fun c =>
       forallb (fun p => (Text p =? "")%string
                         && bool_decide (InlineData p = None))
               (Parts (Content c))) (Candidates r)
  && (TotalTokenCount (UsageMetadata r) =? 0).

(** An estimate of one token per character. *)
Definition estimate (text model : string) (promptTokens : Z) : Usage :=
  let n := Z.of_nat (String.length text) in
  set_TotalTokens (promptTokens + n)
    (set_CompletionTokens n (set_PromptTokens promptTokens Usage_zero)).

Definition relayEnv : RelayEnv :=
  {| DebugEnabled := false;
     Unmarshal := decode;
     UnmarshalJsonStr := decode;
     json_Unmarshal := decodeRaw;
     IsBlocked := blocked;
     IsEmptyThoughtResponse := emptyThought;
     StringData_error := fun _ _ => None;
     ResponseText2Usage := estimate |}.

Definition info : RelayInfo :=
  {| SendResponseCount := 0; UpstreamModelName := "gemini-2.5-flash";
     RelayInfo_PromptTokens := 7 |}.

End Sample.


(** ** Package [gemini]: the embeddings handler *)

(** [relaycommon.RelayInfo], the fields [NativeGeminiEmbeddingHandler]
    uses. *)
Record EmbeddingInfo : Type := {
  Embedding_PromptTokens : Z;
  IsGeminiBatchEmbedding : bool
}.

(** The decoders of the two embedding shapes: the error of
    [common.Unmarshal] into a fresh [dto.GeminiBatchEmbeddingResponse] and
    into a fresh [dto.GeminiEmbeddingResponse]; the decoded value itself is
    not used by the handler. *)
Class EmbeddingEnv : Type := {
  UnmarshalBatchEmbedding : string -> option string;
  UnmarshalEmbedding : string -> option string
}.

Module embedding.
Import dto types.

Section Handler.
Context `{RelayEnv} `{EmbeddingEnv}.

Definition NativeGeminiEmbeddingHandler (resp : Response)
    (info : EmbeddingInfo) : list Event * HandlerResult :=
  let '(tr, result) :=
    match ReadAll_Body resp with
    | Err err =>
        ([], (None, Some (NewOpenAIError err ErrorCodeBadResponseBody
                            http.StatusInternalServerError [])))
    | Ok responseBody =>
        let tr := if DebugEnabled then [Println responseBody] else [] in
        let usage :=
          {| PromptTokens := Embedding_PromptTokens info;
             CompletionTokens := CompletionTokens Usage_zero;
             TotalTokens := Embedding_PromptTokens info;
             PromptTokensDetails := PromptTokensDetails Usage_zero;
             CompletionTokenDetails := CompletionTokenDetails Usage_zero |} in
        let err :=
          if IsGeminiBatchEmbedding info
          then UnmarshalBatchEmbedding responseBody
          else UnmarshalEmbedding responseBody in
        match err with
        | Some err =>
            (tr, (None, Some (NewOpenAIError err ErrorCodeBadResponseBody
                                http.StatusInternalServerError [])))
        | None => (tr ++ [IOCopyBytes responseBody], (Some usage, None))
        end
    end in
  (tr ++ [CloseResponseBody], result).

End Handler.

End embedding.

(** ** Package [service]: disabling and enabling a channel *)

(** Modelled from the spec: [types.ChannelError], not under src/; the
    fields are the ones [DisableChannel] reads. *)
Record ChannelError : Type := {
  ChannelId : Z;
  ChannelName : string;
  UsingKey : string;
  AutoBan : bool
}.

(** The calls of [DisableChannel] and [EnableChannel] that reach the
    outside world, in program order. *)
Inductive ServiceEvent : Type :=
  | SysLog (msg : string)
  | UpdateChannelStatus (channelId : Z) (usingKey : string) (status : Z)
                        (reason : string)
  | NotifyRootUser (notifyType subject content : string).

(** Collaborators of the two operations that are not under src/. *)
Class ChannelEnv : Type := {
  (** [dto.NotifyTypeChannelUpdate] *)
  NotifyTypeChannelUpdate : string;
  (** [common.ChannelStatusEnabled] *)
  ChannelStatusEnabled : Z;
  (** what [model.UpdateChannelStatus] returns, given the calls so far *)
  UpdateChannelStatus_success :
    list ServiceEvent -> Z -> string -> Z -> string -> bool
}.

(** The status updates asked of the store. *)
Definition updates (tr : list ServiceEvent)
    : list (Z * string * Z * string) :=
  omap (fun ev => match ev with
                  | UpdateChannelStatus i k st r => Some (i, k, st, r)
                  | _ => None
                  end) tr.

(** The notifications sent. *)
Definition notifications (tr : list ServiceEvent)
    : list (string * string * string) :=
  omap (fun ev => match ev with
                  | NotifyRootUser t sub c => Some (t, sub, c)
                  | _ => None
                  end) tr.

Module channel.

Section Operations.
Context `{ServiceEnv} `{ChannelEnv}.

(** [fmt.Sprintf] of the format [%s_%d_%d]; an [int] under [%d] is
    written in decimal, with a minus sign when negative. *)
Definition formatNotifyType (channelId status : Z) : string :=
  NotifyTypeChannelUpdate +:+ "_" +:+ pretty channelId +:+ "_"
  +:+ pretty status.

Definition DisableChannel (channelError : ChannelError) (reason : string)
    : list ServiceEvent :=
  let tr :=
    [SysLog ("通道「" +:+ ChannelName channelError +:+ "」（#"
             +:+ pretty (ChannelId channelError)
             +:+ "）发生错误，准备禁用，原因：" +:+ reason)] in
  if negb (AutoBan channelError) then
    tr ++ [SysLog ("通道「" +:+ ChannelName channelError +:+ "」（#"
                   +:+ pretty (ChannelId channelError)
                   +:+ "）未启用自动禁用功能，跳过禁用操作")]
  else
    let success :=
      UpdateChannelStatus_success tr (ChannelId channelError)
        (UsingKey channelError) ChannelStatusAutoDisabled reason in
    let tr :=
      tr ++ [UpdateChannelStatus (ChannelId channelError)
               (UsingKey channelError) ChannelStatusAutoDisabled reason] in
    if success then
      let subject :=
        "通道「" +:+ ChannelName channelError +:+ "」（#"
        +:+ pretty (ChannelId channelError) +:+ "）已被禁用" in
      let content :=
        "通道「" +:+ ChannelName channelError +:+ "」（#"
        +:+ pretty (ChannelId channelError) +:+ "）已被禁用，原因："
        +:+ reason in
      tr ++ [NotifyRootUser
               (formatNotifyType (ChannelId channelError)
                                 ChannelStatusAutoDisabled)
               subject content]
    else tr.

Definition EnableChannel (channelId : Z) (usingKey channelName : string)
    : list ServiceEvent :=
  let success :=
    UpdateChannelStatus_success [] channelId usingKey ChannelStatusEnabled
      "" in
  let tr := [UpdateChannelStatus channelId usingKey ChannelStatusEnabled ""] in
  if success then
    let subject :=
      "通道「" +:+ channelName +:+ "」（#" +:+ pretty channelId
      +:+ "）已被启用" in
    let content :=
      "通道「" +:+ channelName +:+ "」（#" +:+ pretty channelId
      +:+ "）已被启用" in
    tr ++ [NotifyRootUser (formatNotifyType channelId ChannelStatusEnabled)
             subject content]
  else tr.

End Operations.

End channel.

(** ** Notions used to state the properties of the handlers *)

Module notions.
Import dto gemini.

(** The count of the last entry of a modality, if there is one. *)
Definition lastOf (modality : string)
    (details : list GeminiPromptTokensDetails) : option Z :=
  foldl (fun acc detail =>
           if (Modality detail =? modality)%string
           then Some (TokenCount detail) else acc) None details.

(** The chunk a session holds back, if any. *)
Definition held (s : Session) : list string :=
  if negb (pendingData s =? "")%string then [pendingData s] else [].

(** A session the scanner is still feeding: no block decision, and while an
    empty-thought chunk is marked as held nothing has been written and the
    chunk is there. *)
Definition running (s : Session) : Prop :=
  contentBlocked s = false
  /\ (isPendingEmptyThought s = true ->
      forwarded (trace s) = [] /\ pendingData s <> "").

(** Two sessions with the same accounting: usage, images and text. *)
Definition same_accounting (s s' : Session) : Prop :=
  usage s = usage s' /\ imageCount s = imageCount s'
  /\ responseText s = responseText s'.

(** The bytes of a string that are the given one. *)
Definition occurs (c : ascii) (s : string) : Prop :=
  In c (list_ascii_of_string s).

End notions.

(** ** More concrete inputs *)

Module MoreSamples.
Import dto types.

Definition bodyEmbedding : string :=
  Sample.json "{'embedding':{'values':[0.5,0.25]}}".

Definition bodyBatchEmbedding : string :=
  Sample.json "{'embeddings':[{'values':[0.5]},{'values':[0.25]}]}".

(** Each decoder accepts the two well-formed bodies (a field that is
    absent is left at its zero value) and refuses every other text. *)
Definition embeddingEnv : EmbeddingEnv :=
  {| UnmarshalBatchEmbedding := fun data =>
       if (data =? bodyBatchEmbedding)%string || (data =? bodyEmbedding)%string
       then None else Some "invalid character in JSON text";
     UnmarshalEmbedding := fun data =>
       if (data =? bodyBatchEmbedding)%string || (data =? bodyEmbedding)%string
       then None else Some "invalid character in JSON text" |}.

Definition embeddingInfo : EmbeddingInfo :=
  {| Embedding_PromptTokens := 12; IsGeminiBatchEmbedding := false |}.

(** A store that knows the channels 1 to 9. *)
Definition channelEnv : ChannelEnv :=
  {| NotifyTypeChannelUpdate := "channel_update";
     ChannelStatusEnabled := 1;
     UpdateChannelStatus_success := fun _ channelId _ _ _ =>
       (1 <=? channelId) && (channelId <=? 9) |}.

Definition channelSeven : ChannelError :=
  {| ChannelId := 7; ChannelName := "gemini-main"; UsingKey := "key-a";
     AutoBan := true |}.

Definition channelManual : ChannelError :=
  {| ChannelId := 7; ChannelName := "gemini-main"; UsingKey := "key-a";
     AutoBan := false |}.

(** A usage block with details of three modalities, one of them twice. *)
Definition sampleDetails : list GeminiPromptTokensDetails :=
  [ {| Modality := "AUDIO"; TokenCount := 3 |};
    {| Modality := "IMAGE"; TokenCount := 5 |};
    {| Modality := "TEXT"; TokenCount := 11 |};
    {| Modality := "AUDIO"; TokenCount := 4 |} ].

Definition sampleMetadata : GeminiUsageMetadata :=
  {| PromptTokenCount := 20; CandidatesTokenCount := 6;
     ThoughtsTokenCount := 2; TotalTokenCount := 28;
     UsageMetadata_PromptTokensDetails := sampleDetails |}.

(** An envelope whose usage block is the JSON null. *)
Definition bodyNullUsage : string :=
  Sample.json "{'candidates':[{'content':{'parts':[{'text':'Hi'}]}}],'usageMetadata':null}".

Definition rawNullUsage : gmap string JSON :=
  {[ "candidates" :=
       JArray [ JObject {[ "content" :=
         JObject {[ "parts" :=
           JArray [ JObject {[ "text" := JString "Hi" ]} ] ]} ]} ];
     "usageMetadata" := JNull ]}.

(** The environment of [Sample], its decoders extended to that body. *)
Definition relayEnv : RelayEnv :=
  {| DebugEnabled := true;
     Unmarshal := fun data =>
       if (data =? bodyNullUsage)%string then Ok Sample.responseNoUsage
       else Sample.decode data;
     UnmarshalJsonStr := Sample.decode;
     json_Unmarshal := fun data =>
       if (data =? bodyNullUsage)%string then Ok rawNullUsage
       else Sample.decodeRaw data;
     IsBlocked := Sample.blocked;
     IsEmptyThoughtResponse := Sample.emptyThought;
     StringData_error := fun _ _ => None;
     ResponseText2Usage := Sample.estimate |}.

(** An envelope whose usage block stands under the key [usagemetadata].
    Go's [encoding/json] matches the keys of an object with the fields of a
    struct without regard to letter case, and keeps every key as it is
    written in a generic map: a typed decoder built on it finds the usage
    block, and the generic map has no [usageMetadata] key. *)
Definition bodyLowercaseUsage : string :=
  Sample.json "{'candidates':[{'content':{'parts':[{'text':'Hi'}]}}],'usagemetadata':{'promptTokenCount':5,'candidatesTokenCount':1,'totalTokenCount':6}}".

Definition responseLowercaseUsage : GeminiChatResponse :=
  {| Candidates :=
       [ {| Content :=
              {| Parts := [ {| InlineData := None; Text := "Hi" |} ] |} |} ];
     PromptFeedback := {| BlockReason := "" |};
     UsageMetadata :=
       {| PromptTokenCount := 5; CandidatesTokenCount := 1;
          ThoughtsTokenCount := 0; TotalTokenCount := 6;
          UsageMetadata_PromptTokensDetails := [] |} |}.

Definition rawLowercaseUsage : gmap string JSON :=
  {[ "candidates" :=
       JArray [ JObject {[ "content" :=
         JObject {[ "parts" :=
           JArray [ JObject {[ "text" := JString "Hi" ]} ] ]} ]} ];
     "usagemetadata" :=
       JObject {[ "promptTokenCount" := JNumber "5";
                  "candidatesTokenCount" := JNumber "1";
                  "totalTokenCount" := JNumber "6" ]} ]}.

(** The environment of [Sample], its decoders extended to that body. *)
Definition relayEnvLowercase : RelayEnv :=
  {| DebugEnabled := false;
     Unmarshal := fun data =>
       if (data =? bodyLowercaseUsage)%string then Ok responseLowercaseUsage
       else Sample.decode data;
     UnmarshalJsonStr := Sample.decode;
     json_Unmarshal := fun data =>
       if (data =? bodyLowercaseUsage)%string then Ok rawLowercaseUsage
       else Sample.decodeRaw data;
     IsBlocked := Sample.blocked;
     IsEmptyThoughtResponse := Sample.emptyThought;
     StringData_error := fun _ _ => None;
     ResponseText2Usage := Sample.estimate |}.

End MoreSamples.

(** * Properties of [strings.TrimSpace] *)

Module GoStringsFacts.
Import GoStrings.

Lemma of_bytes_bytes (s : string) : of_bytes (bytes s) = s.
Proof.
  unfold of_bytes, bytes. rewrite <- list_fmap_compose.
  rewrite <- (string_of_list_ascii_of_string s) at 2. f_equal.
  induction (list_ascii_of_string s) as [|a l IH]; [reflexivity|].
  rewrite fmap_cons, IH. simpl. rewrite ascii_N_embedding. reflexivity.
Qed.

Lemma bytes_app (s t : string) : bytes (s +:+ t) = bytes s ++ bytes t.
Proof.
  unfold bytes. induction s as [|a s IH]; simpl; [reflexivity|].
  f_equal. exact IH.
Qed.

Lemma trimLeft_visible (c : N) (l : list N) :
  visible c = true -> trimLeft (c :: l) = c :: l.
Proof.
  unfold visible. intros Hv.
  apply andb_true_iff in Hv as [Hlt Hsp]. apply N.ltb_lt in Hlt.
  apply negb_true_iff in Hsp.
  assert (H194 : (c =? 194)%N = false) by (apply N.eqb_neq; lia).
  assert (H225 : (c =? 225)%N = false) by (apply N.eqb_neq; lia).
  assert (H226 : (c =? 226)%N = false) by (apply N.eqb_neq; lia).
  assert (H227 : (c =? 227)%N = false) by (apply N.eqb_neq; lia).
  destruct l as [|c2 [|c3 l3]]; simpl; rewrite Hsp; try reflexivity;
    unfold space2, space3; rewrite ?H194, ?H225, ?H226, ?H227; reflexivity.
Qed.

Lemma trimRightRev_visible (c : N) (l : list N) :
  visible c = true -> trimRightRev (c :: l) = c :: l.
Proof.
  unfold visible. intros Hv.
  apply andb_true_iff in Hv as [Hlt Hsp]. apply N.ltb_lt in Hlt.
  apply negb_true_iff in Hsp.
  assert (H133 : (c =? 133)%N = false) by (apply N.eqb_neq; lia).
  assert (H160 : (c =? 160)%N = false) by (apply N.eqb_neq; lia).
  assert (H128 : (c =? 128)%N = false) by (apply N.eqb_neq; lia).
  assert (H159 : (c =? 159)%N = false) by (apply N.eqb_neq; lia).
  assert (H168 : (c =? 168)%N = false) by (apply N.eqb_neq; lia).
  assert (H169 : (c =? 169)%N = false) by (apply N.eqb_neq; lia).
  assert (H175 : (c =? 175)%N = false) by (apply N.eqb_neq; lia).
  assert (Hge : (128 <=? c)%N = false) by (apply N.leb_gt; lia).
  destruct l as [|c2 [|c3 l3]]; simpl; rewrite Hsp; try reflexivity;
    unfold space2, space3;
    rewrite ?H133, ?H160, ?H128, ?H159, ?H168, ?H169, ?H175, ?Hge;
    simpl; rewrite ?andb_false_r; reflexivity.
Qed.

(** A string that begins and ends with a visible ASCII character is left as
    it is. *)
Lemma TrimSpace_visible_ends (s : string) (first last : N) (mid : list N) :
  bytes s = first :: mid ++ [last] ->
  visible first = true -> visible last = true ->
  TrimSpace s = s.
Proof.
  intros Hs Hf Hl. unfold TrimSpace. rewrite Hs.
  rewrite trimLeft_visible by exact Hf.
  change (first :: mid ++ [last]) with ((first :: mid) ++ [last]).
  rewrite rev_unit.
  rewrite trimRightRev_visible by exact Hl.
  rewrite <- rev_unit, rev_involutive.
  change ((first :: mid) ++ [last]) with (first :: mid ++ [last]).
  rewrite <- Hs. apply of_bytes_bytes.
Qed.

Lemma TrimSpace_quotaExhaustedMessage :
  TrimSpace service.quotaExhaustedMessage = service.quotaExhaustedMessage.
Proof. vm_compute. reflexivity. Qed.

(** The canonical message followed by more text that ends with a visible
    character is not the canonical message after trimming. *)
Lemma TrimSpace_quota_suffix (rest : string) (c : ascii) :
  visible (N_of_ascii c) = true ->
  TrimSpace (service.quotaExhaustedMessage +:+ rest +:+ String c "")
  <> service.quotaExhaustedMessage.
Proof.
  intros Hc.
  set (q := service.quotaExhaustedMessage).
  assert (Hq : exists tl, bytes q = 89%N :: tl)
    by (eexists; vm_compute; reflexivity).
  destruct Hq as [tl Hq].
  rewrite (TrimSpace_visible_ends _ 89%N (N_of_ascii c) (tl ++ bytes rest)).
  - intros Heq. apply (f_equal bytes) in Heq.
    rewrite !bytes_app in Heq. apply (f_equal (@List.length N)) in Heq.
    rewrite !length_app in Heq. simpl in Heq. lia.
  - rewrite !bytes_app, Hq. simpl. rewrite <- app_assoc. reflexivity.
  - reflexivity.
  - exact Hc.
Qed.

End GoStringsFacts.

(** * Properties of the channel health policy *)

Section PolicyProperties.
Context `{ServiceEnv}.
Import types service.

(** The policy's cascade once the switch is on and the error is present,
    one rule per line. *)
Lemma ShouldDisableChannel_cascade (channelType : Z) (err : NewAPIError) :
  AutomaticDisableChannelEnabled = true ->
  ShouldDisableChannel channelType (Some err) =
    IsChannelError err
    || negb (IsSkipRetryError err)
       && ((StatusCode err =? http.StatusUnauthorized)
           || (StatusCode err =? http.StatusForbidden)
              && (channelType =? ChannelTypeGemini)
           || fatalCode (Code (ToOpenAIError err))
           || fatalType (Type_ (ToOpenAIError err))
           || (channelType =? ChannelTypeGemini)
              && (GoStrings.TrimSpace (Error err) =? quotaExhaustedMessage)%string
           || keywordSearch err).
Proof.
  intros Hon. unfold ShouldDisableChannel. rewrite Hon. simpl.
  destruct (IsChannelError err); simpl; [reflexivity|].
  destruct (IsSkipRetryError err); simpl; [reflexivity|].
  destruct (StatusCode err =? http.StatusUnauthorized); simpl; [reflexivity|].
  destruct ((StatusCode err =? http.StatusForbidden)
            && (channelType =? ChannelTypeGemini)); simpl; [reflexivity|].
  destruct (fatalCode _); simpl; [reflexivity|].
  destruct (fatalType _); simpl; [reflexivity|].
  destruct ((channelType =? ChannelTypeGemini) && _); reflexivity.
Qed.

(** C10.  The channel-error test comes before the skip-retry test: with
    automatic disabling on, an error flagged both as an intrinsic channel
    error and as skip-retry disables the channel, whatever the channel
    type, status, code or message. *)
Theorem ShouldDisableChannel_channel_error_precedes_skip_retry
    (channelType : Z) (err : NewAPIError) :
  AutomaticDisableChannelEnabled = true ->
  IsChannelError err = true ->
  IsSkipRetryError err = true ->
  ShouldDisableChannel channelType (Some err) = true.
Proof.
  intros Hon Hchan _. rewrite ShouldDisableChannel_cascade by exact Hon.
  rewrite Hchan. reflexivity.
Qed.

(** C7, as the code has it.  With automatic disabling on and an error that
    is not marked skip-retry (or is flagged as a channel error): status 401
    disables for every channel type; status 403 disables for the Gemini
    channel type; for any other channel type a 403 decides nothing by
    itself, the outcome is that of the checks on the code, the type and the
    keywords. *)
Theorem ShouldDisableChannel_unauthorized_forbidden
    (channelType : Z) (err : NewAPIError) :
  AutomaticDisableChannelEnabled = true ->
  IsSkipRetryError err = false \/ IsChannelError err = true ->
  (StatusCode err = http.StatusUnauthorized ->
     ShouldDisableChannel channelType (Some err) = true)
  /\ (StatusCode err = http.StatusForbidden ->
      channelType = ChannelTypeGemini ->
      ShouldDisableChannel channelType (Some err) = true)
  /\ (StatusCode err = http.StatusForbidden ->
      channelType <> ChannelTypeGemini ->
      IsChannelError err = false ->
      ShouldDisableChannel channelType (Some err) =
        fatalCode (Code (ToOpenAIError err))
        || fatalType (Type_ (ToOpenAIError err))
        || keywordSearch err).
Proof.
  intros Hon Hflags.
  rewrite ShouldDisableChannel_cascade by exact Hon.
  repeat split.
  - intros ->. change (401 =? http.StatusUnauthorized) with true.
    destruct Hflags as [-> | ->]; simpl; [apply orb_true_r | reflexivity].
  - intros -> ->. rewrite !Z.eqb_refl.
    destruct Hflags as [-> | ->]; simpl; [apply orb_true_r | reflexivity].
  - intros -> Hne Hchan. rewrite Hchan.
    destruct Hflags as [-> | Hc]; [|congruence].
    apply Z.eqb_neq in Hne. rewrite Hne. simpl.
    rewrite orb_false_r. reflexivity.
Qed.

(** C2, as the code has it.  For the Gemini channel type, with automatic
    disabling on and an error that is not marked skip-retry: the override
    compares the message with its surrounding white space trimmed to the
    canonical permanent-quota message, and returns true on equality, in
    particular for the canonical message itself; when the trimmed message
    differs and no earlier rule fires, the result is the keyword search's;
    the canonical message followed by more text that ends in a visible
    character does differ. *)
Theorem ShouldDisableChannel_gemini_quota_override (err : NewAPIError) :
  AutomaticDisableChannelEnabled = true ->
  IsSkipRetryError err = false ->
  (GoStrings.TrimSpace (Error err) = quotaExhaustedMessage ->
     ShouldDisableChannel ChannelTypeGemini (Some err) = true)
  /\ (Error err = quotaExhaustedMessage ->
      ShouldDisableChannel ChannelTypeGemini (Some err) = true)
  /\ (GoStrings.TrimSpace (Error err) <> quotaExhaustedMessage ->
      IsChannelError err = false ->
      StatusCode err <> http.StatusUnauthorized ->
      StatusCode err <> http.StatusForbidden ->
      fatalCode (Code (ToOpenAIError err)) = false ->
      fatalType (Type_ (ToOpenAIError err)) = false ->
      ShouldDisableChannel ChannelTypeGemini (Some err) = keywordSearch err)
  /\ (forall (rest : string) (c : ascii),
      GoStrings.visible (N_of_ascii c) = true ->
      Error err = quotaExhaustedMessage +:+ rest +:+ String c "" ->
      GoStrings.TrimSpace (Error err) <> quotaExhaustedMessage).
Proof.
  intros Hon Hskip.
  rewrite ShouldDisableChannel_cascade by exact Hon.
  rewrite Hskip, Z.eqb_refl. simpl negb. rewrite andb_true_l.
  assert (Htrim : GoStrings.TrimSpace (Error err) = quotaExhaustedMessage ->
                  IsChannelError err
                  || ((StatusCode err =? http.StatusUnauthorized)
                      || (StatusCode err =? http.StatusForbidden) && true
                      || fatalCode (Code (ToOpenAIError err))
                      || fatalType (Type_ (ToOpenAIError err))
                      || true && (GoStrings.TrimSpace (Error err)
                                  =? quotaExhaustedMessage)%string
                      || keywordSearch err) = true).
  { intros Heq. apply String.eqb_eq in Heq. rewrite Heq. simpl.
    rewrite !orb_true_r. reflexivity. }
  split; [exact Htrim|]. split; [|split].
  - intros Heq. apply Htrim. rewrite Heq.
    apply GoStringsFacts.TrimSpace_quotaExhaustedMessage.
  - intros Hne Hchan H401 H403 Hcode Htype.
    apply String.eqb_neq in Hne. apply Z.eqb_neq in H401, H403.
    rewrite Hne, Hchan, H401, H403, Hcode, Htype. reflexivity.
  - intros rest c Hc ->. apply GoStringsFacts.TrimSpace_quota_suffix, Hc.
Qed.

(** With the switch off or without an error the policy never disables. *)
Lemma ShouldDisableChannel_off (channelType : Z) (err : option NewAPIError) :
  AutomaticDisableChannelEnabled = false \/ err = None ->
  ShouldDisableChannel channelType err = false.
Proof.
  intros [Hoff | ->]; unfold ShouldDisableChannel.
  - rewrite Hoff. reflexivity.
  - destruct AutomaticDisableChannelEnabled; reflexivity.
Qed.

End PolicyProperties.


(** ** The policy on concrete errors *)

Section PolicyExamples.
Import types service.

Lemma ShouldDisableChannel_channel_error_precedes_skip_retry_witness :
  ShouldDisableChannel (H := Sample.serviceEnv) 1 (Some Sample.channelKeyError)
  = true.
Proof.
  apply (ShouldDisableChannel_channel_error_precedes_skip_retry
           (H := Sample.serviceEnv) 1 Sample.channelKeyError);
    reflexivity.
Defined.

(** C7 as stated fails: a 401 marked skip-retry does not disable, for any
    channel type; neither does a 403 marked skip-retry on a Gemini
    channel. *)
Lemma ShouldDisableChannel_unauthorized_skip_retry :
  ShouldDisableChannel (H := Sample.serviceEnv) 1
    (Some (Sample.upstreamError "unauthorized" 401 true)) = false
  /\ ShouldDisableChannel (H := Sample.serviceEnv) 24
       (Some (Sample.upstreamError "unauthorized" 401 true)) = false
  /\ ShouldDisableChannel (H := Sample.serviceEnv) 24
       (Some (Sample.upstreamError "forbidden" 403 true)) = false.
Proof. repeat split; vm_compute; reflexivity. Qed.

Lemma ShouldDisableChannel_unauthorized_forbidden_witness :
  ShouldDisableChannel (H := Sample.serviceEnv) 1
    (Some (Sample.upstreamError "unauthorized" 401 false)) = true
  /\ ShouldDisableChannel (H := Sample.serviceEnv) 24
       (Some (Sample.upstreamError "forbidden" 403 false)) = true
  /\ ShouldDisableChannel (H := Sample.serviceEnv) 1
       (Some (Sample.upstreamError "forbidden" 403 false)) = false.
Proof.
  split; [|split].
  - exact (proj1 (ShouldDisableChannel_unauthorized_forbidden
             (H := Sample.serviceEnv) 1
             (Sample.upstreamError "unauthorized" 401 false)
             eq_refl (or_introl eq_refl)) eq_refl).
  - exact (proj1 (proj2 (ShouldDisableChannel_unauthorized_forbidden
             (H := Sample.serviceEnv) 24
             (Sample.upstreamError "forbidden" 403 false)
             eq_refl (or_introl eq_refl))) eq_refl eq_refl).
  - refine (eq_trans
              (proj2 (proj2 (ShouldDisableChannel_unauthorized_forbidden
                 (H := Sample.serviceEnv) 1
                 (Sample.upstreamError "forbidden" 403 false)
                 eq_refl (or_introl eq_refl))) _ _ _) _).
    + reflexivity.
    + discriminate.
    + reflexivity.
    + vm_compute. reflexivity.
Defined.

(** C2 as stated fails: the canonical message itself does not disable when
    the error is marked skip-retry, and a message that is not the canonical
    one (a line feed follows it) triggers the override, no keyword
    matching it. *)
Lemma ShouldDisableChannel_gemini_quota_not_exact :
  ShouldDisableChannel (H := Sample.serviceEnv) 24
    (Some (Sample.upstreamError quotaExhaustedMessage 429 true)) = false
  /\ Sample.paddedMessage <> quotaExhaustedMessage
  /\ keywordSearch (H := Sample.serviceEnv)
       (Sample.upstreamError Sample.paddedMessage 429 false) = false
  /\ ShouldDisableChannel (H := Sample.serviceEnv) 24
       (Some (Sample.upstreamError Sample.paddedMessage 429 false)) = true.
Proof.
  split; [vm_compute; reflexivity|].
  split; [intros Heq; apply (f_equal String.length) in Heq;
          vm_compute in Heq; discriminate|].
  split; vm_compute; reflexivity.
Qed.

Lemma ShouldDisableChannel_gemini_quota_override_witness :
  ShouldDisableChannel (H := Sample.serviceEnv) 24
    (Some (Sample.upstreamError quotaExhaustedMessage 429 false)) = true
  /\ ShouldDisableChannel (H := Sample.serviceEnv) 24
       (Some (Sample.upstreamError Sample.transientMessage 429 false)) = false.
Proof.
  split.
  - exact (proj1 (proj2 (ShouldDisableChannel_gemini_quota_override
             (H := Sample.serviceEnv)
             (Sample.upstreamError quotaExhaustedMessage 429 false)
             eq_refl eq_refl)) eq_refl).
  - refine (eq_trans
              (proj1 (proj2 (proj2 (ShouldDisableChannel_gemini_quota_override
                 (H := Sample.serviceEnv)
                 (Sample.upstreamError Sample.transientMessage 429 false)
                 eq_refl eq_refl))) _ _ _ _ _ _) _).
    + vm_compute. discriminate.
    + reflexivity.
    + discriminate.
    + discriminate.
    + reflexivity.
    + reflexivity.
    + vm_compute. reflexivity.
Defined.

End PolicyExamples.

(** * Properties of the whole-response handler *)

Section WholeResponseProperties.
Context `{RelayEnv}.
Import dto types gemini.

Lemma copied_app (a b : list Event) : copied (a ++ b) = copied a ++ copied b.
Proof. apply omap_app. Qed.

Lemma forwarded_app (a b : list Event) :
  forwarded (a ++ b) = forwarded a ++ forwarded b.
Proof. apply omap_app. Qed.

(** The debug print copies nothing to the client. *)
Lemma debug_print_silent (responseBody : string) :
  copied (if DebugEnabled then [Println responseBody] else []) = []
  /\ forwarded (if DebugEnabled then [Println responseBody] else []) = [].
Proof. destruct DebugEnabled; split; reflexivity. Qed.

(** C5.  A whole response whose decoded safety feedback signals a block is
    answered with [ContentFiltered], status 400 (client fault), marked
    skip-retry, and no byte of the body is copied downstream. *)
Theorem GeminiTextGenerationHandler_blocked
    (resp : Response) (responseBody : string)
    (geminiResponse : GeminiChatResponse) :
  ReadAll_Body resp = Ok responseBody ->
  Unmarshal responseBody = Ok geminiResponse ->
  IsBlocked (PromptFeedback geminiResponse) = true ->
  exists (tr : list Event) (e : NewAPIError),
    GeminiTextGenerationHandler resp = (tr, (None, Some e))
    /\ errorCode e = ErrorCodeContentFiltered
    /\ StatusCode e = http.StatusBadRequest
    /\ fault_class e = ClientFault
    /\ retryable e = false
    /\ copied tr = [] /\ forwarded tr = [].
Proof.
  intros Hread Hparse Hblocked.
  unfold GeminiTextGenerationHandler.
  rewrite Hread, Hparse, Hblocked.
  eexists _, _. split; [reflexivity|].
  repeat split.
  - rewrite !copied_app, (proj1 (debug_print_silent responseBody)).
    reflexivity.
  - rewrite !forwarded_app, (proj2 (debug_print_silent responseBody)).
    reflexivity.
Qed.

(** C4, as the code has it.  A whole response that decodes, signals no
    block, and whose raw [usageMetadata] is an object without
    [candidatesTokenCount] is answered with [EmptyResponse], status 400
    (client fault), marked skip-retry; nothing is copied downstream. *)
Theorem GeminiTextGenerationHandler_missing_candidatesTokenCount
    (resp : Response) (responseBody : string)
    (geminiResponse : GeminiChatResponse)
    (raw um : gmap string JSON) :
  ReadAll_Body resp = Ok responseBody ->
  Unmarshal responseBody = Ok geminiResponse ->
  IsBlocked (PromptFeedback geminiResponse) = false ->
  json_Unmarshal responseBody = Ok raw ->
  raw !! "usageMetadata" = Some (JObject um) ->
  um !! "candidatesTokenCount" = None ->
  exists (tr : list Event) (e : NewAPIError),
    GeminiTextGenerationHandler resp = (tr, (None, Some e))
    /\ errorCode e = ErrorCodeEmptyResponse
    /\ StatusCode e = http.StatusBadRequest
    /\ fault_class e = ClientFault
    /\ retryable e = false
    /\ copied tr = [].
Proof.
  intros Hread Hparse Hblocked Hraw Hum Hcand.
  unfold GeminiTextGenerationHandler, missingCandidatesTokenCount.
  rewrite Hread, Hparse, Hblocked, Hraw, Hum, Hcand.
  eexists _, _. split; [reflexivity|].
  repeat split.
  rewrite !copied_app, (proj1 (debug_print_silent responseBody)).
  reflexivity.
Qed.

(** The usage record of an envelope without usage block. *)
Lemma usage_of_zero_metadata :
  promptTokensDetails
    (UsageMetadata_PromptTokensDetails GeminiUsageMetadata_zero)
    (set_ReasoningTokens (ThoughtsTokenCount GeminiUsageMetadata_zero)
       {| PromptTokens := PromptTokenCount GeminiUsageMetadata_zero;
          CompletionTokens :=
            GoInt.add (CandidatesTokenCount GeminiUsageMetadata_zero)
                      (ThoughtsTokenCount GeminiUsageMetadata_zero);
          TotalTokens := TotalTokenCount GeminiUsageMetadata_zero;
          PromptTokensDetails := PromptTokensDetails Usage_zero;
          CompletionTokenDetails := CompletionTokenDetails Usage_zero |})
  = Usage_zero.
Proof. reflexivity. Qed.

(** The presence test fails only on a raw body whose [usageMetadata] is an
    object without [candidatesTokenCount]. *)
Lemma missingCandidatesTokenCount_true (responseBody : string) :
  missingCandidatesTokenCount responseBody = true ->
  exists raw um : gmap string JSON,
    json_Unmarshal responseBody = Ok raw
    /\ raw !! "usageMetadata" = Some (JObject um)
    /\ um !! "candidatesTokenCount" = None.
Proof.
  unfold missingCandidatesTokenCount.
  destruct (json_Unmarshal responseBody) as [raw|]; [|discriminate].
  destruct (raw !! "usageMetadata") as [[| | | | |um]|] eqn:Hum;
    try discriminate.
  destruct (um !! "candidatesTokenCount") eqn:Hc; [discriminate|].
  intros _. exists raw, um. auto.
Qed.

(** The loop over the prompt token details leaves the counts as they are. *)
Lemma promptTokensDetails_counts (details : list GeminiPromptTokensDetails)
    (u : Usage) :
  PromptTokens (promptTokensDetails details u) = PromptTokens u
  /\ CompletionTokens (promptTokensDetails details u) = CompletionTokens u
  /\ TotalTokens (promptTokensDetails details u) = TotalTokens u
  /\ CompletionTokenDetails (promptTokensDetails details u)
     = CompletionTokenDetails u.
Proof.
  unfold promptTokensDetails. revert u.
  induction details as [|d ds IH]; intros u; [repeat split|].
  cbn [foldl].
  destruct (Modality d =? "AUDIO")%string;
    [|destruct (Modality d =? "TEXT")%string];
    destruct (IH (set_AudioTokens (TokenCount d) u)) as (? & ? & ? & ?);
    destruct (IH (set_TextTokens (TokenCount d) u)) as (? & ? & ? & ?);
    destruct (IH u) as (? & ? & ? & ?);
    repeat split; assumption.
Qed.

(** C9.  The [EmptyResponse] answer of the whole-response handler is given
    only for a raw body that has a [usageMetadata] object (without
    [candidatesTokenCount]).  A response that decodes, signals no block,
    and whose raw body has no [usageMetadata] key succeeds: the body is
    copied downstream unchanged and the usage record returned has the
    counts of the decoded envelope's usage block (prompt, candidates plus
    thoughts, total, reasoning); it is the zero record when the decoded
    envelope has no usage block either. *)
Theorem GeminiTextGenerationHandler_without_usageMetadata
    (resp : Response) (responseBody : string)
    (geminiResponse : GeminiChatResponse) (raw : gmap string JSON) :
  ReadAll_Body resp = Ok responseBody ->
  Unmarshal responseBody = Ok geminiResponse ->
  IsBlocked (PromptFeedback geminiResponse) = false ->
  json_Unmarshal responseBody = Ok raw ->
  raw !! "usageMetadata" = None ->
  (exists (tr : list Event) (usage : Usage),
     GeminiTextGenerationHandler resp = (tr, (Some usage, None))
     /\ copied tr = [responseBody]
     /\ PromptTokens usage = PromptTokenCount (UsageMetadata geminiResponse)
     /\ CompletionTokens usage
        = GoInt.add (CandidatesTokenCount (UsageMetadata geminiResponse))
                    (ThoughtsTokenCount (UsageMetadata geminiResponse))
     /\ TotalTokens usage = TotalTokenCount (UsageMetadata geminiResponse)
     /\ ReasoningTokens (CompletionTokenDetails usage)
        = ThoughtsTokenCount (UsageMetadata geminiResponse)
     /\ (UsageMetadata geminiResponse = GeminiUsageMetadata_zero ->
         usage = Usage_zero
         /\ PromptTokens usage = 0 /\ CompletionTokens usage = 0
         /\ TotalTokens usage = 0
         /\ ReasoningTokens (CompletionTokenDetails usage) = 0))
  /\ (forall (resp' : Response) (tr : list Event) (e : NewAPIError),
        GeminiTextGenerationHandler resp' = (tr, (None, Some e)) ->
        errorCode e = ErrorCodeEmptyResponse ->
        exists (body : string) (raw' um : gmap string JSON),
          ReadAll_Body resp' = Ok body
          /\ json_Unmarshal body = Ok raw'
          /\ raw' !! "usageMetadata" = Some (JObject um)
          /\ um !! "candidatesTokenCount" = None).
Proof.
  intros Hread Hparse Hblocked Hraw Hum. split.
  - unfold GeminiTextGenerationHandler, missingCandidatesTokenCount.
    rewrite Hread, Hparse, Hblocked, Hraw, Hum.
    eexists _, _. split; [reflexivity|]. split.
    + rewrite !copied_app, (proj1 (debug_print_silent responseBody)).
      reflexivity.
    + match goal with
      | |- context [promptTokensDetails ?ds ?u] =>
          destruct (promptTokensDetails_counts ds u) as (Hp & Hc & Ht & Hd)
      end.
      split; [rewrite Hp; reflexivity|]. split; [rewrite Hc; reflexivity|].
      split; [rewrite Ht; reflexivity|]. split; [rewrite Hd; reflexivity|].
      intros ->. rewrite usage_of_zero_metadata. repeat split.
  - clear. intros resp' tr e. unfold GeminiTextGenerationHandler.
    destruct (ReadAll_Body resp') as [body|err]; [|intros [= _ <-]; discriminate].
    destruct (Unmarshal body) as [r|err]; [|intros [= _ <-]; discriminate].
    destruct (IsBlocked (PromptFeedback r)); [intros [= _ <-]; discriminate|].
    destruct (missingCandidatesTokenCount body) eqn:Hmiss; [|discriminate].
    intros _ _. apply missingCandidatesTokenCount_true in Hmiss.
    destruct Hmiss as (raw' & um & ? & ? & ?). exists body, raw', um. auto.
Qed.

End WholeResponseProperties.


(** * Properties of Go's [int] *)

Module GoIntFacts.
Import GoInt.

Lemma wrap_small (z : Z) : in_range z -> wrap z = z.
Proof.
  unfold in_range, min_int, max_int, wrap. intros Hz.
  rewrite Z.mod_small by lia. lia.
Qed.

Lemma wrap_add_l (a b : Z) : wrap (wrap a + b) = wrap (a + b).
Proof.
  unfold wrap. f_equal.
  replace ((a + 2 ^ 63) mod 2 ^ 64 - 2 ^ 63 + b + 2 ^ 63)
    with ((a + 2 ^ 63) mod 2 ^ 64 + b) by lia.
  rewrite Zplus_mod_idemp_l. f_equal. lia.
Qed.

Lemma incr_wrap (z : Z) : incr (wrap z) = wrap (z + 1).
Proof. unfold incr, add. apply wrap_add_l. Qed.

End GoIntFacts.

(** * Properties of the stream handler *)

Section StreamProperties.
Context `{RelayEnv}.
Import dto types gemini.

(** ** The steps of the callback, field by field *)

Lemma send_forwarded (data : string) (s : Session) :
  forwarded (trace (send data s)) = forwarded (trace s) ++ [data].
Proof.
  unfold send. destruct (StringData_error (trace s) data); simpl;
    rewrite !forwarded_app; simpl; rewrite ?app_nil_r; reflexivity.
Qed.

Lemma send_fields (data : string) (s : Session) :
  usage (send data s) = usage s
  /\ imageCount (send data s) = imageCount s
  /\ responseText (send data s) = responseText s
  /\ pendingData (send data s) = pendingData s
  /\ isPendingEmptyThought (send data s) = isPendingEmptyThought s
  /\ contentBlocked (send data s) = contentBlocked s
  /\ blockReason (send data s) = blockReason s
  /\ sendResponseCount (send data s) = GoInt.incr (sendResponseCount s).
Proof.
  unfold send. destruct (StringData_error (trace s) data); simpl;
    repeat split.
Qed.

Lemma countPart_same_flow (s : Session) (part : GeminiPart) :
  same_flow s (countPart s part) /\ usage (countPart s part) = usage s.
Proof.
  unfold countPart, same_flow.
  destruct (InlineData part) as [d|]; [destruct (negb (MimeType d =? "")%string)|];
    destruct (negb (Text part =? "")%string); simpl; repeat split.
Qed.

Lemma same_flow_trans (a b c : Session) :
  same_flow a b -> same_flow b c -> same_flow a c.
Proof.
  unfold same_flow. intros (?&?&?&?&?&?) (?&?&?&?&?&?).
  repeat split; congruence.
Qed.

Lemma same_flow_refl (a : Session) : same_flow a a.
Proof. unfold same_flow. repeat split. Qed.

Lemma countParts_same_flow (candidates : list GeminiChatCandidate)
    (s : Session) :
  same_flow s (countParts candidates s)
  /\ usage (countParts candidates s) = usage s.
Proof.
  unfold countParts. revert s.
  induction candidates as [|c cs IH]; intros s; simpl.
  - split; [apply same_flow_refl | reflexivity].
  - assert (Hin : forall parts s0,
               same_flow s0 (foldl countPart s0 parts)
               /\ usage (foldl countPart s0 parts) = usage s0).
    { induction parts as [|p ps IHp]; intros s0; simpl.
      - split; [apply same_flow_refl | reflexivity].
      - destruct (countPart_same_flow s0 p) as [Hf Hu].
        destruct (IHp (countPart s0 p)) as [Hf' Hu'].
        split; [eapply same_flow_trans; eassumption | congruence]. }
    destruct (Hin (Parts (Content c)) s) as [Hf Hu].
    destruct (IH (foldl countPart s (Parts (Content c)))) as [Hf' Hu'].
    split; [eapply same_flow_trans; eassumption | congruence].
Qed.

Lemma updateUsage_same_flow (um : GeminiUsageMetadata) (s : Session) :
  same_flow s (updateUsage um s)
  /\ imageCount (updateUsage um s) = imageCount s
  /\ responseText (updateUsage um s) = responseText s.
Proof.
  unfold updateUsage, same_flow.
  destruct (negb (TotalTokenCount um =? 0)); simpl; repeat split.
Qed.

(** ** The cases of the callback *)

Lemma dataHandler_malformed (data err : string) (s : Session) :
  UnmarshalJsonStr data = Err err ->
  dataHandler data s
  = (false,
     emit (LogError ("error unmarshalling stream response: " +:+ err)) s).
Proof. intros Hparse. unfold dataHandler. rewrite Hparse. reflexivity. Qed.

Lemma dataHandler_block (data : string) (r : GeminiChatResponse)
    (s : Session) :
  UnmarshalJsonStr data = Ok r ->
  IsBlocked (PromptFeedback r) = true ->
  isPendingEmptyThought s = true ->
  dataHandler data s
  = (false,
     emit (LogWarn
             ("Gemini content blocked (detected empty thought pattern): "
                +:+ BlockReason (PromptFeedback r)))
          (set_blocked true (BlockReason (PromptFeedback r)) s)).
Proof.
  intros Hparse Hb Hp. unfold dataHandler. rewrite Hparse, Hb, Hp.
  reflexivity.
Qed.

Lemma warnStarted_fields (f : GeminiChatPromptFeedback) (s : Session) :
  same_variables s (warnStarted f s)
  /\ forwarded (trace (warnStarted f s)) = forwarded (trace s).
Proof.
  unfold warnStarted, same_variables.
  destruct (IsBlocked f); simpl; repeat split.
  rewrite forwarded_app. simpl. apply app_nil_r.
Qed.

Lemma dataHandler_hold (data : string) (r : GeminiChatResponse)
    (s : Session) :
  UnmarshalJsonStr data = Ok r ->
  isPendingEmptyThought s = false ->
  sendResponseCount s = 0 ->
  pendingData s = "" ->
  IsEmptyThoughtResponse r = true ->
  dataHandler data s
  = (true,
     emit (LogDebug
             "Detected potential empty thought pattern, pending first chunk")
          (set_pending data true (warnStarted (PromptFeedback r) s))).
Proof.
  intros Hparse Hp Hc Hd He. unfold dataHandler.
  rewrite Hparse, Hp, andb_false_r.
  destruct (warnStarted_fields (PromptFeedback r) s) as [(_&_&_&Hd'&_&_&_&Hc') _].
  rewrite <- Hc', <- Hd', Hc, Hd, He. reflexivity.
Qed.

Lemma dataHandler_flow (data : string) (r : GeminiChatResponse)
    (s : Session) :
  UnmarshalJsonStr data = Ok r ->
  IsBlocked (PromptFeedback r) && isPendingEmptyThought s = false ->
  (sendResponseCount s =? 0) && (pendingData s =? "")%string
  && IsEmptyThoughtResponse r = false ->
  dataHandler data s
  = (true,
     send data
       (updateUsage (UsageMetadata r)
          (countParts (Candidates r)
             (releasePending (warnStarted (PromptFeedback r) s))))).
Proof.
  intros Hparse Hb Hf. unfold dataHandler. rewrite Hparse, Hb.
  destruct (warnStarted_fields (PromptFeedback r) s) as [(_&_&_&Hd'&_&_&_&Hc') _].
  rewrite <- Hc', <- Hd', Hf. reflexivity.
Qed.

(** Whatever the chunk, the callback leaves the session in one of four
    shapes. *)
Lemma dataHandler_cases (data : string) (s : Session) :
  exists (m reason : string) (f : GeminiChatPromptFeedback)
         (um : GeminiUsageMetadata) (cs : list GeminiChatCandidate),
    dataHandler data s = (false, emit (LogError m) s)
    \/ dataHandler data s
       = (false, emit (LogWarn m) (set_blocked true reason s))
    \/ dataHandler data s
       = (true, emit (LogDebug m) (set_pending data true (warnStarted f s)))
    \/ dataHandler data s
       = (true, send data (updateUsage um (countParts cs
                  (releasePending (warnStarted f s))))).
Proof.
  unfold dataHandler.
  destruct (UnmarshalJsonStr data) as [r|err].
  - destruct (IsBlocked (PromptFeedback r) && isPendingEmptyThought s).
    + eexists _, _, (PromptFeedback r), (UsageMetadata r), (Candidates r).
      right. left. reflexivity.
    + destruct ((sendResponseCount (warnStarted (PromptFeedback r) s) =? 0)
                && (pendingData (warnStarted (PromptFeedback r) s) =? "")%string
                && IsEmptyThoughtResponse r).
      * eexists _, "", (PromptFeedback r), (UsageMetadata r), (Candidates r).
        right. right. left. reflexivity.
      * eexists "", "", (PromptFeedback r), (UsageMetadata r), (Candidates r).
        right. right. right. reflexivity.
  - eexists _, "", {| BlockReason := "" |}, GeminiUsageMetadata_zero, [].
    left. reflexivity.
Qed.

Lemma releasePending_fields (s : Session) :
  forwarded (trace (releasePending s))
  = forwarded (trace s)
    ++ (if negb (pendingData s =? "")%string then [pendingData s] else [])
  /\ sendResponseCount (releasePending s)
     = (if negb (pendingData s =? "")%string
        then GoInt.incr (sendResponseCount s) else sendResponseCount s)
  /\ pendingData (releasePending s) = ""
  /\ usage (releasePending s) = usage s
  /\ imageCount (releasePending s) = imageCount s
  /\ responseText (releasePending s) = responseText s
  /\ contentBlocked (releasePending s) = contentBlocked s
  /\ blockReason (releasePending s) = blockReason s.
Proof.
  unfold releasePending.
  destruct (pendingData s =? "")%string eqn:Hp;
    cbn [negb set_pending trace sendResponseCount pendingData usage
         imageCount responseText contentBlocked blockReason].
  - apply String.eqb_eq in Hp. rewrite app_nil_r. repeat split. exact Hp.
  - destruct (send_fields (pendingData s) s)
      as (Hu & Hi & Ht & _ & _ & Hb & Hr & Hc).
    rewrite send_forwarded. repeat split; assumption.
Qed.

(** The session after a chunk that is processed and written. *)
Lemma flow_fields (data : string) (f : GeminiChatPromptFeedback)
    (um : GeminiUsageMetadata) (cs : list GeminiChatCandidate)
    (s : Session) :
  let s' := send data (updateUsage um (countParts cs
              (releasePending (warnStarted f s)))) in
  forwarded (trace s')
  = forwarded (trace s)
    ++ (if negb (pendingData s =? "")%string then [pendingData s] else [])
    ++ [data]
  /\ sendResponseCount s'
     = GoInt.incr (if negb (pendingData s =? "")%string
                   then GoInt.incr (sendResponseCount s)
                   else sendResponseCount s)
  /\ pendingData s' = ""
  /\ contentBlocked s' = contentBlocked s
  /\ blockReason s' = blockReason s.
Proof.
  intros s'. subst s'.
  destruct (warnStarted_fields f s) as [(_&_&_&Hwd&_&Hwb&Hwr&Hwc) Hwf].
  set (s1 := warnStarted f s) in *.
  destruct (releasePending_fields s1) as (Hrf&Hrc&Hrd&_&_&_&Hrb&Hrr).
  set (s2 := releasePending s1) in *.
  destruct (countParts_same_flow cs s2) as [(Hcd&_&Hcb&Hcr&Hcc&Hct) _].
  set (s3 := countParts cs s2) in *.
  destruct (updateUsage_same_flow um s3) as [(Hud&_&Hub&Hur&Huc&Hut) _].
  set (s4 := updateUsage um s3) in *.
  destruct (send_fields data s4) as (_&_&_&Hsd&_&Hsb&Hsr&Hsc).
  rewrite send_forwarded, <- Hut, <- Hct, Hrf, Hwf, <- Hwd, <- app_assoc.
  rewrite Hsc, <- Huc, <- Hcc, Hrc, <- Hwc, <- Hwd.
  rewrite Hsd, <- Hud, <- Hcd, Hrd.
  rewrite Hsb, <- Hub, <- Hcb, Hrb, <- Hwb.
  rewrite Hsr, <- Hur, <- Hcr, Hrr, <- Hwr.
  repeat split.
Qed.

(** The callback only ever adds to what was written to the client. *)
Lemma dataHandler_extends (data : string) (s : Session) :
  exists l : list string,
    forwarded (trace (snd (dataHandler data s))) = forwarded (trace s) ++ l.
Proof.
  destruct (dataHandler_cases data s) as (m & reason & f & um & cs & Hc).
  destruct Hc as [-> | [-> | [-> | ->]]]; simpl snd.
  - exists []. simpl. rewrite forwarded_app. reflexivity.
  - exists []. simpl. rewrite forwarded_app. reflexivity.
  - exists []. simpl. rewrite forwarded_app. simpl.
    rewrite (proj2 (warnStarted_fields f s)). reflexivity.
  - eexists. apply flow_fields.
Qed.

Lemma StreamScannerHandler_extends (chunks : list string) (s : Session) :
  exists l : list string,
    forwarded (trace (StreamScannerHandler chunks dataHandler s))
    = forwarded (trace s) ++ l.
Proof.
  revert s. induction chunks as [|d rest IH]; intros s; simpl.
  - exists []. rewrite app_nil_r. reflexivity.
  - destruct (dataHandler_extends d s) as [l Hl].
    destruct (dataHandler d s) as [continue s']. simpl in Hl.
    destruct continue.
    + destruct (IH s') as [l' Hl']. exists (l ++ l').
      rewrite Hl', Hl, app_assoc. reflexivity.
    + exists l. exact Hl.
Qed.

(** ** The resolution after the stream *)

Lemma releaseAtEnd_fields (s : Session) :
  forwarded (trace (releaseAtEnd s))
  = forwarded (trace s)
    ++ (if negb (pendingData s =? "")%string then [pendingData s] else [])
  /\ sendResponseCount (releaseAtEnd s)
     = (if negb (pendingData s =? "")%string
        then GoInt.incr (sendResponseCount s) else sendResponseCount s)
  /\ usage (releaseAtEnd s) = usage s
  /\ imageCount (releaseAtEnd s) = imageCount s
  /\ responseText (releaseAtEnd s) = responseText s
  /\ contentBlocked (releaseAtEnd s) = contentBlocked s.
Proof.
  unfold releaseAtEnd.
  destruct (pendingData s =? "")%string; cbn [negb].
  - rewrite app_nil_r. repeat split.
  - destruct (send_fields (pendingData s) s)
      as (Hu & Hi & Ht & _ & _ & Hb & _ & Hc).
    rewrite send_forwarded. repeat split; assumption.
Qed.

Lemma imageEstimate_fields (s : Session) :
  trace (imageEstimate s) = trace s
  /\ contentBlocked (imageEstimate s) = contentBlocked s
  /\ responseText (imageEstimate s) = responseText s
  /\ usage (imageEstimate s)
     = (if negb (imageCount s =? 0) && (CompletionTokens (usage s) =? 0)
        then set_CompletionTokens (GoInt.mul (imageCount s) 258) (usage s)
        else usage s).
Proof.
  unfold imageEstimate.
  destruct (negb (imageCount s =? 0));
    destruct (CompletionTokens (usage s) =? 0); repeat split.
Qed.

Lemma textEstimate_fields (info : RelayInfo) (s : Session) :
  trace (textEstimate info s) = trace s
  /\ contentBlocked (textEstimate info s) = contentBlocked s
  /\ usage (textEstimate info s)
     = (if CompletionTokens (usage s) =? 0
        then if negb (responseText s =? "")%string
             then ResponseText2Usage (responseText s)
                    (UpstreamModelName info) (RelayInfo_PromptTokens info)
             else Usage_zero
        else usage s).
Proof.
  unfold textEstimate.
  destruct (CompletionTokens (usage s) =? 0);
    destruct (negb (responseText s =? "")%string); repeat split.
Qed.

Lemma estimates_fields (info : RelayInfo) (s : Session) :
  trace (textEstimate info (imageEstimate s)) = trace s
  /\ contentBlocked (textEstimate info (imageEstimate s)) = contentBlocked s.
Proof.
  destruct (textEstimate_fields info (imageEstimate s)) as (Ht & Hb & _).
  destruct (imageEstimate_fields s) as (Ht' & Hb' & _).
  split; congruence.
Qed.

(** The usage returned depends on the image count, the running usage and
    the visible text only. *)
Lemma estimates_usage (info : RelayInfo) (s s' : Session) :
  imageCount s = imageCount s' -> usage s = usage s' ->
  responseText s = responseText s' ->
  usage (textEstimate info (imageEstimate s))
  = usage (textEstimate info (imageEstimate s')).
Proof.
  intros Hi Hu Ht.
  destruct (textEstimate_fields info (imageEstimate s)) as (_ & _ & ->).
  destruct (textEstimate_fields info (imageEstimate s')) as (_ & _ & ->).
  destruct (imageEstimate_fields s) as (_ & _ & -> & ->).
  destruct (imageEstimate_fields s') as (_ & _ & -> & ->).
  rewrite Hi, Hu, Ht. reflexivity.
Qed.

Lemma resolve_blocked (info : RelayInfo) (s : Session) :
  contentBlocked s = true ->
  resolve info s
  = (s, (None, Some (NewErrorWithStatusCode
           ("content blocked by Gemini safety filter: " +:+ blockReason s)
           ErrorCodeContentFiltered http.StatusBadRequest
           [ErrOptionWithSkipRetry]))).
Proof. intros Hb. unfold resolve. rewrite Hb. reflexivity. Qed.

Lemma resolve_not_blocked (info : RelayInfo) (s : Session) :
  contentBlocked s = false ->
  trace (fst (resolve info s)) = trace (releaseAtEnd s)
  /\ contentBlocked (fst (resolve info s)) = false
  /\ snd (resolve info s)
     = (if sendResponseCount (releaseAtEnd s) =? 0
        then (None, Some (NewOpenAIError
                "no response received from Gemini API"
                ErrorCodeEmptyResponse http.StatusInternalServerError []))
        else (Some (usage (textEstimate info (imageEstimate (releaseAtEnd s)))),
              None)).
Proof.
  intros Hb. unfold resolve. rewrite Hb.
  destruct (releaseAtEnd_fields s) as (_&_&_&_&_&Hb').
  destruct (estimates_fields info (releaseAtEnd s)) as [Ht Hb''].
  destruct (sendResponseCount (releaseAtEnd s) =? 0); cbn [fst snd].
  - repeat split. congruence.
  - repeat split; congruence.
Qed.

(** The resolution only ever adds to what was written to the client. *)
Lemma resolve_extends (info : RelayInfo) (s : Session) :
  exists l : list string,
    forwarded (trace (fst (resolve info s))) = forwarded (trace s) ++ l.
Proof.
  destruct (contentBlocked s) eqn:Hb.
  - rewrite resolve_blocked by exact Hb. exists []. simpl.
    rewrite app_nil_r. reflexivity.
  - rewrite (proj1 (resolve_not_blocked info s Hb)).
    eexists. apply releaseAtEnd_fields.
Qed.

(** Sessions that differ in their log lines only resolve alike. *)
Lemma resolve_same_but_log (info : RelayInfo) (s s' : Session) :
  same_but_log s s' ->
  snd (resolve info s) = snd (resolve info s')
  /\ forwarded (trace (fst (resolve info s)))
     = forwarded (trace (fst (resolve info s'))).
Proof.
  intros [(Hu & Hi & Ht & Hd & _ & Hb & Hr & Hc) Hf].
  destruct (contentBlocked s) eqn:Hbs.
  - rewrite !resolve_blocked by congruence. simpl. rewrite Hr. auto.
  - destruct (resolve_not_blocked info s Hbs) as (Ht1 & _ & Hs1).
    destruct (resolve_not_blocked info s') as (Ht2 & _ & Hs2); [congruence|].
    destruct (releaseAtEnd_fields s) as (Hf1 & Hc1 & Hu1 & Hi1 & Hx1 & _).
    destruct (releaseAtEnd_fields s') as (Hf2 & Hc2 & Hu2 & Hi2 & Hx2 & _).
    rewrite Hs1, Hs2, Ht1, Ht2, Hf1, Hf2, Hc1, Hc2, <- Hd, <- Hc, <- Hf.
    rewrite (estimates_usage info (releaseAtEnd s) (releaseAtEnd s'))
      by congruence.
    split; reflexivity.
Qed.

(** ** The bookkeeping of the send count *)

Lemma counted_init (info : RelayInfo) :
  SendResponseCount info = 0 -> counted 0 (Session_init info).
Proof.
  intros Hc. unfold counted, Session_init. simpl. rewrite Hc.
  repeat split; [congruence | lia].
Qed.

Lemma counted_same (n m : nat) (s s' : Session) :
  (n <= m)%nat ->
  sendResponseCount s' = sendResponseCount s ->
  imageCount s' = imageCount s ->
  forwarded (trace s') = forwarded (trace s) ->
  counted n s -> counted m s'.
Proof.
  unfold counted. intros Hn -> -> -> (Hk & Hj & Hl).
  repeat split; [assumption | assumption | lia].
Qed.

Lemma dataHandler_counted (n : nat) (data : string) (s : Session) :
  counted n s -> counted (S n) (snd (dataHandler data s)).
Proof.
  intros Hcnt.
  destruct (dataHandler_cases data s) as (m & reason & f & um & cs & Hc).
  destruct Hc as [-> | [-> | [-> | ->]]]; cbn [snd].
  - apply (counted_same n _ s); [lia | reflexivity | reflexivity | | exact Hcnt].
    simpl. rewrite forwarded_app. simpl. apply app_nil_r.
  - apply (counted_same n _ s); [lia | reflexivity | reflexivity | | exact Hcnt].
    simpl. rewrite forwarded_app. simpl. apply app_nil_r.
  - destruct (warnStarted_fields f s) as [(_&Hi&_&_&_&_&_&Hcn) Hf].
    apply (counted_same n _ s); [lia | | | | exact Hcnt]; simpl.
    + symmetry. exact Hcn.
    + symmetry. exact Hi.
    + rewrite forwarded_app. simpl. rewrite app_nil_r. exact Hf.
  - destruct (flow_fields data f um cs s) as (Hf & Hcn & _).
    destruct Hcnt as (Hk & Hj & Hl). unfold counted.
    rewrite Hf, Hcn, Hk.
    destruct (negb (pendingData s =? "")%string);
      rewrite !length_app; simpl; rewrite ?GoIntFacts.incr_wrap.
    + repeat split.
      * f_equal. lia.
      * intros _ Hnil. apply app_eq_nil in Hnil as [_ Hnil]. discriminate.
      * lia.
    + repeat split.
      * f_equal. lia.
      * intros _ Hnil. apply app_eq_nil in Hnil as [_ Hnil]. discriminate.
      * lia.
Qed.

Lemma StreamScannerHandler_counted (n : nat) (chunks : list string)
    (s : Session) :
  counted n s ->
  counted (n + List.length chunks)
          (StreamScannerHandler chunks dataHandler s).
Proof.
  revert n s. induction chunks as [|d rest IH]; intros n s Hcnt; simpl.
  - replace (n + 0)%nat with n by lia. exact Hcnt.
  - pose proof (dataHandler_counted n d s Hcnt) as Hstep.
    destruct (dataHandler d s) as [continue s']. simpl in Hstep.
    destruct continue.
    + replace (n + S (List.length rest))%nat
        with (S n + List.length rest)%nat by lia.
      apply IH. exact Hstep.
    + apply (counted_same (S n) _ s'); auto. lia.
Qed.

(** After the held chunk is released the send count is still the number of
    chunks written. *)
Lemma releaseAtEnd_counted (n : nat) (s : Session) :
  counted n s -> counted (S n) (releaseAtEnd s).
Proof.
  intros (Hk & Hj & Hl).
  destruct (releaseAtEnd_fields s) as (Hf & Hc & _ & Hi & _).
  unfold counted. rewrite Hf, Hc, Hk, Hi.
  destruct (negb (pendingData s =? "")%string);
    rewrite ?length_app; simpl; rewrite ?GoIntFacts.incr_wrap, ?app_nil_r.
  - repeat split.
    + f_equal. lia.
    + intros _ Hnil. apply app_eq_nil in Hnil as [_ Hnil]. discriminate.
    + lia.
  - repeat split; [f_equal; lia | assumption | lia].
Qed.

(** ** The scanner, one chunk at a time *)

Lemma StreamScannerHandler_continue (data : string) (rest : list string)
    (s s' : Session) :
  dataHandler data s = (true, s') ->
  StreamScannerHandler (data :: rest) dataHandler s
  = StreamScannerHandler rest dataHandler s'.
Proof. intros Hd. simpl. rewrite Hd. reflexivity. Qed.

Lemma StreamScannerHandler_stop (data : string) (rest : list string)
    (s s' : Session) :
  dataHandler data s = (false, s') ->
  StreamScannerHandler (data :: rest) dataHandler s = s'.
Proof. intros Hd. simpl. rewrite Hd. reflexivity. Qed.

(** The session that holds a first, empty-thought chunk. *)
Lemma hold_first (info : RelayInfo) (d1 : string) (r1 : GeminiChatResponse) :
  SendResponseCount info = 0 ->
  UnmarshalJsonStr d1 = Ok r1 ->
  IsEmptyThoughtResponse r1 = true ->
  exists s1 : Session,
    dataHandler d1 (Session_init info) = (true, s1)
    /\ forwarded (trace s1) = []
    /\ pendingData s1 = d1 /\ isPendingEmptyThought s1 = true
    /\ contentBlocked s1 = false /\ sendResponseCount s1 = 0.
Proof.
  intros Hc Hparse Hempty. eexists. split.
  - apply (dataHandler_hold d1 r1); auto.
  - destruct (warnStarted_fields (PromptFeedback r1) (Session_init info))
      as [(_&_&_&_&_&Hb&_&Hcn) Hf].
    cbn [emit set_pending trace pendingData isPendingEmptyThought
         contentBlocked sendResponseCount].
    rewrite forwarded_app, Hf, <- Hb, <- Hcn. simpl. auto.
Qed.

(** C1.  For a session that starts with a send count of zero.  A first
    chunk that matches the empty-thought predicate followed by a chunk that
    signals a block: nothing is written to the client and the handler
    returns [ContentFiltered] (status 400, skip-retry), whatever follows.
    A first empty-thought chunk followed by a chunk that signals no block:
    exactly the first and then the second are written.  A first chunk that
    does not match the predicate is written by the callback at once,
    nothing is held. *)
Theorem GeminiTextGenerationStreamHandler_lookahead (info : RelayInfo) :
  SendResponseCount info = 0 ->
  (forall (d1 d2 : string) (r1 r2 : GeminiChatResponse)
          (rest : list string),
     UnmarshalJsonStr d1 = Ok r1 -> IsEmptyThoughtResponse r1 = true ->
     UnmarshalJsonStr d2 = Ok r2 -> IsBlocked (PromptFeedback r2) = true ->
     forwarded (trace (fst (GeminiTextGenerationStreamHandler info
                              (d1 :: d2 :: rest)))) = []
     /\ exists e : NewAPIError,
          snd (GeminiTextGenerationStreamHandler info (d1 :: d2 :: rest))
          = (None, Some e)
          /\ errorCode e = ErrorCodeContentFiltered
          /\ StatusCode e = http.StatusBadRequest
          /\ retryable e = false)
  /\ (forall (d1 d2 : string) (r1 r2 : GeminiChatResponse),
        UnmarshalJsonStr d1 = Ok r1 -> IsEmptyThoughtResponse r1 = true ->
        d1 <> "" ->
        UnmarshalJsonStr d2 = Ok r2 -> IsBlocked (PromptFeedback r2) = false ->
        forwarded (trace (fst (GeminiTextGenerationStreamHandler info
                                 [d1; d2]))) = [d1; d2]
        /\ (exists usage : Usage,
              snd (GeminiTextGenerationStreamHandler info [d1; d2])
              = (Some usage, None))
        /\ forall rest : list string, exists l : list string,
             forwarded (trace (fst (GeminiTextGenerationStreamHandler info
                                      (d1 :: d2 :: rest)))) = d1 :: d2 :: l)
  /\ (forall (d1 : string) (r1 : GeminiChatResponse),
        UnmarshalJsonStr d1 = Ok r1 -> IsEmptyThoughtResponse r1 = false ->
        fst (dataHandler d1 (Session_init info)) = true
        /\ forwarded (trace (snd (dataHandler d1 (Session_init info)))) = [d1]
        /\ pendingData (snd (dataHandler d1 (Session_init info))) = ""
        /\ forall rest : list string, exists l : list string,
             forwarded (trace (fst (GeminiTextGenerationStreamHandler info
                                      (d1 :: rest)))) = d1 :: l).
Proof.
  intros Hc. split; [|split].
  - intros d1 d2 r1 r2 rest Hp1 He1 Hp2 Hb2.
    destruct (hold_first info d1 r1 Hc Hp1 He1)
      as (s1 & Hd1 & Hf1 & _ & Hpe1 & _ & _).
    unfold GeminiTextGenerationStreamHandler.
    rewrite (StreamScannerHandler_continue d1 _ _ s1 Hd1).
    rewrite (StreamScannerHandler_stop d2 rest s1 _
               (dataHandler_block d2 r2 s1 Hp2 Hb2 Hpe1)).
    rewrite resolve_blocked by reflexivity. cbn [fst snd]. split.
    + cbn [emit set_blocked trace]. rewrite forwarded_app, Hf1. reflexivity.
    + eexists. split; [reflexivity|]. repeat split.
  - intros d1 d2 r1 r2 Hp1 He1 Hne Hp2 Hb2.
    destruct (hold_first info d1 r1 Hc Hp1 He1)
      as (s1 & Hd1 & Hf1 & Hpd1 & Hpe1 & Hcb1 & Hcn1).
    assert (Hnb : (pendingData s1 =? "")%string = false)
      by (rewrite Hpd1; apply String.eqb_neq; exact Hne).
    assert (Hd2 : dataHandler d2 s1
                  = (true, send d2 (updateUsage (UsageMetadata r2)
                      (countParts (Candidates r2)
                         (releasePending (warnStarted (PromptFeedback r2) s1)))))).
    { apply dataHandler_flow; [exact Hp2 | rewrite Hb2; reflexivity |].
      rewrite Hnb, andb_false_r. reflexivity. }
    destruct (flow_fields d2 (PromptFeedback r2) (UsageMetadata r2)
                (Candidates r2) s1) as (Hf2 & Hcn2 & Hpd2 & Hcb2 & _).
    rewrite Hnb, Hf1, Hpd1 in Hf2. rewrite Hnb, Hcn1 in Hcn2.
    cbn [negb app] in Hf2, Hcn2.
    set (s2 := send d2 _) in *.
    assert (Hscan : forall rest,
              StreamScannerHandler (d1 :: d2 :: rest) dataHandler
                (Session_init info)
              = StreamScannerHandler rest dataHandler s2).
    { intros rest.
      rewrite (StreamScannerHandler_continue d1 _ _ s1 Hd1).
      apply StreamScannerHandler_continue. exact Hd2. }
    unfold GeminiTextGenerationStreamHandler.
    assert (Hcb : contentBlocked s2 = false) by congruence.
    destruct (resolve_not_blocked info s2 Hcb) as (Htr & _ & Hres).
    destruct (releaseAtEnd_fields s2) as (Hfe & Hce & _).
    rewrite Hpd2 in Hfe, Hce. cbn [negb String.eqb] in Hfe, Hce.
    rewrite app_nil_r in Hfe.
    split; [|split].
    + rewrite (Hscan []). cbn [StreamScannerHandler].
      rewrite Htr, Hfe. exact Hf2.
    + rewrite (Hscan []). cbn [StreamScannerHandler].
      rewrite Hres, Hce, Hcn2. eexists. reflexivity.
    + intros rest. rewrite (Hscan rest).
      destruct (StreamScannerHandler_extends rest s2) as [l Hl].
      destruct (resolve_extends info (StreamScannerHandler rest dataHandler s2))
        as [l' Hl'].
      exists (l ++ l'). rewrite Hl', Hl, Hf2, <- app_assoc. reflexivity.
  - intros d1 r1 Hp1 He1.
    assert (Hd1 : dataHandler d1 (Session_init info)
                  = (true, send d1 (updateUsage (UsageMetadata r1)
                      (countParts (Candidates r1)
                         (releasePending (warnStarted (PromptFeedback r1)
                            (Session_init info))))))).
    { apply dataHandler_flow; [exact Hp1 | apply andb_false_r |].
      rewrite He1. apply andb_false_r. }
    destruct (flow_fields d1 (PromptFeedback r1) (UsageMetadata r1)
                (Candidates r1) (Session_init info)) as (Hf & _ & Hpd & _).
    cbn [Session_init pendingData trace String.eqb negb app] in Hf.
    rewrite Hd1. cbn [fst snd]. repeat split; [exact Hf | exact Hpd |].
    intros rest. unfold GeminiTextGenerationStreamHandler.
    rewrite (StreamScannerHandler_continue d1 _ _ _ Hd1).
    set (s1 := send d1 _) in *.
    destruct (StreamScannerHandler_extends rest s1) as [l Hl].
    destruct (resolve_extends info (StreamScannerHandler rest dataHandler s1))
      as [l' Hl'].
    exists (l ++ l'). rewrite Hl', Hl, Hf, <- app_assoc. reflexivity.
Qed.

(** ** A chunk that does not decode *)

Lemma same_but_log_emit (ev : Event) (s : Session) :
  forwarded [ev] = [] -> same_but_log s (emit ev s).
Proof.
  intros Hev. unfold same_but_log, same_variables. simpl.
  rewrite forwarded_app, Hev, app_nil_r. repeat split.
Qed.

Lemma same_but_log_refl (s : Session) : same_but_log s s.
Proof. unfold same_but_log, same_variables. repeat split. Qed.

(** The scanner stops at a chunk that does not decode: what comes after it
    is not read, and the session differs from the one before it by a log
    line at most. *)
Lemma StreamScannerHandler_malformed (before after : list string)
    (data err : string) (s : Session) :
  UnmarshalJsonStr data = Err err ->
  same_but_log (StreamScannerHandler before dataHandler s)
               (StreamScannerHandler (before ++ data :: after) dataHandler s).
Proof.
  intros Hparse. revert s.
  induction before as [|d rest IH]; intros s.
  - cbn [app]. rewrite (StreamScannerHandler_stop data after s _
                          (dataHandler_malformed data err s Hparse)).
    apply same_but_log_emit. reflexivity.
  - cbn [app StreamScannerHandler].
    destruct (dataHandler d s) as [[|] s'].
    + apply IH.
    + apply same_but_log_refl.
Qed.

(** C3, as the code has it.  A chunk that does not decode is logged, is not
    written to the client, and makes the callback return false, which stops
    the scanner: the handler's result and the chunks written are those of
    the stream cut just before that chunk, whatever follows it. *)
Theorem GeminiTextGenerationStreamHandler_malformed_chunk
    (info : RelayInfo) (before after : list string) (data err : string) :
  UnmarshalJsonStr data = Err err ->
  (forall s : Session,
     fst (dataHandler data s) = false
     /\ logged_errors (trace (snd (dataHandler data s)))
        = logged_errors (trace s)
          ++ ["error unmarshalling stream response: " +:+ err]
     /\ same_but_log s (snd (dataHandler data s)))
  /\ snd (GeminiTextGenerationStreamHandler info (before ++ data :: after))
     = snd (GeminiTextGenerationStreamHandler info before)
  /\ forwarded (trace (fst (GeminiTextGenerationStreamHandler info
                              (before ++ data :: after))))
     = forwarded (trace (fst (GeminiTextGenerationStreamHandler info before))).
Proof.
  intros Hparse. split.
  - intros s. rewrite (dataHandler_malformed data err s Hparse).
    cbn [fst snd]. repeat split.
    + cbn [emit trace]. unfold logged_errors. rewrite omap_app. reflexivity.
    + apply same_but_log_emit. reflexivity.
  - unfold GeminiTextGenerationStreamHandler.
    pose proof (StreamScannerHandler_malformed before after data err
                  (Session_init info) Hparse) as Hsame.
    apply (resolve_same_but_log info) in Hsame. destruct Hsame as [-> ->].
    split; reflexivity.
Qed.

(** ** A stream that wrote nothing *)

(** C6.  A stream session that starts with a send count of zero and ends
    with no chunk written and no block decision fails with
    [EmptyResponse], status 500 (server fault), not marked skip-retry;
    every [EmptyResponse] of the whole-response handler has status 400
    (client fault) and is marked skip-retry. *)
Theorem GeminiTextGenerationStreamHandler_empty_response
    (info : RelayInfo) (chunks : list string) :
  SendResponseCount info = 0 ->
  contentBlocked (fst (GeminiTextGenerationStreamHandler info chunks))
  = false ->
  forwarded (trace (fst (GeminiTextGenerationStreamHandler info chunks)))
  = [] ->
  (exists e : NewAPIError,
     snd (GeminiTextGenerationStreamHandler info chunks) = (None, Some e)
     /\ errorCode e = ErrorCodeEmptyResponse
     /\ StatusCode e = http.StatusInternalServerError
     /\ fault_class e = ServerFault
     /\ retryable e = true)
  /\ (forall (resp : Response) (tr : list Event) (e : NewAPIError),
        GeminiTextGenerationHandler resp = (tr, (None, Some e)) ->
        errorCode e = ErrorCodeEmptyResponse ->
        StatusCode e = http.StatusBadRequest
        /\ fault_class e = ClientFault
        /\ retryable e = false).
Proof.
  intros Hc Hnb Hnone. split.
  - unfold GeminiTextGenerationStreamHandler in *.
    set (s := StreamScannerHandler chunks dataHandler (Session_init info)) in *.
    assert (Hb : contentBlocked s = false).
    { destruct (contentBlocked s) eqn:Hb; [|reflexivity].
      rewrite resolve_blocked in Hnb by exact Hb. simpl in Hnb. congruence. }
    destruct (resolve_not_blocked info s Hb) as (Htr & _ & Hres).
    pose proof (StreamScannerHandler_counted 0 chunks (Session_init info)
                  (counted_init info Hc)) as Hcnt.
    apply releaseAtEnd_counted in Hcnt. destruct Hcnt as (Hk & _ & _).
    fold s in Hk. rewrite Htr in Hnone. rewrite Hnone in Hk.
    rewrite Hres, Hk. eexists. split; [reflexivity|]. repeat split.
  - clear. intros resp tr e. unfold GeminiTextGenerationHandler.
    destruct (ReadAll_Body resp) as [body|err];
      [|intros [= _ <-]; discriminate].
    destruct (Unmarshal body) as [r|err]; [|intros [= _ <-]; discriminate].
    destruct (IsBlocked (PromptFeedback r)); [intros [= _ <-]; discriminate|].
    destruct (missingCandidatesTokenCount body); [|discriminate].
    intros [= _ <-] _. repeat split.
Qed.

(** ** The estimate from the images counted *)

(** C8.  For a session that starts with a send count of zero, is not
    blocked, and has counted at least one inline image when the stream
    ends: if the running usage has no completion tokens, the usage returned
    has [imageCount * 258] of them; if it has some, the running usage is
    returned as it is. *)
Theorem GeminiTextGenerationStreamHandler_image_estimate
    (info : RelayInfo) (chunks : list string) :
  let s := StreamScannerHandler chunks dataHandler (Session_init info) in
  SendResponseCount info = 0 ->
  Z.of_nat (List.length chunks) < 2 ^ 61 ->
  contentBlocked s = false ->
  0 < imageCount s ->
  imageCount s * 258 <= GoInt.max_int ->
  (CompletionTokens (usage s) = 0 ->
     exists u : Usage,
       snd (GeminiTextGenerationStreamHandler info chunks) = (Some u, None)
       /\ CompletionTokens u = imageCount s * 258
       /\ u = set_CompletionTokens (imageCount s * 258) (usage s))
  /\ (CompletionTokens (usage s) <> 0 ->
        snd (GeminiTextGenerationStreamHandler info chunks)
        = (Some (usage s), None)).
Proof.
  intros s Hc Hlen Hb Hpos Hmax.
  unfold GeminiTextGenerationStreamHandler. fold s.
  destruct (resolve_not_blocked info s Hb) as (_ & _ & Hres).
  pose proof (StreamScannerHandler_counted 0 chunks (Session_init info)
                (counted_init info Hc)) as Hcnt.
  fold s in Hcnt.
  assert (Hsent : (sendResponseCount (releaseAtEnd s) =? 0) = false).
  { apply releaseAtEnd_counted in Hcnt. destruct Hcnt as (Hk & Hj & Hl).
    destruct (releaseAtEnd_fields s) as (_ & _ & _ & Hi & _).
    rewrite Hk. apply Z.eqb_neq.
    assert (Hne : forwarded (trace (releaseAtEnd s)) <> [])
      by (apply Hj; rewrite Hi; lia).
    destruct (forwarded (trace (releaseAtEnd s))) as [|x l]; [congruence|].
    simpl List.length in *. rewrite GoIntFacts.wrap_small.
    - lia.
    - unfold GoInt.in_range, GoInt.min_int, GoInt.max_int. lia. }
  rewrite Hres, Hsent.
  destruct (textEstimate_fields info (imageEstimate (releaseAtEnd s)))
    as (_ & _ & ->).
  destruct (imageEstimate_fields (releaseAtEnd s)) as (_ & _ & -> & ->).
  destruct (releaseAtEnd_fields s) as (_ & _ & -> & -> & -> & _).
  assert (Hnz : negb (imageCount s =? 0) = true)
    by (apply negb_true_iff, Z.eqb_neq; lia).
  assert (Hmul : GoInt.mul (imageCount s) 258 = imageCount s * 258).
  { unfold GoInt.mul. apply GoIntFacts.wrap_small.
    unfold GoInt.in_range, GoInt.min_int. lia. }
  rewrite Hnz, Hmul. cbn [andb]. split.
  - intros Hzero. rewrite Hzero. cbn [Z.eqb].
    assert (Hn : (imageCount s * 258 =? 0) = false)
      by (apply Z.eqb_neq; lia).
    cbn [set_CompletionTokens CompletionTokens]. rewrite Hn.
    eexists. split; [reflexivity|]. split; reflexivity.
  - intros Hnz'. apply Z.eqb_neq in Hnz'. rewrite Hnz', Hnz'. reflexivity.
Qed.

End StreamProperties.


(** ** The handlers on concrete responses and streams *)

Section RelayExamples.
Import dto types gemini.

Lemma GeminiTextGenerationHandler_blocked_witness :
  exists (tr : list Event) (e : NewAPIError),
    GeminiTextGenerationHandler (H := Sample.relayEnv)
      {| ReadAll_Body := Ok Sample.chunkBlocked |} = (tr, (None, Some e))
    /\ errorCode e = ErrorCodeContentFiltered
    /\ StatusCode e = http.StatusBadRequest
    /\ fault_class e = ClientFault
    /\ retryable e = false
    /\ copied tr = [] /\ forwarded tr = [].
Proof.
  apply (GeminiTextGenerationHandler_blocked (H := Sample.relayEnv)
           {| ReadAll_Body := Ok Sample.chunkBlocked |}
           Sample.chunkBlocked Sample.responseBlocked);
    vm_compute; reflexivity.
Defined.

(** C4 as stated fails: the usage block of this response is present and
    has no [candidatesTokenCount], and the handler answers
    [ContentFiltered], because the response signals a block. *)
Lemma GeminiTextGenerationHandler_blocked_before_empty :
  json_Unmarshal (RelayEnv := Sample.relayEnv) Sample.chunkBlocked
  = Ok Sample.rawBlocked
  /\ (exists um : gmap string JSON,
        Sample.rawBlocked !! "usageMetadata" = Some (JObject um)
        /\ um !! "candidatesTokenCount" = None)
  /\ exists e : NewAPIError,
       snd (GeminiTextGenerationHandler (H := Sample.relayEnv)
              {| ReadAll_Body := Ok Sample.chunkBlocked |}) = (None, Some e)
       /\ errorCode e = ErrorCodeContentFiltered
       /\ errorCode e <> ErrorCodeEmptyResponse.
Proof.
  split; [vm_compute; reflexivity|]. split.
  - eexists. split; vm_compute; reflexivity.
  - eexists. split; [vm_compute; reflexivity|].
    split; [reflexivity | discriminate].
Qed.

Lemma GeminiTextGenerationHandler_missing_candidatesTokenCount_witness :
  exists (tr : list Event) (e : NewAPIError),
    GeminiTextGenerationHandler (H := Sample.relayEnv)
      {| ReadAll_Body := Ok Sample.bodyNoCandidates |} = (tr, (None, Some e))
    /\ errorCode e = ErrorCodeEmptyResponse
    /\ StatusCode e = http.StatusBadRequest
    /\ fault_class e = ClientFault
    /\ retryable e = false
    /\ copied tr = [].
Proof.
  apply (GeminiTextGenerationHandler_missing_candidatesTokenCount
           (H := Sample.relayEnv)
           {| ReadAll_Body := Ok Sample.bodyNoCandidates |}
           Sample.bodyNoCandidates Sample.responseNoCandidates
           Sample.rawNoCandidates
           {[ "promptTokenCount" := JNumber "7";
              "totalTokenCount" := JNumber "7" ]});
    vm_compute; reflexivity.
Defined.

Lemma GeminiTextGenerationHandler_without_usageMetadata_witness :
  exists (tr : list Event) (usage : Usage),
    GeminiTextGenerationHandler (H := Sample.relayEnv)
      {| ReadAll_Body := Ok Sample.bodyNoUsage |} = (tr, (Some usage, None))
    /\ copied tr = [Sample.bodyNoUsage]
    /\ usage = Usage_zero.
Proof.
  destruct (proj1 (GeminiTextGenerationHandler_without_usageMetadata
              (H := Sample.relayEnv)
              {| ReadAll_Body := Ok Sample.bodyNoUsage |}
              Sample.bodyNoUsage Sample.responseNoUsage Sample.rawNoUsage
              eq_refl eq_refl eq_refl eq_refl eq_refl))
    as (tr & usage & Hrun & Hcopy & _ & _ & _ & _ & Hzero).
  exists tr, usage. split; [exact Hrun|]. split; [exact Hcopy|].
  apply Hzero. reflexivity.
Defined.

(** C9 as stated fails: this response decodes, signals no block, and its
    raw body has no [usageMetadata] key (the usage block stands under
    [usagemetadata], which the struct decoder accepts); the handler
    succeeds and forwards the body, and the usage record it returns has
    the counts 5, 1 and 6, not zero. *)
Lemma GeminiTextGenerationHandler_usage_without_key :
  Unmarshal (RelayEnv := MoreSamples.relayEnvLowercase)
    MoreSamples.bodyLowercaseUsage
  = Ok MoreSamples.responseLowercaseUsage
  /\ IsBlocked (RelayEnv := MoreSamples.relayEnvLowercase)
       (PromptFeedback MoreSamples.responseLowercaseUsage) = false
  /\ json_Unmarshal (RelayEnv := MoreSamples.relayEnvLowercase)
       MoreSamples.bodyLowercaseUsage
     = Ok MoreSamples.rawLowercaseUsage
  /\ MoreSamples.rawLowercaseUsage !! "usageMetadata" = None
  /\ exists (tr : list Event) (usage : Usage),
       GeminiTextGenerationHandler (H := MoreSamples.relayEnvLowercase)
         {| ReadAll_Body := Ok MoreSamples.bodyLowercaseUsage |}
       = (tr, (Some usage, None))
       /\ copied tr = [MoreSamples.bodyLowercaseUsage]
       /\ PromptTokens usage = 5
       /\ CompletionTokens usage = 1
       /\ TotalTokens usage = 6
       /\ usage <> Usage_zero.
Proof.
  split; [vm_compute; reflexivity|].
  split; [vm_compute; reflexivity|].
  split; [vm_compute; reflexivity|].
  split; [vm_compute; reflexivity|].
  eexists _, _. split; [vm_compute; reflexivity|].
  split; [vm_compute; reflexivity|].
  split; [reflexivity|]. split; [reflexivity|]. split; [reflexivity|].
  discriminate.
Qed.

Lemma GeminiTextGenerationStreamHandler_lookahead_witness :
  forwarded (trace (fst (GeminiTextGenerationStreamHandler
    (H := Sample.relayEnv) Sample.info
    [Sample.chunkThought; Sample.chunkBlocked; Sample.chunkText]))) = []
  /\ forwarded (trace (fst (GeminiTextGenerationStreamHandler
       (H := Sample.relayEnv) Sample.info
       [Sample.chunkThought; Sample.chunkText])))
     = [Sample.chunkThought; Sample.chunkText]
  /\ forwarded (trace (snd (dataHandler (H := Sample.relayEnv)
       Sample.chunkText (Session_init Sample.info))))
     = [Sample.chunkText].
Proof.
  destruct (GeminiTextGenerationStreamHandler_lookahead
              (H := Sample.relayEnv) Sample.info eq_refl)
    as (Hblock & Hflow & Hfirst).
  split; [|split].
  - apply (Hblock Sample.chunkThought Sample.chunkBlocked
             Sample.responseThought Sample.responseBlocked
             [Sample.chunkText]); vm_compute; reflexivity.
  - apply (Hflow Sample.chunkThought Sample.chunkText
             Sample.responseThought Sample.responseText_);
      try (vm_compute; reflexivity).
    intros Heq. vm_compute in Heq. discriminate.
  - apply (Hfirst Sample.chunkText Sample.responseText_);
      vm_compute; reflexivity.
Defined.

(** C3 as stated fails: after a chunk that does not decode, a well-formed
    chunk is neither processed nor written; and a stream whose first chunk
    does not decode fails with [EmptyResponse] although a well-formed chunk
    follows. *)
Lemma GeminiTextGenerationStreamHandler_malformed_chunk_is_fatal :
  UnmarshalJsonStr (RelayEnv := Sample.relayEnv) Sample.chunkText
  = Ok Sample.responseText_
  /\ forwarded (trace (fst (GeminiTextGenerationStreamHandler
       (H := Sample.relayEnv) Sample.info
       [Sample.chunkText; Sample.chunkMalformed; Sample.chunkText])))
     = [Sample.chunkText]
  /\ (exists e : NewAPIError,
        snd (GeminiTextGenerationStreamHandler
               (H := Sample.relayEnv) Sample.info
               [Sample.chunkMalformed; Sample.chunkText]) = (None, Some e)
        /\ errorCode e = ErrorCodeEmptyResponse)
  /\ exists u : Usage,
       snd (GeminiTextGenerationStreamHandler
              (H := Sample.relayEnv) Sample.info [Sample.chunkText])
       = (Some u, None).
Proof.
  split; [vm_compute; reflexivity|].
  split; [vm_compute; reflexivity|].
  split; eexists; [split|]; vm_compute; reflexivity.
Qed.

Lemma GeminiTextGenerationStreamHandler_malformed_chunk_witness :
  snd (GeminiTextGenerationStreamHandler (H := Sample.relayEnv) Sample.info
         [Sample.chunkText; Sample.chunkMalformed; Sample.chunkText])
  = snd (GeminiTextGenerationStreamHandler (H := Sample.relayEnv)
           Sample.info [Sample.chunkText])
  /\ forwarded (trace (fst (GeminiTextGenerationStreamHandler
       (H := Sample.relayEnv) Sample.info
       [Sample.chunkText; Sample.chunkMalformed; Sample.chunkText])))
     = forwarded (trace (fst (GeminiTextGenerationStreamHandler
         (H := Sample.relayEnv) Sample.info [Sample.chunkText]))).
Proof.
  exact (proj2 (GeminiTextGenerationStreamHandler_malformed_chunk
                  (H := Sample.relayEnv) Sample.info
                  [Sample.chunkText] [Sample.chunkText]
                  Sample.chunkMalformed "invalid character in JSON text"
                  eq_refl)).
Defined.

Lemma GeminiTextGenerationStreamHandler_empty_response_witness :
  exists e : NewAPIError,
    snd (GeminiTextGenerationStreamHandler (H := Sample.relayEnv)
           Sample.info []) = (None, Some e)
    /\ errorCode e = ErrorCodeEmptyResponse
    /\ StatusCode e = http.StatusInternalServerError
    /\ fault_class e = ServerFault
    /\ retryable e = true.
Proof.
  apply (GeminiTextGenerationStreamHandler_empty_response
           (H := Sample.relayEnv) Sample.info []); reflexivity.
Defined.

Lemma GeminiTextGenerationStreamHandler_image_estimate_witness :
  exists u : Usage,
    snd (GeminiTextGenerationStreamHandler (H := Sample.relayEnv)
           Sample.info [Sample.chunkImages]) = (Some u, None)
    /\ CompletionTokens u = 774.
Proof.
  assert (Hmax : imageCount (StreamScannerHandler [Sample.chunkImages]
                   (dataHandler (H := Sample.relayEnv))
                   (Session_init Sample.info)) * 258 <= GoInt.max_int)
    by (vm_compute; discriminate).
  destruct (proj1 (GeminiTextGenerationStreamHandler_image_estimate
              (H := Sample.relayEnv) Sample.info [Sample.chunkImages]
              eq_refl eq_refl eq_refl eq_refl Hmax) eq_refl)
    as (u & Hrun & Hc & _).
  exists u. split; [exact Hrun|]. rewrite Hc. vm_compute. reflexivity.
Defined.

End RelayExamples.


(** * Further properties of the whole-response handler *)

Section WholeResponseMore.
Context `{RelayEnv}.
Import dto types gemini notions.

(** X1.  A body that cannot be read or does not decode as the envelope is
    answered with [BadResponseBody] carrying the cause, status 500, not
    marked skip-retry; nothing is copied downstream. *)
Theorem GeminiTextGenerationHandler_bad_body
    (resp : Response) (err : string) :
  ReadAll_Body resp = Err err
  \/ (exists responseBody : string,
        ReadAll_Body resp = Ok responseBody
        /\ Unmarshal responseBody = Err err) ->
  exists tr : list Event,
    GeminiTextGenerationHandler resp
    = (tr, (None, Some {| Err_ := err;
                          errorCode := ErrorCodeBadResponseBody;
                          StatusCode := http.StatusInternalServerError;
                          skipRetry := false |}))
    /\ copied tr = [].
Proof.
  unfold GeminiTextGenerationHandler.
  intros [Hread | (body & Hread & Hparse)]; rewrite Hread.
  - eexists. split; reflexivity.
  - rewrite Hparse. eexists. split; [reflexivity|].
    rewrite copied_app, (proj1 (debug_print_silent body)). reflexivity.
Qed.

(** The entries of [promptTokensDetails] are applied in order: the audio
    and text buckets end with the count of the last AUDIO and of the last
    TEXT entry, a bucket without entry keeps its value, entries of any
    other modality change nothing, and the other counts are not touched. *)
Lemma promptTokensDetails_fields (details : list GeminiPromptTokensDetails)
    (u : Usage) :
  AudioTokens (PromptTokensDetails (promptTokensDetails details u))
  = default (AudioTokens (PromptTokensDetails u)) (lastOf "AUDIO" details)
  /\ TextTokens (PromptTokensDetails (promptTokensDetails details u))
     = default (TextTokens (PromptTokensDetails u)) (lastOf "TEXT" details)
  /\ PromptTokens (promptTokensDetails details u) = PromptTokens u
  /\ CompletionTokens (promptTokensDetails details u) = CompletionTokens u
  /\ TotalTokens (promptTokensDetails details u) = TotalTokens u
  /\ CompletionTokenDetails (promptTokensDetails details u)
     = CompletionTokenDetails u.
Proof.
  unfold promptTokensDetails, lastOf.
  induction details as [|d ds IH] using rev_ind; [repeat split|].
  rewrite !foldl_app. cbn [foldl].
  destruct IH as (Ha & Ht & Hp & Hc & Hto & Hd).
  destruct (Modality d =? "AUDIO")%string eqn:Haudio.
  - apply String.eqb_eq in Haudio. rewrite Haudio.
    cbn [String.eqb Ascii.eqb Bool.eqb andb]. cbn. repeat split; assumption.
  - destruct (Modality d =? "TEXT")%string eqn:Htext; cbn;
      repeat split; assumption.
Qed.

(** X2.  A response that decodes, signals no block and reports
    [candidatesTokenCount] succeeds: the body is copied downstream as it
    is, and the usage record has the prompt and total counts as reported,
    the thoughts as reasoning tokens, and candidates plus thoughts as
    completion tokens (in Go's [int] arithmetic). *)
Theorem GeminiTextGenerationHandler_usage
    (resp : Response) (responseBody : string)
    (geminiResponse : GeminiChatResponse) (raw um : gmap string JSON)
    (count : JSON) :
  ReadAll_Body resp = Ok responseBody ->
  Unmarshal responseBody = Ok geminiResponse ->
  IsBlocked (PromptFeedback geminiResponse) = false ->
  json_Unmarshal responseBody = Ok raw ->
  raw !! "usageMetadata" = Some (JObject um) ->
  um !! "candidatesTokenCount" = Some count ->
  let metadata := UsageMetadata geminiResponse in
  exists (tr : list Event) (u : Usage),
    GeminiTextGenerationHandler resp = (tr, (Some u, None))
    /\ copied tr = [responseBody]
    /\ PromptTokens u = PromptTokenCount metadata
    /\ TotalTokens u = TotalTokenCount metadata
    /\ ReasoningTokens (CompletionTokenDetails u)
       = ThoughtsTokenCount metadata
    /\ CompletionTokens u
       = GoInt.wrap (CandidatesTokenCount metadata
                     + ThoughtsTokenCount metadata)
    /\ (GoInt.in_range (CandidatesTokenCount metadata
                        + ThoughtsTokenCount metadata) ->
        CompletionTokens u
        = CandidatesTokenCount metadata + ThoughtsTokenCount metadata)
    /\ AudioTokens (PromptTokensDetails u)
       = default 0 (lastOf "AUDIO"
                      (UsageMetadata_PromptTokensDetails metadata))
    /\ TextTokens (PromptTokensDetails u)
       = default 0 (lastOf "TEXT"
                      (UsageMetadata_PromptTokensDetails metadata)).
Proof.
  intros Hread Hparse Hblocked Hraw Hum Hcand metadata.
  unfold GeminiTextGenerationHandler, missingCandidatesTokenCount.
  rewrite Hread, Hparse, Hblocked, Hraw, Hum, Hcand. fold metadata.
  eexists _, _. split; [reflexivity|].
  match goal with
  | |- context [promptTokensDetails ?ds ?u0] =>
      destruct (promptTokensDetails_fields ds u0)
        as (Ha & Ht & Hp & Hc & Hto & Hd)
  end.
  rewrite Ha, Ht, Hp, Hc, Hto, Hd.
  split; [rewrite !copied_app, (proj1 (debug_print_silent responseBody));
          reflexivity|].
  repeat split.
  intros Hrange. cbn. unfold GoInt.add. apply GoIntFacts.wrap_small, Hrange.
Qed.

(** X3.  The presence test passes whenever the raw body does not decode or its
    [usageMetadata] is not an object (absent, null, a number): a response
    that decodes as the envelope and signals no block then succeeds and its
    body is copied downstream. *)
Theorem GeminiTextGenerationHandler_usageMetadata_not_object
    (resp : Response) (responseBody : string)
    (geminiResponse : GeminiChatResponse) :
  ReadAll_Body resp = Ok responseBody ->
  Unmarshal responseBody = Ok geminiResponse ->
  IsBlocked (PromptFeedback geminiResponse) = false ->
  (exists e : string, json_Unmarshal responseBody = Err e)
  \/ (exists raw : gmap string JSON,
        json_Unmarshal responseBody = Ok raw
        /\ forall um : gmap string JSON,
             raw !! "usageMetadata" <> Some (JObject um)) ->
  exists (tr : list Event) (u : Usage),
    GeminiTextGenerationHandler resp = (tr, (Some u, None))
    /\ copied tr = [responseBody].
Proof.
  intros Hread Hparse Hblocked Hraw.
  assert (Hmiss : missingCandidatesTokenCount responseBody = false).
  { unfold missingCandidatesTokenCount.
    destruct Hraw as [[e ->] | (raw & -> & Hno)]; [reflexivity|].
    destruct (raw !! "usageMetadata") as [[| | | | |um]|] eqn:Hum;
      try reflexivity.
    destruct (Hno um). reflexivity. }
  unfold GeminiTextGenerationHandler.
  rewrite Hread, Hparse, Hblocked, Hmiss.
  eexists _, _. split; [reflexivity|].
  rewrite !copied_app, (proj1 (debug_print_silent responseBody)).
  reflexivity.
Qed.

(** X4.  On every path the handler closes the response body, once and as its
    last effect, and writes no stream chunk.  It returns either a usage
    record, having copied the body once and unchanged, or an error with one
    of the three codes, having copied nothing. *)
Theorem GeminiTextGenerationHandler_outcomes (resp : Response) :
  exists tr : list Event,
    fst (GeminiTextGenerationHandler resp) = tr ++ [CloseResponseBody]
    /\ ~ In CloseResponseBody tr
    /\ forwarded tr = []
    /\ ((exists (u : Usage) (responseBody : string),
           snd (GeminiTextGenerationHandler resp) = (Some u, None)
           /\ ReadAll_Body resp = Ok responseBody
           /\ copied tr = [responseBody])
        \/ (exists e : NewAPIError,
              snd (GeminiTextGenerationHandler resp) = (None, Some e)
              /\ copied tr = []
              /\ (errorCode e = ErrorCodeBadResponseBody
                  \/ errorCode e = ErrorCodeContentFiltered
                  \/ errorCode e = ErrorCodeEmptyResponse))).
Proof.
  unfold GeminiTextGenerationHandler.
  destruct (ReadAll_Body resp) as [body|err].
  - assert (Hdbg : ~ In CloseResponseBody
                       (if DebugEnabled then [Println body] else []))
      by (destruct DebugEnabled; simpl; intuition discriminate).
    destruct (debug_print_silent body) as [Hc Hf].
    destruct (Unmarshal body) as [r|err].
    + destruct (IsBlocked (PromptFeedback r)).
      * eexists. cbn [fst snd]. split; [reflexivity|].
        split; [rewrite in_app_iff; simpl; intuition discriminate|].
        split; [rewrite forwarded_app, Hf; reflexivity|].
        right. eexists. split; [reflexivity|].
        split; [rewrite copied_app, Hc; reflexivity | auto].
      * destruct (missingCandidatesTokenCount body).
        -- eexists. cbn [fst snd]. split; [reflexivity|].
           split; [rewrite in_app_iff; simpl; intuition discriminate|].
           split; [rewrite forwarded_app, Hf; reflexivity|].
           right. eexists. split; [reflexivity|].
           split; [rewrite copied_app, Hc; reflexivity | auto].
        -- eexists. cbn [fst snd]. split; [reflexivity|].
           split; [rewrite in_app_iff; simpl; intuition discriminate|].
           split; [rewrite forwarded_app, Hf; reflexivity|].
           left. eexists _, body. split; [reflexivity|].
           split; [reflexivity | rewrite copied_app, Hc; reflexivity].
    + eexists. cbn [fst snd]. split; [reflexivity|].
      split; [exact Hdbg|]. split; [exact Hf|].
      right. eexists. split; [reflexivity|]. split; [exact Hc | auto].
  - exists []. cbn [fst snd]. split; [reflexivity|].
    split; [simpl; tauto|]. split; [reflexivity|].
    right. eexists. split; [reflexivity|]. split; [reflexivity | auto].
Qed.

End WholeResponseMore.


(** * Properties of the embeddings handler *)

Section EmbeddingProperties.
Context `{RelayEnv} `{EmbeddingEnv}.
Import dto types embedding.

(** X6.  When the body is read and the decoder chosen by the request-mode flag
    accepts it, the handler copies the body downstream as it is and returns
    a usage record made of the known prompt-token count alone: prompt and
    total are that count, nothing else is counted. *)
Theorem NativeGeminiEmbeddingHandler_success
    (resp : Response) (info : EmbeddingInfo) (responseBody : string) :
  ReadAll_Body resp = Ok responseBody ->
  (if IsGeminiBatchEmbedding info
   then UnmarshalBatchEmbedding responseBody
   else UnmarshalEmbedding responseBody) = None ->
  exists tr : list Event,
    NativeGeminiEmbeddingHandler resp info
    = (tr ++ [CloseResponseBody],
       (Some (set_TotalTokens (Embedding_PromptTokens info)
                (set_PromptTokens (Embedding_PromptTokens info) Usage_zero)),
        None))
    /\ copied tr = [responseBody].
Proof.
  intros Hread Hdec. unfold NativeGeminiEmbeddingHandler.
  rewrite Hread, Hdec. eexists. split; [reflexivity|].
  rewrite copied_app, (proj1 (debug_print_silent responseBody)). reflexivity.
Qed.

(** X7.  When the body cannot be read, or the decoder chosen by the flag refuses
    it (whatever the other decoder would say), the handler answers
    [BadResponseBody] carrying the cause, status 500, not marked
    skip-retry, and copies nothing downstream. *)
Theorem NativeGeminiEmbeddingHandler_failure
    (resp : Response) (info : EmbeddingInfo) (err : string) :
  ReadAll_Body resp = Err err
  \/ (exists responseBody : string,
        ReadAll_Body resp = Ok responseBody
        /\ (if IsGeminiBatchEmbedding info
            then UnmarshalBatchEmbedding responseBody
            else UnmarshalEmbedding responseBody) = Some err) ->
  exists tr : list Event,
    NativeGeminiEmbeddingHandler resp info
    = (tr ++ [CloseResponseBody],
       (None, Some {| Err_ := err; errorCode := ErrorCodeBadResponseBody;
                      StatusCode := http.StatusInternalServerError;
                      skipRetry := false |}))
    /\ copied tr = [].
Proof.
  unfold NativeGeminiEmbeddingHandler.
  intros [Hread | (body & Hread & Hdec)]; rewrite Hread.
  - exists []. split; reflexivity.
  - rewrite Hdec. eexists. split; [reflexivity|].
    apply (debug_print_silent body).
Qed.

End EmbeddingProperties.

(** * Further properties of the channel health policy *)

Section PolicyMore.
Context `{ServiceEnv}.
Import types service.

(** An error marked skip-retry that is not a channel error never disables
    the channel, whatever its status, code, type and message, and whatever
    the channel type. *)
Lemma ShouldDisableChannel_skip_retry_exempt
    (channelType : Z) (err : NewAPIError) :
  IsSkipRetryError err = true ->
  IsChannelError err = false ->
  ShouldDisableChannel channelType (Some err) = false.
Proof.
  intros Hskip Hchan. unfold ShouldDisableChannel.
  rewrite Hskip, Hchan. destruct AutomaticDisableChannelEnabled; reflexivity.
Qed.

(** X8.  The channel type matters for the Gemini type only: any two other
    channel types get the same decision for the same error, and whenever
    some channel type is disabled for an error the Gemini type is too. *)
Theorem ShouldDisableChannel_channel_type
    (channelType channelType' : Z) (err : option NewAPIError) :
  (channelType <> ChannelTypeGemini -> channelType' <> ChannelTypeGemini ->
   ShouldDisableChannel channelType err
   = ShouldDisableChannel channelType' err)
  /\ (ShouldDisableChannel channelType err = true ->
      ShouldDisableChannel ChannelTypeGemini err = true).
Proof.
  unfold ShouldDisableChannel. split.
  - intros Hne Hne'. apply Z.eqb_neq in Hne, Hne'. rewrite Hne, Hne'.
    reflexivity.
  - rewrite Z.eqb_refl.
    destruct AutomaticDisableChannelEnabled; cbn [negb]; [|discriminate].
    destruct err as [e|]; [|discriminate].
    destruct (IsChannelError e); [reflexivity|].
    destruct (IsSkipRetryError e); [discriminate|].
    destruct (StatusCode e =? http.StatusUnauthorized); [reflexivity|].
    rewrite !andb_true_r.
    destruct (StatusCode e =? http.StatusForbidden); [reflexivity|].
    cbn [andb].
    destruct (fatalCode _); [reflexivity|].
    destruct (fatalType _); [reflexivity|].
    destruct (channelType =? ChannelTypeGemini); cbn [andb];
      destruct (_ =? quotaExhaustedMessage)%string; auto.
Qed.

(** X9.  [ShouldEnableChannel] says yes exactly when automatic enabling is on,
    no error occurred and the status is the auto-disabled one; and no error
    value makes both policies say yes. *)
Theorem ShouldEnableChannel_exact
    (channelType status : Z) (err : option NewAPIError) :
  (ShouldEnableChannel err status = true
   <-> AutomaticEnableChannelEnabled = true /\ err = None
       /\ status = ChannelStatusAutoDisabled)
  /\ ~ (ShouldDisableChannel channelType err = true
        /\ ShouldEnableChannel err status = true).
Proof.
  assert (Hiff : ShouldEnableChannel err status = true
                 <-> AutomaticEnableChannelEnabled = true /\ err = None
                     /\ status = ChannelStatusAutoDisabled).
  { unfold ShouldEnableChannel.
    destruct AutomaticEnableChannelEnabled; cbn [negb].
    - destruct err as [e|].
      + split; [discriminate | intros (_ & Hn & _); discriminate].
      + destruct (Z.eqb_spec status ChannelStatusAutoDisabled); cbn [negb].
        * split; auto.
        * split; [discriminate | intros (_ & _ & Hs); contradiction].
    - split; [discriminate | intros (Hon & _); discriminate]. }
  split; [exact Hiff|].
  intros [Hd He]. apply Hiff in He as (_ & -> & _).
  rewrite ShouldDisableChannel_off in Hd by (right; reflexivity).
  discriminate.
Qed.

End PolicyMore.

(** * The handlers' errors under the policy *)

Section HandlerErrorsAndPolicy.
Context `{RelayEnv} `{ServiceEnv}.
Import dto types gemini service.

(** X10.  A content-filter or empty-response failure of the whole-response
    handler, and a content-filter failure of the stream handler, never
    disable the channel that produced them (unless the error is flagged as
    a channel error): both are built with the skip-retry mark. *)
Theorem safety_block_never_disables (channelType : Z) (e : NewAPIError) :
  IsChannelError e = false ->
  (forall (resp : Response) (tr : list Event),
     GeminiTextGenerationHandler resp = (tr, (None, Some e)) ->
     errorCode e <> ErrorCodeBadResponseBody ->
     ShouldDisableChannel channelType (Some e) = false)
  /\ (forall (info : RelayInfo) (chunks : list string),
        snd (GeminiTextGenerationStreamHandler info chunks) = (None, Some e) ->
        errorCode e = ErrorCodeContentFiltered ->
        ShouldDisableChannel channelType (Some e) = false).
Proof.
  intros Hchan. split.
  - intros resp tr. unfold GeminiTextGenerationHandler.
    destruct (ReadAll_Body resp) as [body|err];
      [|intros [= _ <-] Hcode; destruct Hcode; reflexivity].
    destruct (Unmarshal body) as [r|err];
      [|intros [= _ <-] Hcode; destruct Hcode; reflexivity].
    destruct (IsBlocked (PromptFeedback r)).
    + intros [= _ He] _.
      apply ShouldDisableChannel_skip_retry_exempt; [|exact Hchan].
      rewrite <- He. reflexivity.
    + destruct (missingCandidatesTokenCount body); [|discriminate].
      intros [= _ He] _.
      apply ShouldDisableChannel_skip_retry_exempt; [|exact Hchan].
      rewrite <- He. reflexivity.
  - intros info chunks. unfold GeminiTextGenerationStreamHandler.
    set (s := StreamScannerHandler chunks dataHandler (Session_init info)).
    destruct (contentBlocked s) eqn:Hb.
    + rewrite resolve_blocked by exact Hb. cbn [snd]. intros [= He] _.
      apply ShouldDisableChannel_skip_retry_exempt; [|exact Hchan].
      rewrite <- He. reflexivity.
    + rewrite (proj2 (proj2 (resolve_not_blocked info s Hb))).
      destruct (sendResponseCount (releaseAtEnd s) =? 0); [|discriminate].
      intros [= <-]. discriminate.
Qed.

End HandlerErrorsAndPolicy.


(** * Properties of the channel operations *)

Module StringFacts.
Import notions.

Lemma append_inj_l (p a b : string) : p +:+ a = p +:+ b -> a = b.
Proof.
  induction p as [|c p IH]; simpl; [auto|]. intros [= Heq]. auto.
Qed.

Lemma occurs_append (c : ascii) (a b : string) :
  occurs c (a +:+ b) <-> occurs c a \/ occurs c b.
Proof.
  unfold occurs. induction a as [|x a IH]; simpl; [tauto|].
  rewrite IH. tauto.
Qed.

(** Two strings cut at the first occurrence of a byte agree on both
    sides. *)
Lemma split_at_first (c : ascii) (a a' t t' : string) :
  ~ occurs c a -> ~ occurs c a' ->
  a +:+ String c t = a' +:+ String c t' -> a = a' /\ t = t'.
Proof.
  unfold occurs. revert a'.
  induction a as [|x a IH]; intros [|x' a']; simpl; intros Ha Ha' Heq.
  - injection Heq as ->. auto.
  - injection Heq as -> _. tauto.
  - injection Heq as -> _. tauto.
  - injection Heq as -> Heq. destruct (IH a') as [-> ->]; auto.
Qed.

Lemma pretty_N_go_no_underscore (x : N) (s : string) :
  ~ occurs "_" s -> ~ occurs "_" (pretty_N_go x s).
Proof.
  revert s. induction (N.lt_wf_0 x) as [x _ IH]; intros s Hs.
  assert (x = 0 \/ 0 < x)%N as [->|Hpos] by lia.
  - rewrite pretty_N_go_0. exact Hs.
  - rewrite pretty_N_go_step by exact Hpos. apply IH.
    + apply N.div_lt; [exact Hpos | reflexivity].
    + unfold occurs in *. simpl. intros [Hc | Hin]; [|tauto].
      revert Hc. unfold pretty_N_char.
      repeat case_match; discriminate.
Qed.

(** The decimal form of an integer has no underscore. *)
Lemma pretty_Z_no_underscore (z : Z) : ~ occurs "_" (pretty z).
Proof.
  assert (Hn : forall n : N, ~ occurs "_" (pretty n)).
  { intros n. unfold pretty, pretty_N. case_decide.
    - unfold occurs. simpl. intros [Hc|[]]. discriminate.
    - apply pretty_N_go_no_underscore. unfold occurs. simpl. tauto. }
  destruct z as [|p|p]; unfold pretty, pretty_Z.
  - unfold occurs. simpl. intros [Hc|[]]. discriminate.
  - apply Hn.
  - rewrite occurs_append. intros [Hd | Hp]; [|exact (Hn _ Hp)].
    unfold occurs in Hd. simpl in Hd. destruct Hd as [Hc|[]]. discriminate.
Qed.

End StringFacts.

Section ChannelProperties.
Context `{ServiceEnv} `{ChannelEnv}.
Import channel.

(** X11.  The notification key determines the channel and the status: two keys
    are equal only for the same channel id and the same status. *)
Theorem formatNotifyType_inj (channelId status channelId' status' : Z) :
  formatNotifyType channelId status = formatNotifyType channelId' status' ->
  channelId = channelId' /\ status = status'.
Proof.
  unfold formatNotifyType. intros Heq.
  apply StringFacts.append_inj_l in Heq.
  change ("_" +:+ ?x) with (String "_" x) in Heq.
  injection Heq as Heq.
  apply StringFacts.split_at_first in Heq
    as [Hid Hst]; try apply StringFacts.pretty_Z_no_underscore.
  split; [exact (inj pretty _ _ Hid) | exact (inj pretty _ _ Hst)].
Qed.

(** X12.  [DisableChannel] asks the store for nothing and notifies nobody when
    the channel's own auto-ban flag is off.  When it is on, it asks the
    store once, for the auto-disabled status with the given reason, and
    notifies once, under the key of that channel and status, exactly if
    the store reported success. *)
Theorem DisableChannel_effects (channelError : ChannelError)
    (reason : string) :
  (AutoBan channelError = false ->
     updates (DisableChannel channelError reason) = []
     /\ notifications (DisableChannel channelError reason) = [])
  /\ (AutoBan channelError = true ->
      updates (DisableChannel channelError reason)
      = [(ChannelId channelError, UsingKey channelError,
          ChannelStatusAutoDisabled, reason)]
      /\ exists (history : list ServiceEvent) (subject content : string),
           updates history = []
           /\ notifications (DisableChannel channelError reason)
              = if UpdateChannelStatus_success history
                     (ChannelId channelError) (UsingKey channelError)
                     ChannelStatusAutoDisabled reason
                then [(formatNotifyType (ChannelId channelError)
                                        ChannelStatusAutoDisabled,
                       subject, content)]
                else []).
Proof.
  unfold DisableChannel. split; intros ->; cbn [negb].
  - split; reflexivity.
  - split.
    + destruct (UpdateChannelStatus_success _ _ _ _ _); reflexivity.
    + cbv zeta.
      match goal with
      | |- context [UpdateChannelStatus_success ?h _ _ _ _] => exists h
      end.
      match goal with
      | |- context [NotifyRootUser _ ?sub ?c] => exists sub, c
      end.
      split; [reflexivity|].
      destruct (UpdateChannelStatus_success _ _ _ _ _); reflexivity.
Qed.

(** X13.  [EnableChannel] asks the store once, for the enabled status and an
    empty reason, and notifies once, under the key of that channel and
    status, exactly if the store reported success. *)
Theorem EnableChannel_effects (channelId : Z) (usingKey channelName : string) :
  updates (EnableChannel channelId usingKey channelName)
  = [(channelId, usingKey, ChannelStatusEnabled, "")]
  /\ exists subject : string,
       notifications (EnableChannel channelId usingKey channelName)
       = if UpdateChannelStatus_success [] channelId usingKey
              ChannelStatusEnabled ""
         then [(formatNotifyType channelId ChannelStatusEnabled,
                subject, subject)]
         else [].
Proof.
  unfold EnableChannel. cbv zeta.
  split; [destruct (UpdateChannelStatus_success _ _ _ _ _); reflexivity|].
  match goal with
  | |- context [NotifyRootUser _ ?sub _] => exists sub
  end.
  destruct (UpdateChannelStatus_success _ _ _ _ _); reflexivity.
Qed.

End ChannelProperties.


(** * Further properties of the stream handler *)

Section StreamMore.
Context `{RelayEnv}.
Import dto types gemini notions.

(** ** The cases of the callback, with their conditions *)

Lemma dataHandler_cases_strong (data : string) (s : Session) :
  (exists err : string,
     UnmarshalJsonStr data = Err err
     /\ dataHandler data s
        = (false, emit (LogError ("error unmarshalling stream response: "
                                  +:+ err)) s))
  \/ (exists r : GeminiChatResponse,
        UnmarshalJsonStr data = Ok r
        /\ IsBlocked (PromptFeedback r) = true
        /\ isPendingEmptyThought s = true
        /\ dataHandler data s
           = (false,
              emit (LogWarn
                ("Gemini content blocked (detected empty thought pattern): "
                   +:+ BlockReason (PromptFeedback r)))
                (set_blocked true (BlockReason (PromptFeedback r)) s)))
  \/ (exists r : GeminiChatResponse,
        UnmarshalJsonStr data = Ok r
        /\ IsBlocked (PromptFeedback r) && isPendingEmptyThought s = false
        /\ sendResponseCount s = 0 /\ pendingData s = ""
        /\ IsEmptyThoughtResponse r = true
        /\ dataHandler data s
           = (true,
              emit (LogDebug
                "Detected potential empty thought pattern, pending first chunk")
                (set_pending data true (warnStarted (PromptFeedback r) s))))
  \/ (exists r : GeminiChatResponse,
        UnmarshalJsonStr data = Ok r
        /\ IsBlocked (PromptFeedback r) && isPendingEmptyThought s = false
        /\ (sendResponseCount s =? 0) && (pendingData s =? "")%string
           && IsEmptyThoughtResponse r = false
        /\ dataHandler data s
           = (true, send data (updateUsage (UsageMetadata r)
                      (countParts (Candidates r)
                         (releasePending (warnStarted (PromptFeedback r) s)))))).
Proof.
  destruct (UnmarshalJsonStr data) as [r|err] eqn:Hparse.
  - right.
    destruct (IsBlocked (PromptFeedback r) && isPendingEmptyThought s)
      eqn:Hb.
    + left. apply andb_true_iff in Hb as [Hb Hp]. exists r.
      repeat split; try assumption.
      apply dataHandler_block; assumption.
    + right.
      destruct ((sendResponseCount s =? 0) && (pendingData s =? "")%string
                && IsEmptyThoughtResponse r) eqn:Hf.
      * left. exists r.
        apply andb_true_iff in Hf as [Hf He].
        apply andb_true_iff in Hf as [Hc Hd].
        apply Z.eqb_eq in Hc. apply String.eqb_eq in Hd.
        repeat split; try assumption.
        unfold dataHandler. rewrite Hparse, Hb.
        destruct (warnStarted_fields (PromptFeedback r) s)
          as [(_&_&_&Hd'&_&_&_&Hc') _].
        rewrite <- Hc', <- Hd', Hc, Hd, He. reflexivity.
      * right. exists r. repeat split; try assumption.
        apply dataHandler_flow; assumption.
  - left. exists err. split; [reflexivity|].
    apply dataHandler_malformed. exact Hparse.
Qed.

Lemma releasePending_isPending (s : Session) :
  isPendingEmptyThought (releasePending s)
  = if negb (pendingData s =? "")%string then false
    else isPendingEmptyThought s.
Proof.
  unfold releasePending. destruct (pendingData s =? "")%string; reflexivity.
Qed.

(** More about the session after a chunk that is processed and written. *)
Lemma flow_more_fields (data : string) (f : GeminiChatPromptFeedback)
    (um : GeminiUsageMetadata) (cs : list GeminiChatCandidate)
    (s : Session) :
  let s' := send data (updateUsage um (countParts cs
              (releasePending (warnStarted f s)))) in
  isPendingEmptyThought s'
  = (if negb (pendingData s =? "")%string then false
     else isPendingEmptyThought s)
  /\ same_accounting s'
       (updateUsage um (countParts cs (releasePending (warnStarted f s)))).
Proof.
  intros s'. subst s'.
  destruct (warnStarted_fields f s) as [(_&_&_&Hwd&Hwp&_) _].
  set (s1 := warnStarted f s) in *.
  pose proof (releasePending_isPending s1) as Hrp.
  set (s2 := releasePending s1) in *.
  destruct (countParts_same_flow cs s2) as [(_&Hcp&_) _].
  set (s3 := countParts cs s2) in *.
  destruct (updateUsage_same_flow um s3) as [(_&Hup&_) _].
  set (s4 := updateUsage um s3) in *.
  destruct (send_fields data s4) as (Hsu&Hsi&Hst&_&Hsp&_).
  split.
  - rewrite Hsp, <- Hup, <- Hcp, Hrp, <- Hwd, <- Hwp. reflexivity.
  - unfold same_accounting. auto.
Qed.

(** The counting of parts and the usage update depend on the accounting
    of the session only. *)
Lemma countParts_accounting (cs : list GeminiChatCandidate)
    (a b : Session) :
  same_accounting a b -> same_accounting (countParts cs a) (countParts cs b).
Proof.
  assert (Hpart : forall p a b, same_accounting a b ->
                    same_accounting (countPart a p) (countPart b p)).
  { intros p x y (Hu & Hi & Ht). unfold countPart, same_accounting.
    destruct (InlineData p) as [d|];
      [destruct (negb (MimeType d =? "")%string)|];
      destruct (negb (Text p =? "")%string); simpl;
      rewrite ?Hu, ?Hi, ?Ht; repeat split. }
  assert (Hparts : forall ps a b, same_accounting a b ->
                     same_accounting (foldl countPart a ps)
                                     (foldl countPart b ps)).
  { induction ps as [|p ps IH]; intros x y Hxy; simpl; [exact Hxy|].
    apply IH, Hpart, Hxy. }
  unfold countParts. revert a b.
  induction cs as [|c cs IH]; intros a b Hab; simpl; [exact Hab|].
  apply IH, Hparts, Hab.
Qed.

Lemma updateUsage_accounting (um : GeminiUsageMetadata) (a b : Session) :
  same_accounting a b ->
  same_accounting (updateUsage um a) (updateUsage um b).
Proof.
  intros (Hu & Hi & Ht). unfold updateUsage, same_accounting.
  destruct (negb (TotalTokenCount um =? 0)); simpl;
    rewrite ?Hu, ?Hi, ?Ht; repeat split.
Qed.

Lemma flow_accounting (data : string) (f : GeminiChatPromptFeedback)
    (um : GeminiUsageMetadata) (cs : list GeminiChatCandidate)
    (a b : Session) :
  same_accounting a b ->
  same_accounting
    (send data (updateUsage um (countParts cs
       (releasePending (warnStarted f a)))))
    (send data (updateUsage um (countParts cs
       (releasePending (warnStarted f b))))).
Proof.
  intros (Hu & Hi & Ht).
  destruct (flow_more_fields data f um cs a) as [_ (Ha1 & Ha2 & Ha3)].
  destruct (flow_more_fields data f um cs b) as [_ (Hb1 & Hb2 & Hb3)].
  assert (Hin : same_accounting (releasePending (warnStarted f a))
                                (releasePending (warnStarted f b))).
  { destruct (warnStarted_fields f a) as [(Hau&Hai&Hat&_) _].
    destruct (warnStarted_fields f b) as [(Hbu&Hbi&Hbt&_) _].
    destruct (releasePending_fields (warnStarted f a))
      as (_&_&_&Hru&Hri&Hrt&_).
    destruct (releasePending_fields (warnStarted f b))
      as (_&_&_&Hsu&Hsi&Hst&_).
    unfold same_accounting. repeat split; congruence. }
  apply (countParts_accounting cs) in Hin.
  apply (updateUsage_accounting um) in Hin.
  destruct Hin as (H1 & H2 & H3).
  unfold same_accounting. repeat split; congruence.
Qed.

(** ** Arrival order *)

(** One step of the callback: a chunk that is taken joins what was written
    or held so far, at the end; a chunk that stops the stream changes
    neither. *)
Lemma dataHandler_written_or_held (P : list string) (data : string)
    (s : Session) :
  (forall r : GeminiChatResponse, UnmarshalJsonStr "" <> Ok r) ->
  forwarded (trace s) ++ held s = P ->
  forwarded (trace (snd (dataHandler data s)))
  ++ held (snd (dataHandler data s))
  = if fst (dataHandler data s) then P ++ [data] else P.
Proof.
  intros Hempty HP.
  destruct (dataHandler_cases_strong data s)
    as [(err & _ & ->) | [(r & _ & _ & _ & ->)
       | [(r & Hparse & _ & _ & Hd & _ & ->) | (r & _ & _ & _ & ->)]]];
    cbn [fst snd].
  - unfold held. cbn [emit trace pendingData].
    rewrite forwarded_app. simpl. rewrite app_nil_r. exact HP.
  - unfold held. cbn [emit set_blocked trace pendingData].
    rewrite forwarded_app. simpl. rewrite app_nil_r. exact HP.
  - assert (Hne : (data =? "")%string = false).
    { apply String.eqb_neq. intros ->. exact (Hempty r Hparse). }
    unfold held in *. cbn [emit set_pending trace pendingData].
    rewrite Hne. cbn [negb].
    rewrite forwarded_app, (proj2 (warnStarted_fields _ s)). simpl.
    rewrite app_nil_r. rewrite Hd in HP. cbn [String.eqb negb] in HP.
    rewrite app_nil_r in HP. rewrite HP. reflexivity.
  - destruct (flow_fields data (PromptFeedback r) (UsageMetadata r)
                (Candidates r) s) as (Hf & _ & Hpd & _).
    unfold held in *. rewrite Hf, Hpd. cbn [String.eqb negb].
    rewrite app_nil_r, app_assoc, HP. reflexivity.
Qed.

Lemma StreamScannerHandler_written_or_held (chunks P : list string)
    (s : Session) :
  (forall r : GeminiChatResponse, UnmarshalJsonStr "" <> Ok r) ->
  forwarded (trace s) ++ held s = P ->
  forwarded (trace (StreamScannerHandler chunks dataHandler s))
  ++ held (StreamScannerHandler chunks dataHandler s)
  `prefix_of` P ++ chunks.
Proof.
  intros Hempty. revert P s.
  induction chunks as [|d rest IH]; intros P s HP; simpl.
  - rewrite HP, app_nil_r. reflexivity.
  - pose proof (dataHandler_written_or_held P d s Hempty HP) as Hstep.
    destruct (dataHandler d s) as [[|] s']; cbn [fst snd] in Hstep.
    + replace (P ++ d :: rest) with ((P ++ [d]) ++ rest)
        by (rewrite <- app_assoc; reflexivity).
      apply IH. exact Hstep.
    + rewrite Hstep. apply prefix_app_r. reflexivity.
Qed.

(** X14.  The chunks written to the client are an initial part of the chunks of
    the stream, in the order of arrival: none is reordered, repeated or
    left out before the last one written. *)
Theorem GeminiTextGenerationStreamHandler_in_order
    (info : RelayInfo) (chunks : list string) :
  (forall r : GeminiChatResponse, UnmarshalJsonStr "" <> Ok r) ->
  forwarded (trace (fst (GeminiTextGenerationStreamHandler info chunks)))
  `prefix_of` chunks.
Proof.
  intros Hempty. unfold GeminiTextGenerationStreamHandler.
  pose proof (StreamScannerHandler_written_or_held chunks []
                (Session_init info) Hempty eq_refl) as Hpre.
  set (s := StreamScannerHandler chunks dataHandler (Session_init info)) in *.
  cbn [app] in Hpre.
  destruct (contentBlocked s) eqn:Hb.
  - rewrite resolve_blocked by exact Hb. cbn [fst].
    etrans; [|exact Hpre]. apply prefix_app_r. reflexivity.
  - rewrite (proj1 (resolve_not_blocked info s Hb)).
    rewrite (proj1 (releaseAtEnd_fields s)). exact Hpre.
Qed.

(** ** A stream without block and without malformed chunk *)

Lemma dataHandler_good_chunk (data : string) (r : GeminiChatResponse)
    (s : Session) :
  data <> "" ->
  UnmarshalJsonStr data = Ok r ->
  IsBlocked (PromptFeedback r) = false ->
  fst (dataHandler data s) = true
  /\ contentBlocked (snd (dataHandler data s)) = contentBlocked s
  /\ forwarded (trace (snd (dataHandler data s)))
     ++ held (snd (dataHandler data s))
     = (forwarded (trace s) ++ held s) ++ [data].
Proof.
  intros Hne Hparse Hnb.
  destruct (dataHandler_cases_strong data s)
    as [(err & Hp & _) | [(r' & Hp & Hb & _)
       | [(r' & Hp & _ & _ & Hd & _ & ->) | (r' & Hp & _ & _ & ->)]]];
    cbn [fst snd]; try congruence.
  - assert (Hdne : (data =? "")%string = false)
      by (apply String.eqb_neq; exact Hne).
    unfold held. cbn [emit set_pending trace pendingData contentBlocked].
    rewrite Hdne, Hd. cbn [String.eqb negb].
    destruct (warnStarted_fields (PromptFeedback r') s)
      as [(_&_&_&_&_&Hcb&_) Hf].
    rewrite forwarded_app, Hf, <- Hcb. simpl. rewrite !app_nil_r. auto.
  - destruct (flow_fields data (PromptFeedback r') (UsageMetadata r')
                (Candidates r') s) as (Hf & _ & Hpd & Hcb & _).
    unfold held. rewrite Hf, Hpd, Hcb. cbn [String.eqb negb].
    rewrite app_nil_r, app_assoc. auto.
Qed.

(** X15.  When every chunk of the stream is a non-empty text that decodes and
    signals no block, every chunk is written to the client, in order, and
    no block is decided; a stream of at least one such chunk succeeds. *)
Theorem GeminiTextGenerationStreamHandler_forwards_all
    (info : RelayInfo) (chunks : list string) :
  Forall (fun data =>
            data <> ""
            /\ exists r : GeminiChatResponse,
                 UnmarshalJsonStr data = Ok r
                 /\ IsBlocked (PromptFeedback r) = false) chunks ->
  forwarded (trace (fst (GeminiTextGenerationStreamHandler info chunks)))
  = chunks
  /\ contentBlocked (fst (GeminiTextGenerationStreamHandler info chunks))
     = false
  /\ (SendResponseCount info = 0 -> chunks <> [] ->
      Z.of_nat (List.length chunks) < 2 ^ 61 ->
      exists u : Usage,
        snd (GeminiTextGenerationStreamHandler info chunks)
        = (Some u, None)).
Proof.
  intros Hgood. unfold GeminiTextGenerationStreamHandler.
  assert (Hscan : forall chunks s, Forall (fun data =>
            data <> "" /\ exists r : GeminiChatResponse,
              UnmarshalJsonStr data = Ok r
              /\ IsBlocked (PromptFeedback r) = false) chunks ->
            contentBlocked (StreamScannerHandler chunks dataHandler s)
            = contentBlocked s
            /\ forwarded (trace (StreamScannerHandler chunks dataHandler s))
               ++ held (StreamScannerHandler chunks dataHandler s)
               = (forwarded (trace s) ++ held s) ++ chunks).
  { clear. induction chunks as [|d rest IH]; intros s Hall; simpl.
    - rewrite app_nil_r. auto.
    - apply Forall_cons in Hall as [(Hne & r & Hparse & Hnb) Hall].
      destruct (dataHandler_good_chunk d r s Hne Hparse Hnb)
        as (Hc & Hcb & Hf).
      destruct (dataHandler d s) as [c s']. cbn [fst snd] in *. subst c.
      destruct (IH s' Hall) as [Hcb' Hf'].
      split; [congruence|]. rewrite Hf', Hf, <- app_assoc. reflexivity. }
  destruct (Hscan chunks (Session_init info) Hgood) as [Hcb Hf].
  set (s := StreamScannerHandler chunks dataHandler (Session_init info)) in *.
  change (contentBlocked (Session_init info)) with false in Hcb.
  cbn [Session_init trace forwarded omap app] in Hf.
  unfold held at 2 in Hf. cbn [pendingData String.eqb negb app] in Hf.
  destruct (resolve_not_blocked info s Hcb) as (Htr & Hnb & Hres).
  rewrite Htr, (proj1 (releaseAtEnd_fields s)).
  split; [exact Hf|]. split; [exact Hnb|].
  intros Hc Hne Hlen. rewrite Hres.
  pose proof (StreamScannerHandler_counted 0 chunks (Session_init info)
                (counted_init info Hc)) as Hcnt.
  fold s in Hcnt. apply releaseAtEnd_counted in Hcnt.
  destruct Hcnt as (Hk & _ & Hl).
  rewrite (proj1 (releaseAtEnd_fields s)) in Hk, Hl.
  unfold held in Hf. rewrite Hf in Hk, Hl. rewrite Hk.
  rewrite GoIntFacts.wrap_small
    by (unfold GoInt.in_range, GoInt.min_int, GoInt.max_int; lia).
  destruct chunks as [|d rest]; [congruence|].
  cbn [List.length]. 
  destruct (Z.eqb_spec (Z.of_nat (S (List.length rest))) 0); [lia|].
  eexists. reflexivity.
Qed.

(** ** A block decision is taken before anything is written *)

Lemma counted_nothing_written (n : nat) (s : Session) :
  counted n s -> Z.of_nat n < 2 ^ 61 -> sendResponseCount s = 0 ->
  forwarded (trace s) = [].
Proof.
  intros (Hk & _ & Hl) Hn Hz. rewrite Hk in Hz.
  rewrite GoIntFacts.wrap_small in Hz
    by (unfold GoInt.in_range, GoInt.min_int, GoInt.max_int; lia).
  destruct (forwarded (trace s)); [reflexivity | simpl in Hz; lia].
Qed.

Lemma dataHandler_running (n : nat) (data : string) (s : Session) :
  (forall r : GeminiChatResponse, UnmarshalJsonStr "" <> Ok r) ->
  Z.of_nat n < 2 ^ 61 ->
  running s -> counted n s ->
  (fst (dataHandler data s) = true -> running (snd (dataHandler data s)))
  /\ (contentBlocked (snd (dataHandler data s)) = true ->
      forwarded (trace (snd (dataHandler data s))) = []).
Proof.
  intros Hempty Hn [Hnb Hpend] Hcnt.
  destruct (dataHandler_cases_strong data s)
    as [(err & _ & ->) | [(r & _ & _ & Hp & ->)
       | [(r & Hparse & _ & Hc & Hd & _ & ->) | (r & _ & Hb & _ & ->)]]];
    cbn [fst snd].
  - split; [discriminate|]. cbn [emit contentBlocked]. congruence.
  - split; [discriminate|]. intros _. cbn [emit set_blocked trace].
    rewrite forwarded_app, (proj1 (Hpend Hp)). reflexivity.
  - destruct (warnStarted_fields (PromptFeedback r) s)
      as [(_&_&_&_&_&Hcb&_) Hf].
    assert (Hnone : forwarded (trace s) = [])
      by (apply (counted_nothing_written n); assumption).
    split.
    + intros _. unfold running.
      cbn [emit set_pending trace contentBlocked isPendingEmptyThought
           pendingData].
      split; [congruence|]. intros _.
      rewrite forwarded_app, Hf, Hnone. split; [reflexivity|].
      intros ->. exact (Hempty r Hparse).
    + cbn [emit set_pending contentBlocked]. congruence.
  - destruct (flow_fields data (PromptFeedback r) (UsageMetadata r)
                (Candidates r) s) as (_ & _ & _ & Hcb & _).
    destruct (flow_more_fields data (PromptFeedback r) (UsageMetadata r)
                (Candidates r) s) as [Hip _]. cbv zeta in Hip.
    split.
    + intros _. unfold running. split; [congruence|].
      rewrite Hip.
      destruct (pendingData s =? "")%string eqn:Hd; cbn [negb];
        [|discriminate].
      intros Hp. destruct (Hpend Hp) as [_ Hne].
      apply String.eqb_eq in Hd. contradiction.
    + congruence.
Qed.

Lemma StreamScannerHandler_blocked_nothing_written (n : nat)
    (chunks : list string) (s : Session) :
  (forall r : GeminiChatResponse, UnmarshalJsonStr "" <> Ok r) ->
  Z.of_nat (n + List.length chunks) < 2 ^ 61 ->
  running s -> counted n s ->
  contentBlocked (StreamScannerHandler chunks dataHandler s) = true ->
  forwarded (trace (StreamScannerHandler chunks dataHandler s)) = [].
Proof.
  intros Hempty. revert n s.
  induction chunks as [|d rest IH]; intros n s Hn Hrun Hcnt; simpl.
  - destruct Hrun as [Hnb _]. congruence.
  - assert (Hn' : Z.of_nat n < 2 ^ 61) by (simpl in Hn; lia).
    pose proof (dataHandler_running n d s Hempty Hn' Hrun Hcnt)
      as [Hgo Hstop].
    pose proof (dataHandler_counted n d s Hcnt) as Hcnt'.
    destruct (dataHandler d s) as [[|] s']; cbn [fst snd] in *.
    + apply (IH (S n)); auto. simpl in Hn. lia.
    + exact Hstop.
Qed.

(** X16.  When the stream handler answers [ContentFiltered], no chunk was
    written to the client: the block is decided only while the first chunk
    is still held.  (The send count starts at zero, and the empty text does
    not decode.) *)
Theorem GeminiTextGenerationStreamHandler_blocked_nothing_written
    (info : RelayInfo) (chunks : list string) (e : NewAPIError) :
  SendResponseCount info = 0 ->
  (forall r : GeminiChatResponse, UnmarshalJsonStr "" <> Ok r) ->
  Z.of_nat (List.length chunks) < 2 ^ 61 ->
  snd (GeminiTextGenerationStreamHandler info chunks) = (None, Some e) ->
  errorCode e = ErrorCodeContentFiltered ->
  forwarded (trace (fst (GeminiTextGenerationStreamHandler info chunks)))
  = [].
Proof.
  intros Hc Hempty Hlen. unfold GeminiTextGenerationStreamHandler.
  pose proof (StreamScannerHandler_blocked_nothing_written 0 chunks
                (Session_init info) Hempty Hlen) as Hscan.
  set (s := StreamScannerHandler chunks dataHandler (Session_init info)) in *.
  destruct (contentBlocked s) eqn:Hb.
  - rewrite resolve_blocked by exact Hb. cbn [fst snd]. intros _ _.
    apply Hscan; [| apply counted_init, Hc | reflexivity].
    unfold running. cbn. split; [reflexivity | discriminate].
  - rewrite (proj2 (proj2 (resolve_not_blocked info s Hb))).
    destruct (sendResponseCount (releaseAtEnd s) =? 0); [|discriminate].
    intros [= <-]. discriminate.
Qed.

(** ** The send count *)

Lemma estimates_counts (info : RelayInfo) (s : Session) :
  sendResponseCount (textEstimate info (imageEstimate s))
  = sendResponseCount s
  /\ imageCount (textEstimate info (imageEstimate s)) = imageCount s.
Proof.
  unfold textEstimate, imageEstimate.
  destruct (negb (imageCount s =? 0));
    [destruct (CompletionTokens (usage s) =? 0)|];
    match goal with
    | |- context [CompletionTokens (usage ?x) =? 0] =>
        destruct (CompletionTokens (usage x) =? 0)
    end;
    try match goal with
    | |- context [negb (responseText ?x =? "")%string] =>
        destruct (negb (responseText x =? "")%string)
    end; split; reflexivity.
Qed.

(** X17.  For a session that starts with a send count of zero,
    [info.SendResponseCount] ends as the number of chunks written to the
    client, on every path. *)
Theorem GeminiTextGenerationStreamHandler_send_count
    (info : RelayInfo) (chunks : list string) :
  SendResponseCount info = 0 ->
  Z.of_nat (List.length chunks) < 2 ^ 61 ->
  sendResponseCount (fst (GeminiTextGenerationStreamHandler info chunks))
  = Z.of_nat (List.length (forwarded (trace
      (fst (GeminiTextGenerationStreamHandler info chunks))))).
Proof.
  intros Hc Hlen. unfold GeminiTextGenerationStreamHandler.
  pose proof (StreamScannerHandler_counted 0 chunks (Session_init info)
                (counted_init info Hc)) as Hcnt.
  set (s := StreamScannerHandler chunks dataHandler (Session_init info)) in *.
  assert (Hfinal : counted (S (List.length chunks)) (fst (resolve info s))).
  { destruct (contentBlocked s) eqn:Hb.
    - rewrite resolve_blocked by exact Hb. cbn [fst].
      apply (counted_same (0 + List.length chunks) _ s);
        [lia | reflexivity | reflexivity | reflexivity | exact Hcnt].
    - destruct (resolve_not_blocked info s Hb) as (Htr & _ & _).
      destruct (estimates_counts info (releaseAtEnd s)) as [Hec Hei].
      apply (counted_same (S (0 + List.length chunks)) _ (releaseAtEnd s));
        [lia | | | rewrite Htr; reflexivity
         | apply releaseAtEnd_counted, Hcnt].
      + unfold resolve. rewrite Hb.
        destruct (sendResponseCount (releaseAtEnd s) =? 0); cbn [fst];
          [reflexivity | exact Hec].
      + unfold resolve. rewrite Hb.
        destruct (sendResponseCount (releaseAtEnd s) =? 0); cbn [fst];
          [reflexivity | exact Hei]. }
  destruct Hfinal as (Hk & _ & Hl). rewrite Hk.
  apply GoIntFacts.wrap_small.
  unfold GoInt.in_range, GoInt.min_int, GoInt.max_int. lia.
Qed.

(** ** The first chunk, held or not *)

(** The session that holds a first empty-thought chunk has accounted for
    nothing. *)
Lemma hold_first_session (info : RelayInfo) (d1 : string)
    (r1 : GeminiChatResponse) :
  SendResponseCount info = 0 ->
  UnmarshalJsonStr d1 = Ok r1 ->
  IsEmptyThoughtResponse r1 = true ->
  exists s1 : Session,
    dataHandler d1 (Session_init info) = (true, s1)
    /\ forwarded (trace s1) = []
    /\ pendingData s1 = d1 /\ isPendingEmptyThought s1 = true
    /\ contentBlocked s1 = false /\ sendResponseCount s1 = 0
    /\ same_accounting s1 (Session_init info).
Proof.
  intros Hc Hparse Hempty. eexists. split.
  - apply (dataHandler_hold d1 r1); auto.
  - destruct (warnStarted_fields (PromptFeedback r1) (Session_init info))
      as [(Hu&Hi&Ht&_&_&Hb&_&Hcn) Hf].
    unfold same_accounting.
    cbn [emit set_pending trace pendingData isPendingEmptyThought
         contentBlocked sendResponseCount usage imageCount responseText].
    rewrite forwarded_app, Hf, <- Hb, <- Hcn, <- Hu, <- Hi, <- Ht.
    simpl. auto 10.
Qed.

(** The session after a first chunk that is not held. *)
Lemma flow_first_session (info : RelayInfo) (d1 : string)
    (r1 : GeminiChatResponse) :
  SendResponseCount info = 0 ->
  UnmarshalJsonStr d1 = Ok r1 ->
  IsEmptyThoughtResponse r1 = false ->
  exists s1 : Session,
    dataHandler d1 (Session_init info) = (true, s1)
    /\ s1 = send d1 (updateUsage (UsageMetadata r1)
              (countParts (Candidates r1)
                 (releasePending (warnStarted (PromptFeedback r1)
                    (Session_init info)))))
    /\ forwarded (trace s1) = [d1]
    /\ pendingData s1 = "" /\ isPendingEmptyThought s1 = false
    /\ contentBlocked s1 = false /\ sendResponseCount s1 = 1.
Proof.
  intros Hc Hparse Hne. eexists. split; [|split; [reflexivity|]].
  - apply dataHandler_flow; [exact Hparse | apply andb_false_r |].
    rewrite Hne. apply andb_false_r.
  - destruct (flow_fields d1 (PromptFeedback r1) (UsageMetadata r1)
                (Candidates r1) (Session_init info))
      as (Hf & Hcn & Hpd & Hcb & _).
    destruct (flow_more_fields d1 (PromptFeedback r1) (UsageMetadata r1)
                (Candidates r1) (Session_init info)) as [Hip _].
    cbv zeta in Hip.
    cbn [Session_init pendingData trace String.eqb negb app
         sendResponseCount contentBlocked isPendingEmptyThought]
      in Hf, Hcn, Hpd, Hcb, Hip.
    rewrite Hc in Hcn. repeat split; assumption.
Qed.

(** X18.  The stream ends while the first, empty-thought chunk is still held:
    the chunk is written after all and the handler succeeds, with the zero
    usage record (nothing was accounted for). *)
Theorem GeminiTextGenerationStreamHandler_held_chunk_released
    (info : RelayInfo) (d1 : string) (r1 : GeminiChatResponse) :
  SendResponseCount info = 0 ->
  UnmarshalJsonStr d1 = Ok r1 ->
  IsEmptyThoughtResponse r1 = true ->
  d1 <> "" ->
  forwarded (trace (fst (GeminiTextGenerationStreamHandler info [d1])))
  = [d1]
  /\ snd (GeminiTextGenerationStreamHandler info [d1])
     = (Some Usage_zero, None).
Proof.
  intros Hc Hparse Hempty Hne.
  destruct (hold_first_session info d1 r1 Hc Hparse Hempty)
    as (s1 & Hd1 & Hf1 & Hpd1 & _ & Hcb1 & Hcn1 & Hu1 & Hi1 & Ht1).
  unfold GeminiTextGenerationStreamHandler.
  rewrite (StreamScannerHandler_continue d1 [] _ s1 Hd1).
  cbn [StreamScannerHandler].
  destruct (resolve_not_blocked info s1 Hcb1) as (Htr & _ & Hres).
  destruct (releaseAtEnd_fields s1) as (Hfe & Hce & Hue & Hie & Hte & _).
  assert (Hnb : (pendingData s1 =? "")%string = false)
    by (rewrite Hpd1; apply String.eqb_neq; exact Hne).
  rewrite Hnb, Hf1, Hpd1 in Hfe. rewrite Hnb, Hcn1 in Hce.
  cbn [negb app] in Hfe, Hce.
  split; [rewrite Htr; exact Hfe|].
  rewrite Hres, Hce.
  destruct (textEstimate_fields info (imageEstimate (releaseAtEnd s1)))
    as (_ & _ & ->).
  destruct (imageEstimate_fields (releaseAtEnd s1)) as (_ & _ & -> & ->).
  rewrite Hie, Hue, Hte, Hi1, Hu1, Ht1. reflexivity.
Qed.



(** X20.  What the held chunk carries is never accounted for: a stream that
    starts with a held empty-thought chunk followed by an ordinary chunk
    returns the very result of the stream made of the ordinary chunk
    alone, although both chunks are written. *)
Theorem GeminiTextGenerationStreamHandler_held_chunk_not_accounted
    (info : RelayInfo) (d1 d2 : string) (r1 r2 : GeminiChatResponse) :
  SendResponseCount info = 0 ->
  UnmarshalJsonStr d1 = Ok r1 -> IsEmptyThoughtResponse r1 = true ->
  d1 <> "" ->
  UnmarshalJsonStr d2 = Ok r2 -> IsBlocked (PromptFeedback r2) = false ->
  IsEmptyThoughtResponse r2 = false ->
  snd (GeminiTextGenerationStreamHandler info [d1; d2])
  = snd (GeminiTextGenerationStreamHandler info [d2])
  /\ forwarded (trace (fst (GeminiTextGenerationStreamHandler info
                              [d1; d2]))) = [d1; d2]
  /\ forwarded (trace (fst (GeminiTextGenerationStreamHandler info [d2])))
     = [d2].
Proof.
  intros Hc Hp1 He1 Hne Hp2 Hb2 He2.
  destruct (hold_first_session info d1 r1 Hc Hp1 He1)
    as (s1 & Hd1 & Hf1 & Hpd1 & _ & Hcb1 & Hcn1 & Hacc).
  destruct (flow_first_session info d2 r2 Hc Hp2 He2)
    as (b & Hdb & Hbeq & Hfb & Hpdb & _ & Hcbb & Hcnb).
  assert (Hnb : (pendingData s1 =? "")%string = false)
    by (rewrite Hpd1; apply String.eqb_neq; exact Hne).
  assert (Hda : dataHandler d2 s1
                = (true, send d2 (updateUsage (UsageMetadata r2)
                    (countParts (Candidates r2)
                       (releasePending (warnStarted (PromptFeedback r2) s1)))))).
  { apply dataHandler_flow; [exact Hp2 | rewrite Hb2; reflexivity |].
    rewrite Hnb, andb_false_r. reflexivity. }
  destruct (flow_fields d2 (PromptFeedback r2) (UsageMetadata r2)
              (Candidates r2) s1) as (Hfa & Hcna & Hpda & Hcba & _).
  rewrite Hnb, Hf1, Hpd1 in Hfa. rewrite Hnb, Hcn1 in Hcna.
  cbn [negb app] in Hfa, Hcna.
  pose proof (flow_accounting d2 (PromptFeedback r2) (UsageMetadata r2)
                (Candidates r2) s1 (Session_init info) Hacc) as Hab.
  rewrite <- Hbeq in Hab. clear Hbeq.
  set (a := send d2 (updateUsage (UsageMetadata r2)
              (countParts (Candidates r2)
                 (releasePending (warnStarted (PromptFeedback r2) s1)))))
    in *.
  unfold GeminiTextGenerationStreamHandler.
  rewrite (StreamScannerHandler_continue d1 _ _ s1 Hd1).
  rewrite (StreamScannerHandler_continue d2 _ _ a Hda).
  rewrite (StreamScannerHandler_continue d2 _ _ b Hdb).
  cbn [StreamScannerHandler].
  assert (Hcba' : contentBlocked a = false) by congruence.
  destruct (resolve_not_blocked info a Hcba') as (Htra & _ & Hresa).
  destruct (resolve_not_blocked info b Hcbb) as (Htrb & _ & Hresb).
  destruct (releaseAtEnd_fields a) as (Hfea & Hcea & Huea & Hiea & Htea & _).
  destruct (releaseAtEnd_fields b) as (Hfeb & Hceb & Hueb & Hieb & Hteb & _).
  rewrite Hpda in Hfea, Hcea. rewrite Hpdb in Hfeb, Hceb.
  cbn [negb String.eqb] in Hfea, Hcea, Hfeb, Hceb.
  rewrite app_nil_r in Hfea, Hfeb.
  destruct Hab as (Hu & Hi & Ht).
  split; [|split].
  - rewrite Hresa, Hresb, Hcea, Hceb, Hcna, Hcnb.
    rewrite (estimates_usage info (releaseAtEnd a) (releaseAtEnd b))
      by congruence.
    reflexivity.
  - rewrite Htra, Hfea. exact Hfa.
  - rewrite Htrb, Hfeb. exact Hfb.
Qed.

End StreamMore.


(** * Properties of the usage accounting *)

Section UsageProperties.
Context `{RelayEnv}.
Import dto types gemini notions.

Lemma Usage_ext (u v : Usage) :
  PromptTokens u = PromptTokens v ->
  CompletionTokens u = CompletionTokens v ->
  TotalTokens u = TotalTokens v ->
  AudioTokens (PromptTokensDetails u) = AudioTokens (PromptTokensDetails v) ->
  TextTokens (PromptTokensDetails u) = TextTokens (PromptTokensDetails v) ->
  CompletionTokenDetails u = CompletionTokenDetails v ->
  u = v.
Proof.
  destruct u as [? ? ? [? ?] ?], v as [? ? ? [? ?] ?]. simpl.
  intros -> -> -> -> -> ->. reflexivity.
Qed.

Lemma promptTokensDetails_shape
    (details : list GeminiPromptTokensDetails) (u : Usage) :
  promptTokensDetails details u
  = set_TextTokens
      (default (TextTokens (PromptTokensDetails u)) (lastOf "TEXT" details))
      (set_AudioTokens
         (default (AudioTokens (PromptTokensDetails u))
                  (lastOf "AUDIO" details)) u).
Proof.
  destruct (promptTokensDetails_fields details u)
    as (Ha & Ht & Hp & Hc & Hto & Hd).
  apply Usage_ext; cbn; assumption.
Qed.

(** X5.  The loop over the per-modality details fills the audio bucket with the
    count of the last AUDIO entry and the text bucket with that of the last
    TEXT entry; a bucket without entry keeps its value, entries of other
    modalities are ignored, and no other count changes.  Running the loop
    a second time over the same details changes nothing. *)
Theorem promptTokensDetails_last_wins
    (details : list GeminiPromptTokensDetails) (u : Usage) :
  promptTokensDetails details u
  = set_TextTokens
      (default (TextTokens (PromptTokensDetails u)) (lastOf "TEXT" details))
      (set_AudioTokens
         (default (AudioTokens (PromptTokensDetails u))
                  (lastOf "AUDIO" details)) u)
  /\ promptTokensDetails details (promptTokensDetails details u)
     = promptTokensDetails details u.
Proof.
  split; [apply promptTokensDetails_shape|].
  rewrite !promptTokensDetails_shape. cbn.
  destruct (lastOf "AUDIO" details), (lastOf "TEXT" details); reflexivity.
Qed.

(** X21.  The usage block of a chunk is a snapshot that overwrites the running
    usage: a block with a zero total changes nothing; a block with a
    non-zero total replaces the prompt, completion, total and reasoning
    counts whatever they were, while a modality bucket the block does not
    report keeps its earlier value; applying the same block twice is
    applying it once. *)
Theorem updateUsage_snapshot (um : GeminiUsageMetadata) (s : Session) :
  (TotalTokenCount um = 0 -> updateUsage um s = s)
  /\ (TotalTokenCount um <> 0 ->
      usage (updateUsage um s)
      = {| PromptTokens := PromptTokenCount um;
           CompletionTokens :=
             GoInt.wrap (CandidatesTokenCount um + ThoughtsTokenCount um);
           TotalTokens := TotalTokenCount um;
           PromptTokensDetails :=
             {| AudioTokens :=
                  default (AudioTokens (PromptTokensDetails (usage s)))
                    (lastOf "AUDIO" (UsageMetadata_PromptTokensDetails um));
                TextTokens :=
                  default (TextTokens (PromptTokensDetails (usage s)))
                    (lastOf "TEXT" (UsageMetadata_PromptTokensDetails um)) |};
           CompletionTokenDetails :=
             {| ReasoningTokens := ThoughtsTokenCount um |} |})
  /\ updateUsage um (updateUsage um s) = updateUsage um s.
Proof.
  assert (Hnz : TotalTokenCount um <> 0 ->
      usage (updateUsage um s)
      = {| PromptTokens := PromptTokenCount um;
           CompletionTokens :=
             GoInt.wrap (CandidatesTokenCount um + ThoughtsTokenCount um);
           TotalTokens := TotalTokenCount um;
           PromptTokensDetails :=
             {| AudioTokens :=
                  default (AudioTokens (PromptTokensDetails (usage s)))
                    (lastOf "AUDIO" (UsageMetadata_PromptTokensDetails um));
                TextTokens :=
                  default (TextTokens (PromptTokensDetails (usage s)))
                    (lastOf "TEXT" (UsageMetadata_PromptTokensDetails um)) |};
           CompletionTokenDetails :=
             {| ReasoningTokens := ThoughtsTokenCount um |} |}).
  { intros Hne. apply Z.eqb_neq in Hne. unfold updateUsage. rewrite Hne.
    cbn [negb usage set_usage].
    rewrite promptTokensDetails_shape. reflexivity. }
  split; [|split; [exact Hnz|]].
  - intros Hz. unfold updateUsage. rewrite Hz. reflexivity.
  - destruct (Z.eq_dec (TotalTokenCount um) 0) as [Hz | Hne].
    + unfold updateUsage. rewrite Hz. reflexivity.
    + pose proof (Hnz Hne) as Hu.
      assert (Hshape : forall x, updateUsage um x
                = set_usage (usage (updateUsage um x)) x).
      { intros x. unfold updateUsage.
        destruct (negb (TotalTokenCount um =? 0)); [reflexivity|].
        destruct x; reflexivity. }
      assert (Huu : usage (updateUsage um (updateUsage um s))
                    = usage (updateUsage um s)).
      { apply Z.eqb_neq in Hne. unfold updateUsage at 1. rewrite Hne.
        cbn [negb usage set_usage].
        rewrite promptTokensDetails_shape, Hu. cbn.
        destruct (lastOf "AUDIO" _), (lastOf "TEXT" _); reflexivity. }
      rewrite (Hshape (updateUsage um s)), Huu.
      destruct (updateUsage um s); reflexivity.
Qed.

End UsageProperties.


(** ** More runs on concrete inputs *)

Section MoreExamples.
Import dto types gemini embedding channel service notions.

Lemma GeminiTextGenerationHandler_bad_body_witness :
  exists tr : list Event,
    GeminiTextGenerationHandler (H := Sample.relayEnv)
      {| ReadAll_Body := Ok Sample.chunkMalformed |}
    = (tr, (None, Some {| Err_ := "invalid character in JSON text";
                          errorCode := ErrorCodeBadResponseBody;
                          StatusCode := http.StatusInternalServerError;
                          skipRetry := false |}))
    /\ copied tr = [].
Proof.
  apply (GeminiTextGenerationHandler_bad_body (H := Sample.relayEnv)
           {| ReadAll_Body := Ok Sample.chunkMalformed |}).
  right. exists Sample.chunkMalformed. split; reflexivity.
Defined.

Lemma GeminiTextGenerationHandler_usage_witness :
  exists (tr : list Event) (u : Usage),
    GeminiTextGenerationHandler (H := Sample.relayEnv)
      {| ReadAll_Body := Ok Sample.chunkText |} = (tr, (Some u, None))
    /\ copied tr = [Sample.chunkText]
    /\ PromptTokens u = 7 /\ CompletionTokens u = 2 /\ TotalTokens u = 9.
Proof.
  destruct (GeminiTextGenerationHandler_usage (H := Sample.relayEnv)
              {| ReadAll_Body := Ok Sample.chunkText |}
              Sample.chunkText Sample.responseText_ Sample.rawText
              {[ "promptTokenCount" := JNumber "7";
                 "candidatesTokenCount" := JNumber "2";
                 "totalTokenCount" := JNumber "9" ]}
              (JNumber "2") eq_refl eq_refl eq_refl eq_refl eq_refl eq_refl)
    as (tr & u & Hrun & Hcopy & Hp & Ht & _ & _ & Hc & _).
  exists tr, u. repeat split; try assumption.
  apply Hc. vm_compute. split; discriminate.
Defined.

Lemma GeminiTextGenerationHandler_usageMetadata_not_object_witness :
  exists (tr : list Event) (u : Usage),
    GeminiTextGenerationHandler (H := MoreSamples.relayEnv)
      {| ReadAll_Body := Ok MoreSamples.bodyNullUsage |}
    = (tr, (Some u, None))
    /\ copied tr = [MoreSamples.bodyNullUsage].
Proof.
  apply (GeminiTextGenerationHandler_usageMetadata_not_object
           (H := MoreSamples.relayEnv)
           {| ReadAll_Body := Ok MoreSamples.bodyNullUsage |}
           MoreSamples.bodyNullUsage Sample.responseNoUsage);
    try reflexivity.
  right. exists MoreSamples.rawNullUsage. split; [reflexivity|].
  intros um Hum. vm_compute in Hum. discriminate.
Defined.

Lemma NativeGeminiEmbeddingHandler_success_witness :
  exists tr : list Event,
    NativeGeminiEmbeddingHandler (H := Sample.relayEnv)
      (H0 := MoreSamples.embeddingEnv)
      {| ReadAll_Body := Ok MoreSamples.bodyEmbedding |}
      MoreSamples.embeddingInfo
    = (tr ++ [CloseResponseBody],
       (Some (set_TotalTokens 12 (set_PromptTokens 12 Usage_zero)), None))
    /\ copied tr = [MoreSamples.bodyEmbedding].
Proof.
  apply (NativeGeminiEmbeddingHandler_success (H := Sample.relayEnv)
           (H0 := MoreSamples.embeddingEnv)
           {| ReadAll_Body := Ok MoreSamples.bodyEmbedding |}
           MoreSamples.embeddingInfo MoreSamples.bodyEmbedding);
    reflexivity.
Defined.

Lemma NativeGeminiEmbeddingHandler_failure_witness :
  exists tr : list Event,
    NativeGeminiEmbeddingHandler (H := Sample.relayEnv)
      (H0 := MoreSamples.embeddingEnv)
      {| ReadAll_Body := Ok Sample.chunkMalformed |}
      MoreSamples.embeddingInfo
    = (tr ++ [CloseResponseBody],
       (None, Some {| Err_ := "invalid character in JSON text";
                      errorCode := ErrorCodeBadResponseBody;
                      StatusCode := http.StatusInternalServerError;
                      skipRetry := false |}))
    /\ copied tr = [].
Proof.
  apply (NativeGeminiEmbeddingHandler_failure (H := Sample.relayEnv)
           (H0 := MoreSamples.embeddingEnv)
           {| ReadAll_Body := Ok Sample.chunkMalformed |}
           MoreSamples.embeddingInfo).
  right. exists Sample.chunkMalformed. split; reflexivity.
Defined.

Lemma ShouldDisableChannel_channel_type_witness :
  ShouldDisableChannel (H := Sample.serviceEnv) 1
    (Some (Sample.upstreamError "forbidden" 403 false))
  = ShouldDisableChannel (H := Sample.serviceEnv) 14
      (Some (Sample.upstreamError "forbidden" 403 false))
  /\ ShouldDisableChannel (H := Sample.serviceEnv) 24
       (Some (Sample.upstreamError "unauthorized" 401 false)) = true.
Proof.
  split.
  - apply (ShouldDisableChannel_channel_type (H := Sample.serviceEnv) 1 14);
      discriminate.
  - apply (proj2 (ShouldDisableChannel_channel_type (H := Sample.serviceEnv)
                    1 1 (Some (Sample.upstreamError "unauthorized" 401 false)))).
    reflexivity.
Defined.

Lemma safety_block_never_disables_witness :
  ShouldDisableChannel (H := Sample.serviceEnv) 24
    (Some {| Err_ := "content blocked by Gemini safety filter: PROHIBITED_CONTENT";
             errorCode := ErrorCodeContentFiltered;
             StatusCode := http.StatusBadRequest; skipRetry := true |})
  = false.
Proof.
  refine (proj1 (safety_block_never_disables (H := Sample.relayEnv)
                   (H0 := Sample.serviceEnv) 24
                   {| Err_ := "content blocked by Gemini safety filter: PROHIBITED_CONTENT";
                      errorCode := ErrorCodeContentFiltered;
                      StatusCode := http.StatusBadRequest;
                      skipRetry := true |} eq_refl)
            {| ReadAll_Body := Ok Sample.chunkBlocked |}
            [LogWarn "Gemini content blocked: PROHIBITED_CONTENT";
             CloseResponseBody] _ _).
  - vm_compute. reflexivity.
  - discriminate.
Defined.

Lemma formatNotifyType_inj_witness :
  formatNotifyType (H0 := MoreSamples.channelEnv) 7 3
  <> formatNotifyType (H0 := MoreSamples.channelEnv) 73 1.
Proof.
  intros Heq.
  apply (formatNotifyType_inj (H0 := MoreSamples.channelEnv)) in Heq.
  destruct Heq as [Hid _]. discriminate.
Defined.

Lemma DisableChannel_effects_witness :
  updates (DisableChannel (H := Sample.serviceEnv)
             (H0 := MoreSamples.channelEnv) MoreSamples.channelManual
             "quota exhausted") = []
  /\ notifications (DisableChannel (H := Sample.serviceEnv)
                      (H0 := MoreSamples.channelEnv)
                      MoreSamples.channelManual "quota exhausted") = []
  /\ updates (DisableChannel (H := Sample.serviceEnv)
                (H0 := MoreSamples.channelEnv) MoreSamples.channelSeven
                "quota exhausted")
     = [(7, "key-a", 3, "quota exhausted")].
Proof.
  destruct (DisableChannel_effects (H := Sample.serviceEnv)
              (H0 := MoreSamples.channelEnv) MoreSamples.channelManual
              "quota exhausted") as [Hoff _].
  destruct (DisableChannel_effects (H := Sample.serviceEnv)
              (H0 := MoreSamples.channelEnv) MoreSamples.channelSeven
              "quota exhausted") as [_ Hon].
  destruct (Hoff eq_refl) as [Hu Hn]. destruct (Hon eq_refl) as [Hu' _].
  split; [exact Hu|]. split; [exact Hn | exact Hu'].
Defined.

Lemma GeminiTextGenerationStreamHandler_in_order_witness :
  forwarded (trace (fst (GeminiTextGenerationStreamHandler
    (H := Sample.relayEnv) Sample.info
    [Sample.chunkText; Sample.chunkMalformed; Sample.chunkImages])))
  `prefix_of` [Sample.chunkText; Sample.chunkMalformed; Sample.chunkImages].
Proof.
  apply (GeminiTextGenerationStreamHandler_in_order (H := Sample.relayEnv)).
  intros r Hr. vm_compute in Hr. discriminate.
Defined.

Lemma GeminiTextGenerationStreamHandler_forwards_all_witness :
  forwarded (trace (fst (GeminiTextGenerationStreamHandler
    (H := Sample.relayEnv) Sample.info
    [Sample.chunkThought; Sample.chunkText; Sample.chunkImages])))
  = [Sample.chunkThought; Sample.chunkText; Sample.chunkImages].
Proof.
  apply (GeminiTextGenerationStreamHandler_forwards_all
           (H := Sample.relayEnv)).
  repeat apply Forall_cons_2; try apply Forall_nil_2;
    (split; [intros Heq; vm_compute in Heq; discriminate|]).
  - exists Sample.responseThought. split; vm_compute; reflexivity.
  - exists Sample.responseText_. split; vm_compute; reflexivity.
  - exists Sample.responseImages. split; vm_compute; reflexivity.
Defined.

Lemma GeminiTextGenerationStreamHandler_blocked_nothing_written_witness :
  forwarded (trace (fst (GeminiTextGenerationStreamHandler
    (H := Sample.relayEnv) Sample.info
    [Sample.chunkThought; Sample.chunkBlocked; Sample.chunkText]))) = [].
Proof.
  apply (GeminiTextGenerationStreamHandler_blocked_nothing_written
           (H := Sample.relayEnv) Sample.info _
           {| Err_ := "content blocked by Gemini safety filter: PROHIBITED_CONTENT";
              errorCode := ErrorCodeContentFiltered;
              StatusCode := http.StatusBadRequest; skipRetry := true |});
    try reflexivity.
  intros r Hr. vm_compute in Hr. discriminate.
Defined.

Lemma GeminiTextGenerationStreamHandler_send_count_witness :
  sendResponseCount (fst (GeminiTextGenerationStreamHandler
    (H := Sample.relayEnv) Sample.info
    [Sample.chunkThought; Sample.chunkText; Sample.chunkImages])) = 3.
Proof.
  rewrite (GeminiTextGenerationStreamHandler_send_count
             (H := Sample.relayEnv) Sample.info
             [Sample.chunkThought; Sample.chunkText; Sample.chunkImages]
             eq_refl eq_refl).
  vm_compute. reflexivity.
Defined.

Lemma GeminiTextGenerationStreamHandler_held_chunk_released_witness :
  forwarded (trace (fst (GeminiTextGenerationStreamHandler
    (H := Sample.relayEnv) Sample.info [Sample.chunkThought])))
  = [Sample.chunkThought]
  /\ snd (GeminiTextGenerationStreamHandler (H := Sample.relayEnv)
            Sample.info [Sample.chunkThought]) = (Some Usage_zero, None).
Proof.
  apply (GeminiTextGenerationStreamHandler_held_chunk_released
           (H := Sample.relayEnv) Sample.info Sample.chunkThought
           Sample.responseThought); try reflexivity.
  intros Heq. vm_compute in Heq. discriminate.
Defined.


Lemma GeminiTextGenerationStreamHandler_held_chunk_not_accounted_witness :
  snd (GeminiTextGenerationStreamHandler (H := Sample.relayEnv) Sample.info
         [Sample.chunkThought; Sample.chunkImages])
  = snd (GeminiTextGenerationStreamHandler (H := Sample.relayEnv)
           Sample.info [Sample.chunkImages]).
Proof.
  apply (GeminiTextGenerationStreamHandler_held_chunk_not_accounted
           (H := Sample.relayEnv) Sample.info Sample.chunkThought
           Sample.chunkImages Sample.responseThought Sample.responseImages);
    try reflexivity.
  intros Heq. vm_compute in Heq. discriminate.
Defined.

Lemma updateUsage_snapshot_witness :
  usage (updateUsage MoreSamples.sampleMetadata
           (Session_init Sample.info))
  = {| PromptTokens := 20; CompletionTokens := 8; TotalTokens := 28;
       PromptTokensDetails := {| AudioTokens := 4; TextTokens := 11 |};
       CompletionTokenDetails := {| ReasoningTokens := 2 |} |}.
Proof.
  rewrite (proj1 (proj2 (updateUsage_snapshot MoreSamples.sampleMetadata
                           (Session_init Sample.info)))).
  - vm_compute. reflexivity.
  - discriminate.
Defined.

End MoreExamples.
